(** * Node classification notebook (stochastic training with GraphBolt)

    A shallow embedding of
    [notebooks/stochastic_training/node_classification.ipynb].

    The notebook is a sequence of code cells that call into external
    libraries (torch, dgl, dgl.graphbolt, sklearn, tqdm).  Every cell is
    embedded as a computation in a small monad that threads the kernel
    state, may raise a Python exception, and records the trace of the
    library calls, prints and raised exceptions.  The libraries are an
    interface ([Library]): the notebook is verified for every
    implementation of it. *)

From stdpp Require Import base option list strings gmap pretty.

Open Scope string_scope.
Open Scope list_scope.

(** ** Python exceptions *)

Inductive exc_class :=
| BaseException | KeyboardInterrupt | Exception
| ImportError | ModuleNotFoundError
| NameError | TypeError | AttributeError
| LookupError | IndexError | KeyError
| StopIteration | ValueError | RuntimeError | OSError.

#[global] Instance exc_class_eq_dec : EqDecision exc_class :=
  ltac:(solve_decision).

(** The method resolution order of the built-in exception classes. *)
Definition mro (c : exc_class) : list exc_class :=
  match c with
  | BaseException => [BaseException]
  | KeyboardInterrupt => [KeyboardInterrupt; BaseException]
  | Exception => [Exception; BaseException]
  | ImportError => [ImportError; Exception; BaseException]
  | ModuleNotFoundError =>
      [ModuleNotFoundError; ImportError; Exception; BaseException]
  | NameError => [NameError; Exception; BaseException]
  | TypeError => [TypeError; Exception; BaseException]
  | AttributeError => [AttributeError; Exception; BaseException]
  | LookupError => [LookupError; Exception; BaseException]
  | IndexError => [IndexError; LookupError; Exception; BaseException]
  | KeyError => [KeyError; LookupError; Exception; BaseException]
  | StopIteration => [StopIteration; Exception; BaseException]
  | ValueError => [ValueError; Exception; BaseException]
  | RuntimeError => [RuntimeError; Exception; BaseException]
  | OSError => [OSError; Exception; BaseException]
  end.

Record exn := Exn { exc_type : exc_class; exc_msg : string }.

#[global] Instance exn_eq_dec : EqDecision exn :=
  ltac:(solve_decision).

(** [isinstance e c]: what an [except c] clause tests. *)
Definition isinstance (e : exn) (c : exc_class) : bool :=
  bool_decide (c ∈ mro (exc_type e)).

(** [str(error)] *)
Definition str_exn (e : exn) : string := exc_msg e.

(** The result of evaluating a Python expression. *)
Inductive outcome (A : Type) :=
| Returned (a : A)
| Raised (e : exn).
Arguments Returned {A} a.
Arguments Raised {A} e.

Definition obind {A B} (r : outcome A) (k : A → outcome B) : outcome B :=
  match r with
  | Returned a => k a
  | Raised e => Raised e
  end.

(** ** Python values the notebook handles itself *)

(** Values of the task metadata dictionary. *)
Inductive pyval :=
| PInt (z : Z)
| PStr (s : string).

(** [str(v)], as an f-string placeholder renders it. *)
Definition str_pyval (v : pyval) : string :=
  match v with
  | PInt z => pretty z
  | PStr s => s
  end.

(** [torch.device]: a device type and an optional ordinal. *)
Record torch_device_t := TorchDevice { dev_type : string; dev_index : option nat }.

#[global] Instance torch_device_eq_dec : EqDecision torch_device_t :=
  ltac:(solve_decision).

(** [torch.device(s)] for a bare device type such as ["cpu"] or ["cuda"]. *)
Definition torch_device (s : string) : torch_device_t :=
  {| dev_type := s; dev_index := None |}.

(** ** Opaque library objects *)

Class Carriers := {
  tensor : Type;        (* torch.Tensor *)
  ndarray : Type;       (* numpy.ndarray *)
  scalar : Type;        (* Python float *)
  graph_t : Type;       (* gb sampling graph *)
  feature_t : Type;     (* gb feature store *)
  itemset_t : Type;     (* gb.ItemSet *)
  block_t : Type;       (* DGL block, one message flow graph *)
  weights_t : Type;     (* parameters of one SAGEConv layer *)
  grads_t : Type;       (* the .grad buffers of the model parameters *)
  adam_t : Type;        (* state of torch.optim.Adam *)
}.

Section Data.
Context `{C : Carriers}.

(** One task of a dataset: the three item sets and the metadata dict. *)
Record Task := {
  train_set : itemset_t;
  validation_set : itemset_t;
  test_set : itemset_t;
  metadata : gmap string pyval;
}.

Record Dataset := {
  graph : graph_t;
  feature : feature_t;
  tasks : list Task;
}.

(** [gb.MiniBatch]: the attributes the notebook and the pipeline use.
    [None] is Python's [None]. *)
Record MiniBatch := {
  seeds : option tensor;
  labels : option tensor;
  input_nodes : option tensor;
  sampled_subgraphs : option (list block_t);
  node_features : option (gmap string tensor);
  mb_device : option torch_device_t;
}.

(** [MiniBatch.blocks]: the message flow graphs of the sampled
    subgraphs, [None] before sampling. *)
Definition blocks (mb : MiniBatch) : option (list block_t) :=
  sampled_subgraphs mb.

(** [dgl.nn.SAGEConv]: its configuration and its parameters. *)
Record SAGEConv := {
  in_feats : pyval;
  out_feats : pyval;
  aggregator_type : string;
  weight : weights_t;
}.

(** [class Model(nn.Module)], with the device [.to] placed it on. *)
Record Model := {
  conv1 : SAGEConv;
  conv2 : SAGEConv;
  h_feats : pyval;
  model_device : option torch_device_t;
}.

(** A data pipe is a chain of stages, each wrapping its source. *)
Inductive datapipe :=
| ItemSampler (itemset : itemset_t) (batch_size : Z) (shuffle : bool)
| CopyTo (src : datapipe) (d : torch_device_t) (extra_attrs : list string)
| SampleNeighbor (src : datapipe) (g : graph_t) (fanouts : list Z)
| FetchFeature (src : datapipe) (f : feature_t) (node_feature_keys : list string).

Inductive dataloader := DataLoader (dp : datapipe).
End Data.

(** ** The external libraries

    Everything the notebook calls but does not define.  A call either
    returns or raises; no other assumption is made. *)

Class Library `{C : Carriers} := {
  (* the runtime *)
  cuda_is_available : bool;
  torch_version : string;
  import_module : string → outcome unit;
  (* dgl.graphbolt *)
  BuiltinDataset_load : string → outcome Dataset;
  graph_to : graph_t → torch_device_t → outcome graph_t;
  feature_to : feature_t → torch_device_t → outcome feature_t;
  feature_size : feature_t → string → string → outcome (list Z);
  ItemSampler_init : itemset_t → Z → bool → outcome unit;
  copy_to_init : torch_device_t → list string → outcome unit;
  sample_neighbor_init : graph_t → list Z → outcome unit;
  fetch_feature_init : feature_t → list string → outcome unit;
  DataLoader_init : datapipe → outcome unit;
  item_batches :
    itemset_t → Z → bool → nat → list (outcome (tensor * option tensor));
  tensor_to : torch_device_t → tensor → outcome tensor;
  sample_neighbors :
    graph_t → list Z → tensor → outcome (tensor * list block_t);
  read_feature : feature_t → string → tensor → outcome tensor;
  srcdata_NID : block_t → outcome tensor;
  (* torch and dgl.nn *)
  SAGEConv_init : pyval → pyval → string → outcome weights_t;
  SAGEConv_call : SAGEConv → block_t → tensor → outcome tensor;
  weights_to : torch_device_t → weights_t → outcome weights_t;
  relu : tensor → outcome tensor;
  cross_entropy : tensor → option tensor → outcome tensor;
  backward : tensor → option grads_t → outcome grads_t;
  Adam_init : weights_t → weights_t → outcome adam_t;
  Adam_step :
    adam_t → option grads_t → weights_t * weights_t →
    outcome (adam_t * (weights_t * weights_t));
  item : tensor → outcome scalar;
  argmax : tensor → Z → outcome tensor;
  detach : tensor → outcome tensor;
  cpu : tensor → outcome tensor;
  numpy : tensor → outcome ndarray;
  (* numpy and sklearn *)
  concatenate : list ndarray → outcome ndarray;
  accuracy_score : ndarray → ndarray → outcome scalar;
  (* rendering *)
  fmt_03f : scalar → string;           (* "%.03f" % x *)
  str_scalar : scalar → string;
  str_tensor : tensor → string;
  str_minibatch : MiniBatch → string;
}.

(** ** Operations and traces *)

(** The operations a cell can perform.  [OpName], [OpSubscript] and
    [OpMethod] are evaluation steps of the interpreter itself and only
    show up when they raise.  [OpTorchSave], [OpOpen] and [OpParseArgs]
    are the ways a script of this kind writes a checkpoint or a file, or
    reads a command line. *)
Inductive op :=
| OpImport (module : string)
| OpSetEnviron (key : string)
| OpShell (cmd : string)
| OpPrint (line : string)
| OpDatasetLoad (name : string)
| OpGraphTo (d : torch_device_t)
| OpFeatureTo (d : torch_device_t)
| OpFeatureSize
| OpItemSampler (batch_size : Z) (shuffle : bool)
| OpCopyTo (d : torch_device_t) (extra_attrs : list string)
| OpSampleNeighbor (fanouts : list Z)
| OpFetchFeature (keys : list string)
| OpDataLoader
| OpIter
| OpNext
| OpSAGEConv (aggregator : string)
| OpModelTo (d : torch_device_t)
| OpAdam
| OpModelTrain
| OpModelEval
| OpTqdm
| OpTqdmClose
| OpNoGradEnter
| OpNoGradExit
| OpForward (grad : bool)
| OpCrossEntropy
| OpZeroGrad
| OpBackward
| OpOptStep
| OpConcatenate
| OpAccuracyScore
| OpSetPostfix (loss acc : string)
| OpName (name : string)
| OpSubscript
| OpMethod (name : string)
| OpTorchSave (path : string)
| OpOpen (path mode : string)
| OpParseArgs.

#[global] Instance op_eq_dec : EqDecision op :=
  ltac:(solve_decision).

Inductive event :=
| ECall (o : op)
| ERaise (o : op) (e : exn).

#[global] Instance event_eq_dec : EqDecision event :=
  ltac:(solve_decision).

(** The library calls of a trace, in order. *)
Definition calls (t : list event) : list op :=
  omap (λ ev, match ev with ECall o => Some o | ERaise _ _ => None end) t.

(** What the [print] statements wrote, line by line. *)
Definition printed (t : list event) : list string :=
  omap (λ ev, match ev with ECall (OpPrint s) => Some s | _ => None end) t.

(** The loss strings handed to the progress bar, in order. *)
Definition shown_losses (t : list event) : list string :=
  omap (λ ev, match ev with
              | ECall (OpSetPostfix l _) => Some l
              | _ => None
              end) t.

(** The API name of a call, as the notebook spells it. *)
Definition api (o : op) : string :=
  match o with
  | OpImport _ => "import"
  | OpSetEnviron _ => "os.environ"
  | OpShell _ => "!"
  | OpPrint _ => "print"
  | OpDatasetLoad _ => "gb.BuiltinDataset.load"
  | OpGraphTo _ => "graph.to"
  | OpFeatureTo _ => "feature.to"
  | OpFeatureSize => "feature.size"
  | OpItemSampler _ _ => "gb.ItemSampler"
  | OpCopyTo _ _ => "copy_to"
  | OpSampleNeighbor _ => "sample_neighbor"
  | OpFetchFeature _ => "fetch_feature"
  | OpDataLoader => "gb.DataLoader"
  | OpIter => "iter"
  | OpNext => "next"
  | OpSAGEConv _ => "SAGEConv"
  | OpModelTo _ => "model.to"
  | OpAdam => "torch.optim.Adam"
  | OpModelTrain => "model.train"
  | OpModelEval => "model.eval"
  | OpTqdm => "tqdm"
  | OpTqdmClose => "tqdm.close"
  | OpNoGradEnter => "torch.no_grad"
  | OpNoGradExit => "torch.no_grad.exit"
  | OpForward _ => "model"
  | OpCrossEntropy => "F.cross_entropy"
  | OpZeroGrad => "opt.zero_grad"
  | OpBackward => "loss.backward"
  | OpOptStep => "opt.step"
  | OpConcatenate => "np.concatenate"
  | OpAccuracyScore => "sklearn.metrics.accuracy_score"
  | OpSetPostfix _ _ => "tq.set_postfix"
  | OpName _ => "name"
  | OpSubscript => "subscript"
  | OpMethod _ => "method"
  | OpTorchSave _ => "torch.save"
  | OpOpen _ _ => "open"
  | OpParseArgs => "argparse"
  end.

(** ** The kernel state and the cell monad *)

Section Kernel.
Context `{L : Library}.

(** What persists in the kernel between statements and is mutated in
    place: the module-level names bound by imports, the process
    environment, the model and its gradient buffers, the optimizer,
    the module's train/eval flag, autograd's grad mode, and how many
    data loader iterations were started (which drives shuffling). *)
Record kernel := {
  names : list string;
  environ : gmap string string;
  model : option Model;
  grads : option grads_t;
  opt : option adam_t;
  training : bool;
  grad_enabled : bool;
  iterations : nat;
}.

Definition M (A : Type) : Type := kernel → outcome A * kernel * list event.

Definition ret {A} (a : A) : M A := λ k, (Returned a, k, []).

Definition bind {A B} (m : M A) (f : A → M B) : M B := λ k,
  match m k with
  | (Returned a, k1, t1) =>
      match f a k1 with
      | (r, k2, t2) => (r, k2, t1 ++ t2)
      end
  | (Raised e, k1, t1) => (Raised e, k1, t1)
  end.

(** An operation that raises. *)
Definition raise_at {A} (o : op) (e : exn) : M A := λ k,
  (Raised e, k, [ERaise o e]).

(** Record a call. *)
Definition tick (o : op) : M unit := λ k, (Returned tt, k, [ECall o]).

(** The outcome of an evaluation step that is not a library call. *)
Definition eval_at {A} (o : op) (r : outcome A) : M A :=
  match r with
  | Returned a => ret a
  | Raised e => raise_at o e
  end.

Definition get : M kernel := λ k, (Returned k, k, []).
Definition modify (f : kernel → kernel) : M unit := λ k, (Returned tt, f k, []).
End Kernel.

Declare Scope cell_scope.
Delimit Scope cell_scope with cell.
Notation "x <- m ;; f" := (bind m (λ x, f))
  (at level 100, m at next level, right associativity) : cell_scope.
Notation "m ;; f" := (bind m (λ _, f))
  (at level 100, right associativity) : cell_scope.
Open Scope cell_scope.

(** ** Statements and expressions of the interpreter *)

Section Python.
Context `{L : Library}.

(** A library call: it is recorded, then returns or raises. *)
Definition call {A} (o : op) (r : outcome A) : M A :=
  tick o ;; eval_at o r.

Definition print (line : string) : M unit := tick (OpPrint line).

(** [try: body / except cls as error: handler error] *)
Definition try_except {A} (body : M A) (cls : exc_class)
    (handler : exn → M A) : M A := λ k,
  match body k with
  | (Raised e, k1, t1) =>
      if isinstance e cls then
        match handler e k1 with
        | (r, k2, t2) => (r, k2, t1 ++ t2)
        end
      else (Raised e, k1, t1)
  | done => done
  end.

(** [with cm: body]: [on_exit] is the context manager's [__exit__].
    It runs whether or not the body raised; neither [tqdm] nor
    [torch.no_grad] swallows the exception of the body. *)
Definition with_exit {A} (body : M A) (on_exit : M unit) : M A := λ k,
  match body k with
  | (r, k1, t1) =>
      match on_exit k1 with
      | (Returned _, k2, t2) => (r, k2, t1 ++ t2)
      | (Raised e, k2, t2) => (Raised e, k2, t1 ++ t2)
      end
  end.

(** [for x in xs: body x] over a list. *)
Fixpoint for_in {X} (xs : list X) (body : X → M unit) : M unit :=
  match xs with
  | [] => ret tt
  | x :: rest => body x ;; for_in rest body
  end.

(** [l[i]] on a list. *)
Definition subscript {X} (l : list X) (i : nat) : outcome X :=
  match l !! i with
  | Some x => Returned x
  | None => Raised (Exn IndexError "list index out of range")
  end.

(** [l[i]] where [l] may be [None]. *)
Definition subscript_opt {X} (l : option (list X)) (i : nat) : outcome X :=
  match l with
  | Some l => subscript l i
  | None => Raised (Exn TypeError "'NoneType' object is not subscriptable")
  end.

(** [d[key]] on a dict. *)
Definition getitem {V} (d : gmap string V) (key : string) : outcome V :=
  match d !! key with
  | Some v => Returned v
  | None => Raised (Exn KeyError ("'" +:+ key +:+ "'"))
  end.

(** [d[key]] where [d] may be [None]. *)
Definition getitem_opt {V} (d : option (gmap string V)) (key : string)
    : outcome V :=
  match d with
  | Some d => getitem d key
  | None => Raised (Exn TypeError "'NoneType' object is not subscriptable")
  end.

(** Setters of the kernel fields. *)
Definition set_names (v : list string) (k : kernel) : kernel :=
  {| names := v; environ := environ k; model := model k; grads := grads k;
     opt := opt k; training := training k; grad_enabled := grad_enabled k;
     iterations := iterations k |}.
Definition set_environ (v : gmap string string) (k : kernel) : kernel :=
  {| names := names k; environ := v; model := model k; grads := grads k;
     opt := opt k; training := training k; grad_enabled := grad_enabled k;
     iterations := iterations k |}.
Definition set_model (v : option Model) (k : kernel) : kernel :=
  {| names := names k; environ := environ k; model := v; grads := grads k;
     opt := opt k; training := training k; grad_enabled := grad_enabled k;
     iterations := iterations k |}.
Definition set_grads (v : option grads_t) (k : kernel) : kernel :=
  {| names := names k; environ := environ k; model := model k; grads := v;
     opt := opt k; training := training k; grad_enabled := grad_enabled k;
     iterations := iterations k |}.
Definition set_opt (v : option adam_t) (k : kernel) : kernel :=
  {| names := names k; environ := environ k; model := model k;
     grads := grads k; opt := v; training := training k;
     grad_enabled := grad_enabled k; iterations := iterations k |}.
Definition set_training (v : bool) (k : kernel) : kernel :=
  {| names := names k; environ := environ k; model := model k;
     grads := grads k; opt := opt k; training := v;
     grad_enabled := grad_enabled k; iterations := iterations k |}.
Definition set_grad_enabled (v : bool) (k : kernel) : kernel :=
  {| names := names k; environ := environ k; model := model k;
     grads := grads k; opt := opt k; training := training k;
     grad_enabled := v; iterations := iterations k |}.
Definition set_iterations (v : nat) (k : kernel) : kernel :=
  {| names := names k; environ := environ k; model := model k;
     grads := grads k; opt := opt k; training := training k;
     grad_enabled := grad_enabled k; iterations := v |}.

(** Reading a module-level name bound by an import. *)
Definition name_ (n : string) : M unit :=
  k <- get ;;
  if bool_decide (n ∈ names k) then ret tt
  else raise_at (OpName n)
         (Exn NameError ("name '" +:+ n +:+ "' is not defined")).

(** [import module as as_name] *)
Definition import_ (module as_name : string) : M unit :=
  call (OpImport module) (import_module module) ;;
  modify (λ k, set_names (as_name :: names k) k).

(** [os.environ[key] = value] *)
Definition setenv (key value : string) : M unit :=
  tick (OpSetEnviron key) ;;
  modify (λ k, set_environ (<[key := value]> (environ k)) k).

(** The global [model]. *)
Definition get_model : M Model :=
  k <- get ;;
  match model k with
  | Some m => ret m
  | None => raise_at (OpName "model")
              (Exn NameError "name 'model' is not defined")
  end.

(** The global [opt]. *)
Definition get_opt : M adam_t :=
  k <- get ;;
  match opt k with
  | Some a => ret a
  | None => raise_at (OpName "opt")
              (Exn NameError "name 'opt' is not defined")
  end.
End Python.

(** ** The data pipeline *)

Section Pipeline.
Context `{L : Library}.

(** Modelled from the spec: the stages of the graphbolt data pipe are
    library code that is not part of the notebook.  Following the
    glossary (a minibatch is a batch of seed nodes with sampled
    neighborhoods and fetched features, produced by the external data
    pipeline), the item sampler emits the batches of seeds and labels,
    and every later stage fills in or moves the attributes it is named
    after and passes the others on.  What the library computes for
    them is left to [Library]. *)
Definition item_sampler (b : tensor * option tensor) : outcome MiniBatch :=
  Returned {| seeds := Some b.1; labels := b.2; input_nodes := None;
              sampled_subgraphs := None; node_features := None;
              mb_device := None |}.

(** Modelled from the spec: moving an attribute that may be [None]. *)
Definition move_opt (d : torch_device_t) (t : option tensor)
    : outcome (option tensor) :=
  match t with
  | Some t => obind (tensor_to d t) (λ t', Returned (Some t'))
  | None => Returned None
  end.

(** Modelled from the spec: the [copy_to] stage moves the tensors of
    the minibatch to the device and records where the minibatch is. *)
Definition copy_to (d : torch_device_t) (extra_attrs : list string)
    (mb : MiniBatch) : outcome MiniBatch :=
  obind (move_opt d (seeds mb)) (λ s,
  obind (move_opt d (labels mb)) (λ l,
  obind (move_opt d (input_nodes mb)) (λ i,
  Returned {| seeds := s; labels := l; input_nodes := i;
              sampled_subgraphs := sampled_subgraphs mb;
              node_features := node_features mb;
              mb_device := Some d |}))).

(** Modelled from the spec: the [sample_neighbor] stage samples the
    neighborhoods of the seeds and stores the input nodes and the
    sampled subgraphs, one per fanout. *)
Definition sample_neighbor (g : graph_t) (fanouts : list Z)
    (mb : MiniBatch) : outcome MiniBatch :=
  match seeds mb with
  | None => Raised (Exn TypeError "seeds is None")
  | Some s =>
      obind (sample_neighbors g fanouts s) (λ r,
      Returned {| seeds := seeds mb; labels := labels mb;
                  input_nodes := Some r.1;
                  sampled_subgraphs := Some r.2;
                  node_features := node_features mb;
                  mb_device := mb_device mb |})
  end.

(** Modelled from the spec: one read of the feature store per key. *)
Fixpoint read_features (f : feature_t) (keys : list string) (ids : tensor)
    : outcome (gmap string tensor) :=
  match keys with
  | [] => Returned ∅
  | key :: rest =>
      obind (read_feature f key ids) (λ t,
      obind (read_features f rest ids) (λ m,
      Returned (<[key := t]> m)))
  end.

(** Modelled from the spec: the [fetch_feature] stage reads the node
    features of the input nodes under the given keys. *)
Definition fetch_feature (f : feature_t) (node_feature_keys : list string)
    (mb : MiniBatch) : outcome MiniBatch :=
  match input_nodes mb with
  | None => Raised (Exn TypeError "input_nodes is None")
  | Some ids =>
      obind (read_features f node_feature_keys ids) (λ m,
      Returned {| seeds := seeds mb; labels := labels mb;
                  input_nodes := input_nodes mb;
                  sampled_subgraphs := sampled_subgraphs mb;
                  node_features := Some m;
                  mb_device := mb_device mb |})
  end.

(** Modelled from the spec: what iterating a data pipe yields in its
    [n]-th iteration.  Each item is a minibatch that went through the
    stages in order, or the exception that fetching it raises. *)
Fixpoint stream (dp : datapipe) (n : nat) : list (outcome MiniBatch) :=
  match dp with
  | ItemSampler itemset batch_size shuffle =>
      (λ r, obind r item_sampler) <$> item_batches itemset batch_size shuffle n
  | CopyTo src d extra_attrs =>
      (λ r, obind r (copy_to d extra_attrs)) <$> stream src n
  | SampleNeighbor src g fanouts =>
      (λ r, obind r (sample_neighbor g fanouts)) <$> stream src n
  | FetchFeature src f keys =>
      (λ r, obind r (fetch_feature f keys)) <$> stream src n
  end.

(** The stages of a data pipe from the source to the sink, by the
    name of the call that adds them. *)
Fixpoint stages (dp : datapipe) : list op :=
  match dp with
  | ItemSampler _ batch_size shuffle => [OpItemSampler batch_size shuffle]
  | CopyTo src d extra_attrs => stages src ++ [OpCopyTo d extra_attrs]
  | SampleNeighbor src _ fanouts => stages src ++ [OpSampleNeighbor fanouts]
  | FetchFeature src _ keys => stages src ++ [OpFetchFeature keys]
  end.

(** [iter(loader)]: start an iteration. *)
Definition iter_ (dl : dataloader) : M (list (outcome MiniBatch)) :=
  tick OpIter ;;
  k <- get ;;
  modify (set_iterations (S (iterations k))) ;;
  ret (match dl with DataLoader dp => stream dp (iterations k) end).

(** [next(it)] *)
Definition next_ (it : list (outcome MiniBatch)) : M MiniBatch :=
  match it with
  | r :: _ => call OpNext r
  | [] => call OpNext (Raised (Exn StopIteration ""))
  end.
End Pipeline.

(** ** The cells of the notebook *)

(** The globals bound by the dataset cell. *)
Record globals `{C : Carriers} := {
  g_graph : graph_t;
  g_feature : feature_t;
  g_train_set : itemset_t;
  g_valid_set : itemset_t;
  g_test_set : itemset_t;
  g_task_name : pyval;
  g_num_classes : pyval;
}.

Section Notebook.
Context `{L : Library}.

(** [device = torch.device("cpu")] *)
Definition device : torch_device_t := torch_device "cpu".

Definition pip_install : string :=
  "pip install --pre dgl -f https://data.dgl.ai/wheels-test/repo.html".

(** The [try]/[except ImportError] of the install cell and the status
    line after it. *)
Definition import_guard : M unit :=
  installed <- try_except
    (import_ "dgl" "dgl" ;;
     import_ "dgl.graphbolt" "gb" ;;
     ret true)
    ImportError
    (λ error, print (str_exn error) ;; ret false) ;;
  print (if installed : bool then "DGL installed!" else "DGL not found!").

(** Cell "Install DGL package". *)
Definition cell_install : M unit :=
  import_ "os" "os" ;;
  import_ "torch" "torch" ;;
  import_ "numpy" "np" ;;
  setenv "TORCH" torch_version ;;
  setenv "DGLBACKEND" "pytorch" ;;
  tick (OpShell pip_install) ;;
  import_guard.

(** [dataset = gb.BuiltinDataset("ogbn-arxiv-seeds").load()] *)
Definition cell_dataset : M Dataset :=
  name_ "gb" ;;
  call (OpDatasetLoad "ogbn-arxiv-seeds")
       (BuiltinDataset_load "ogbn-arxiv-seeds").

(** The cell that unpacks the dataset and prints the task. *)
Definition cell_task (dataset : Dataset) : M globals :=
  graph <- call (OpGraphTo device) (graph_to (graph dataset) device) ;;
  feature <- call (OpFeatureTo device) (feature_to (feature dataset) device) ;;
  t <- eval_at OpSubscript (subscript (tasks dataset) 0) ;;
  let train_set := train_set t in
  t <- eval_at OpSubscript (subscript (tasks dataset) 0) ;;
  let valid_set := validation_set t in
  t <- eval_at OpSubscript (subscript (tasks dataset) 0) ;;
  let test_set := test_set t in
  t <- eval_at OpSubscript (subscript (tasks dataset) 0) ;;
  task_name <- eval_at OpSubscript (getitem (metadata t) "name") ;;
  t <- eval_at OpSubscript (subscript (tasks dataset) 0) ;;
  num_classes <- eval_at OpSubscript (getitem (metadata t) "num_classes") ;;
  print ("Task: " +:+ str_pyval task_name +:+ ". Number of classes: "
           +:+ str_pyval num_classes) ;;
  ret {| g_graph := graph; g_feature := feature; g_train_set := train_set;
         g_valid_set := valid_set; g_test_set := test_set;
         g_task_name := task_name; g_num_classes := num_classes |}.

(** [def create_dataloader(itemset, shuffle)].  Each of the five
    calls builds a stage, or raises. *)
Definition create_dataloader (g : globals) (itemset : itemset_t)
    (shuffle : bool) : M dataloader :=
  name_ "gb" ;;
  call (OpItemSampler 1024 shuffle) (ItemSampler_init itemset 1024 shuffle) ;;
  let datapipe := ItemSampler itemset 1024 shuffle in
  call (OpCopyTo device ["seeds"]) (copy_to_init device ["seeds"]) ;;
  let datapipe := CopyTo datapipe device ["seeds"] in
  call (OpSampleNeighbor [4; 4]%Z) (sample_neighbor_init (g_graph g) [4; 4]%Z) ;;
  let datapipe := SampleNeighbor datapipe (g_graph g) [4; 4]%Z in
  call (OpFetchFeature ["feat"]) (fetch_feature_init (g_feature g) ["feat"]) ;;
  let datapipe := FetchFeature datapipe (g_feature g) ["feat"] in
  name_ "gb" ;;
  call OpDataLoader (DataLoader_init datapipe) ;;
  ret (DataLoader datapipe).

(** [data = next(iter(create_dataloader(train_set, shuffle=True)))]
    and [print(data)]. *)
Definition cell_first_minibatch (g : globals) : M MiniBatch :=
  dl <- create_dataloader g (g_train_set g) true ;;
  it <- iter_ dl ;;
  data <- next_ it ;;
  print (str_minibatch data) ;;
  ret data.

(** The cell that prints the input node IDs of the first block. *)
Definition cell_input_nodes (data : MiniBatch) : M unit :=
  let mfgs := blocks data in
  b <- eval_at OpSubscript (subscript_opt mfgs 0) ;;
  name_ "dgl" ;;
  input_nodes <- eval_at OpSubscript (srcdata_NID b) ;;
  print ("Input nodes: " +:+ str_tensor input_nodes +:+ ".").
End Notebook.

(** ** The model and the training loop *)

Section Training.
Context `{L : Library}.

(** [SAGEConv(in_feats, out_feats, aggregator_type=...)] *)
Definition SAGEConv_new (in_feats out_feats : pyval) (aggregator : string)
    : M SAGEConv :=
  w <- call (OpSAGEConv aggregator) (SAGEConv_init in_feats out_feats aggregator) ;;
  ret {| in_feats := in_feats; out_feats := out_feats;
         aggregator_type := aggregator; weight := w |}.

(** [Model.__init__] *)
Definition Model_init (in_feats h_feats num_classes : pyval) : M Model :=
  conv1 <- SAGEConv_new in_feats h_feats "mean" ;;
  conv2 <- SAGEConv_new h_feats num_classes "mean" ;;
  ret {| conv1 := conv1; conv2 := conv2; h_feats := h_feats;
         model_device := None |}.

(** [Model.forward] *)
Definition forward (self : Model) (mfgs : option (list block_t)) (x : tensor)
    : outcome tensor :=
  obind (subscript_opt mfgs 0) (λ b0,
  obind (SAGEConv_call (conv1 self) b0 x) (λ h,
  obind (relu h) (λ h,
  obind (subscript_opt mfgs 1) (λ b1,
  SAGEConv_call (conv2 self) b1 h)))).

Definition with_weight (c : SAGEConv) (w : weights_t) : SAGEConv :=
  {| in_feats := in_feats c; out_feats := out_feats c;
     aggregator_type := aggregator_type c; weight := w |}.

Definition with_weights (m : Model) (w : weights_t * weights_t) : Model :=
  {| conv1 := with_weight (conv1 m) w.1; conv2 := with_weight (conv2 m) w.2;
     h_feats := h_feats m; model_device := model_device m |}.

(** [model.to(d)] *)
Definition Model_to (m : Model) (d : torch_device_t) : M Model :=
  w <- call (OpModelTo d)
         (obind (weights_to d (weight (conv1 m))) (λ w1,
          obind (weights_to d (weight (conv2 m))) (λ w2,
          Returned (w1, w2)))) ;;
  ret {| conv1 := with_weight (conv1 m) w.1;
         conv2 := with_weight (conv2 m) w.2;
         h_feats := h_feats m; model_device := Some d |}.

(** The cell that defines [Model] and builds [model]. *)
Definition cell_model (g : globals) : M unit :=
  import_ "torch.nn" "nn" ;;
  import_ "torch.nn.functional" "F" ;;
  import_ "dgl.nn" "SAGEConv" ;;
  size <- call OpFeatureSize (feature_size (g_feature g) "node" "feat") ;;
  in_size <- eval_at OpSubscript (subscript size 0) ;;
  m <- Model_init (PInt in_size) (PInt 64) (g_num_classes g) ;;
  m <- Model_to m device ;;
  modify (set_model (Some m)).

(** [opt = torch.optim.Adam(model.parameters())] *)
Definition cell_optimizer : M unit :=
  name_ "torch" ;;
  m <- get_model ;;
  a <- call OpAdam (Adam_init (weight (conv1 m)) (weight (conv2 m))) ;;
  modify (set_opt (Some a)).

(** The cell that creates the two data loaders. *)
Definition cell_dataloaders (g : globals) : M (dataloader * dataloader) :=
  train_dataloader <- create_dataloader g (g_train_set g) true ;;
  valid_dataloader <- create_dataloader g (g_valid_set g) false ;;
  import_ "sklearn.metrics" "sklearn" ;;
  ret (train_dataloader, valid_dataloader).

(** [model(mfgs, x)]: the forward pass on the current parameters,
    under the current grad mode. *)
Definition call_model (mfgs : option (list block_t)) (x : tensor) : M tensor :=
  m <- get_model ;;
  k <- get ;;
  call (OpForward (grad_enabled k)) (forward m mfgs x).

(** [opt.zero_grad()] *)
Definition zero_grad : M unit :=
  _ <- get_opt ;;
  tick OpZeroGrad ;;
  modify (set_grads None).

(** [loss.backward()] *)
Definition loss_backward (loss : tensor) : M unit :=
  k <- get ;;
  g <- call OpBackward (backward loss (grads k)) ;;
  modify (set_grads (Some g)).

(** [opt.step()]: the optimizer updates in place the parameters it
    was built on, those of [model].  It is the only statement that
    writes them. *)
Definition opt_step : M unit :=
  a <- get_opt ;;
  k <- get ;;
  match model k with
  | None => tick OpOptStep
  | Some m =>
      r <- call OpOptStep
             (Adam_step a (grads k) (weight (conv1 m), weight (conv2 m))) ;;
      modify (set_opt (Some r.1)) ;;
      modify (set_model (Some (with_weights m r.2)))
  end.

(** [t.cpu().numpy()] where [t] may be [None]. *)
Definition cpu_numpy (t : option tensor) : outcome ndarray :=
  match t with
  | Some t => obind (cpu t) numpy
  | None =>
      Raised (Exn AttributeError "'NoneType' object has no attribute 'cpu'")
  end.

(** The body of the training [for] loop. *)
Definition train_step (data : MiniBatch) : M unit :=
  x <- eval_at OpSubscript (getitem_opt (node_features data) "feat") ;;
  let labels := labels data in
  predictions <- call_model (blocks data) x ;;
  name_ "F" ;;
  loss <- call OpCrossEntropy (cross_entropy predictions labels) ;;
  zero_grad ;;
  loss_backward loss ;;
  opt_step ;;
  name_ "sklearn" ;;
  y_true <- eval_at (OpMethod "numpy") (cpu_numpy labels) ;;
  y_pred <- eval_at (OpMethod "numpy")
              (obind (argmax predictions 1) (λ p,
               obind (detach p) (λ p, obind (cpu p) numpy))) ;;
  accuracy <- call OpAccuracyScore (accuracy_score y_true y_pred) ;;
  l <- eval_at (OpMethod "item") (item loss) ;;
  tick (OpSetPostfix (fmt_03f l) (fmt_03f accuracy)).

(** [for step, data in enumerate(tq): ...] *)
Fixpoint train_loop (items : list (outcome MiniBatch)) : M unit :=
  match items with
  | [] => ret tt
  | item :: rest =>
      data <- call OpNext item ;;
      train_step data ;;
      train_loop rest
  end.

(** The training half of an epoch. *)
Definition train_phase (train_dataloader : dataloader) : M unit :=
  _ <- get_model ;;
  tick OpModelTrain ;;
  modify (set_training true) ;;
  tick OpTqdm ;;
  with_exit
    (items <- iter_ train_dataloader ;;
     train_loop items)
    (tick OpTqdmClose).

(** [for data in tq: ...] of the validation half, with the two lists
    it appends to. *)
Fixpoint valid_loop (items : list (outcome MiniBatch))
    (predictions labels_ : list ndarray) : M (list ndarray * list ndarray) :=
  match items with
  | [] => ret (predictions, labels_)
  | item :: rest =>
      data <- call OpNext item ;;
      x <- eval_at OpSubscript (getitem_opt (node_features data) "feat") ;;
      l <- eval_at (OpMethod "numpy") (cpu_numpy (labels data)) ;;
      let labels_ := labels_ ++ [l] in
      p <- call_model (blocks data) x ;;
      p <- eval_at (OpMethod "numpy")
             (obind (argmax p 1) (λ p, obind (cpu p) numpy)) ;;
      let predictions := predictions ++ [p] in
      valid_loop rest predictions labels_
  end.

(** [with torch.no_grad(): body] *)
Definition no_grad {A} (body : M A) : M A :=
  name_ "torch" ;;
  k <- get ;;
  let prev := grad_enabled k in
  tick OpNoGradEnter ;;
  modify (set_grad_enabled false) ;;
  with_exit body (tick OpNoGradExit ;; modify (set_grad_enabled prev)).

(** The validation half of an epoch. *)
Definition valid_phase (epoch : nat) (valid_dataloader : dataloader) : M unit :=
  _ <- get_model ;;
  tick OpModelEval ;;
  modify (set_training false) ;;
  tick OpTqdm ;;
  with_exit
    (no_grad
       (items <- iter_ valid_dataloader ;;
        r <- valid_loop items [] [] ;;
        name_ "np" ;;
        predictions <- call OpConcatenate (concatenate r.1) ;;
        name_ "np" ;;
        labels_ <- call OpConcatenate (concatenate r.2) ;;
        name_ "sklearn" ;;
        accuracy <- call OpAccuracyScore (accuracy_score labels_ predictions) ;;
        print ("Epoch " +:+ pretty epoch +:+ " Validation Accuracy "
                 +:+ str_scalar accuracy)))
    (tick OpTqdmClose).

(** [for epoch in range(10): ...] *)
Definition training_loop (train_dataloader valid_dataloader : dataloader)
    : M unit :=
  for_in (seq 0 10) (λ epoch,
    train_phase train_dataloader ;;
    valid_phase epoch valid_dataloader).

(** The last cell. *)
Definition cell_train (train_dataloader valid_dataloader : dataloader)
    : M unit :=
  import_ "tqdm.auto" "tqdm" ;;
  training_loop train_dataloader valid_dataloader.

(** The cells up to and including the dataset load. *)
Definition cells_load : M Dataset :=
  cell_install ;;
  cell_dataset.

(** The cells between the dataset load and the training loop. *)
Definition cells_setup (dataset : Dataset) : M (dataloader * dataloader) :=
  g <- cell_task dataset ;;
  data <- cell_first_minibatch g ;;
  cell_input_nodes data ;;
  cell_model g ;;
  cell_optimizer ;;
  cell_dataloaders g.

(** The cells after the import guard. *)
Definition cells_after_guard : M unit :=
  dataset <- cell_dataset ;;
  loaders <- cells_setup dataset ;;
  cell_train loaders.1 loaders.2.

(** Running all cells from top to bottom. *)
Definition notebook : M unit :=
  dataset <- cells_load ;;
  loaders <- cells_setup dataset ;;
  cell_train loaders.1 loaders.2.
End Training.

(** ** A small implementation of the libraries

    Tensors are lists of integers, the layers are the identity and the
    optimizer counts its steps.  It is used to run the notebook. *)

Module Toy.
#[local] Instance carriers : Carriers := {|
  tensor := list Z; ndarray := list Z; scalar := Z;
  graph_t := unit; feature_t := unit; itemset_t := list Z;
  block_t := nat; weights_t := nat; grads_t := unit; adam_t := nat;
|}.

(** What can be varied: the exception that importing [dgl] raises, the
    value of the loss, the number of optimizer steps after which the
    forward pass raises, and whether CUDA is there. *)
Record config := {
  dgl_import_error : option exn;
  loss_value : Z;
  forward_fails_at : option nat;
  has_cuda : bool;
}.

Definition task : Task := {|
  train_set := [1; 2; 3]%Z;
  validation_set := [4; 5]%Z;
  test_set := [6]%Z;
  metadata := <["name" := PStr "node_classification"]>
                (<["num_classes" := PInt 40]> ∅);
|}.

Definition dataset : Dataset :=
  {| graph := tt; feature := tt; tasks := [task] |}.

#[local] Instance library (c : config) : Library := {|
  cuda_is_available := has_cuda c;
  torch_version := "2.1.0";
  import_module m :=
    match dgl_import_error c with
    | Some e => if bool_decide (m = "dgl") then Raised e else Returned tt
    | None => Returned tt
    end;
  BuiltinDataset_load _ := Returned dataset;
  graph_to g _ := Returned g;
  feature_to f _ := Returned f;
  feature_size _ _ _ := Returned [128]%Z;
  ItemSampler_init _ _ _ := Returned tt;
  copy_to_init _ _ := Returned tt;
  sample_neighbor_init _ _ := Returned tt;
  fetch_feature_init _ _ := Returned tt;
  DataLoader_init _ := Returned tt;
  item_batches itemset _ _ _ := [Returned (itemset, Some itemset)];
  tensor_to _ t := Returned t;
  sample_neighbors _ fanouts s := Returned (s, seq 0 (length fanouts));
  read_feature _ _ ids := Returned ids;
  srcdata_NID _ := Returned [1; 2; 3]%Z;
  SAGEConv_init _ _ _ := Returned 0;
  SAGEConv_call conv _ x :=
    if bool_decide (forward_fails_at c = Some (weight conv))
    then Raised (Exn RuntimeError "out of memory")
    else Returned x;
  weights_to _ w := Returned w;
  relu t := Returned t;
  cross_entropy _ _ := Returned [loss_value c];
  backward _ _ := Returned tt;
  Adam_init _ _ := Returned 0;
  Adam_step a _ w := Returned (S a, (S w.1, S w.2));
  item t := Returned (default 0%Z (head t));
  argmax t _ := Returned t;
  detach t := Returned t;
  cpu t := Returned t;
  numpy t := Returned t;
  concatenate l :=
    match l with
    | [] => Raised (Exn ValueError "need at least one array to concatenate")
    | _ => Returned (concat l)
    end;
  accuracy_score y_true y_pred :=
    Returned (if bool_decide (y_true = y_pred) then 1 else 0)%Z;
  fmt_03f := pretty;
  str_scalar := pretty;
  str_tensor _ := "tensor";
  str_minibatch _ := "MiniBatch";
|}.

Definition plain : config :=
  {| dgl_import_error := None; loss_value := 2;
     forward_fails_at := None; has_cuda := false |}.

Definition with_loss (z : Z) : config :=
  {| dgl_import_error := None; loss_value := z;
     forward_fails_at := None; has_cuda := false |}.

(** [dgl] is not installed. *)
Definition no_dgl : config :=
  {| dgl_import_error := Some (Exn ModuleNotFoundError "No module named 'dgl'");
     loss_value := 2; forward_fails_at := None; has_cuda := false |}.

(** Importing [dgl] fails for another reason than a missing module. *)
Definition broken_dgl : config :=
  {| dgl_import_error := Some (Exn OSError "libcudart.so: cannot open shared object file");
     loss_value := 2; forward_fails_at := None; has_cuda := false |}.

(** The forward pass fails once the optimizer has made two steps. *)
Definition failing_forward : config :=
  {| dgl_import_error := None; loss_value := 2;
     forward_fails_at := Some 2; has_cuda := false |}.

(** A fresh kernel. *)
Definition fresh : kernel :=
  {| names := []; environ := ∅; model := None; grads := None; opt := None;
     training := false; grad_enabled := true; iterations := 0 |}.

(** The globals of the dataset cell and the first minibatch of the
    training loader, as [run] computes them. *)
Definition the_globals : globals :=
  {| g_graph := tt; g_feature := tt; g_train_set := [1; 2; 3]%Z;
     g_valid_set := [4; 5]%Z; g_test_set := [6]%Z;
     g_task_name := PStr "node_classification";
     g_num_classes := PInt 40 |}.

Definition first_minibatch : MiniBatch :=
  {| seeds := Some [1; 2; 3]%Z; labels := Some [1; 2; 3]%Z;
     input_nodes := Some [1; 2; 3]%Z; sampled_subgraphs := Some [0; 1];
     node_features := Some (<["feat" := [1; 2; 3]%Z]> ∅);
     mb_device := Some device |}.

Definition train_pipe : datapipe :=
  FetchFeature
    (SampleNeighbor
       (CopyTo (ItemSampler [1; 2; 3]%Z 1024 true) device ["seeds"])
       tt [4; 4]%Z)
    tt ["feat"].

Definition run (c : config) : outcome unit * kernel * list event :=
  @notebook carriers (library c) fresh.
End Toy.

(** ** Specification vocabulary *)

Section Specification.
Context `{L : Library}.

Definition result_of {A} (x : outcome A * kernel * list event) : outcome A :=
  x.1.1.
Definition kernel_of {A} (x : outcome A * kernel * list event) : kernel :=
  x.1.2.
Definition trace_of {A} (x : outcome A * kernel * list event) : list event :=
  x.2.

(** [inv I P m]: from a kernel where [I] holds, [m] ends in a kernel
    where [I] holds, whether it returns or raises, and every event it
    records satisfies [P]. *)
Definition inv (I : kernel → Prop) (P : event → Prop) {A} (m : M A) : Prop :=
  ∀ k, I k → I (kernel_of (m k)) ∧ Forall P (trace_of (m k)).

(** A property of the calls of a trace. *)
Definition on_calls (P : op → Prop) (ev : event) : Prop :=
  match ev with
  | ECall o => P o
  | ERaise _ _ => True
  end.

(** Calls that write files or read a command line: a shell command
    (the one of the notebook installs a package), the dataset loader
    (it downloads the dataset to the disk), [torch.save], [open] and an
    argument parser.  Every other call computes in memory. *)
Definition file_or_cli (o : op) : bool :=
  match o with
  | OpShell _ | OpDatasetLoad _
  | OpTorchSave _ | OpOpen _ _ | OpParseArgs => true
  | _ => false
  end.

(** The device a call places an object on. *)
Definition placement (o : op) : option torch_device_t :=
  match o with
  | OpGraphTo d | OpFeatureTo d | OpCopyTo d _ | OpModelTo d => Some d
  | _ => None
  end.

Definition placed_on (d : torch_device_t) (o : op) : Prop :=
  ∀ d', placement o = Some d' → d' = d.

(** The three groups of calls whose order the notebook fixes. *)
Definition is_dataset_load (o : op) : bool :=
  match o with
  | OpDatasetLoad _ => true
  | _ => false
  end.

Definition is_loader_construction (o : op) : bool :=
  match o with
  | OpItemSampler _ _ | OpCopyTo _ _ | OpSampleNeighbor _
  | OpFetchFeature _ | OpDataLoader => true
  | _ => false
  end.

Definition is_training_call (o : op) : bool :=
  match o with
  | OpModelTrain | OpModelEval | OpTqdm | OpTqdmClose
  | OpNoGradEnter | OpNoGradExit | OpForward _ | OpCrossEntropy
  | OpZeroGrad | OpBackward | OpOptStep | OpConcatenate
  | OpAccuracyScore | OpSetPostfix _ _ => true
  | _ => false
  end.

(** In a list of calls, every call in [P] comes before every call
    in [Q]. *)
Definition precedes (P Q : op → bool) (l : list op) : Prop :=
  ∀ i j a b, l !! i = Some a → l !! j = Some b →
             P a = true → Q b = true → i < j.

(** What the calls of the three parts of the notebook are not. *)
Definition before_load : event → Prop :=
  on_calls (λ o, is_loader_construction o = false
                 ∧ is_training_call o = false).
Definition between : event → Prop :=
  on_calls (λ o, is_dataset_load o = false ∧ is_training_call o = false).
Definition after_setup : event → Prop :=
  on_calls (λ o, is_dataset_load o = false
                 ∧ is_loader_construction o = false).

(** The calls of one iteration of the training [for] loop, in order. *)
Definition step_calls : list string :=
  ["next"; "model"; "F.cross_entropy"; "opt.zero_grad"; "loss.backward";
   "opt.step"; "sklearn.metrics.accuracy_score"; "tq.set_postfix"].

(** Calls that touch the gradients or the parameters. *)
Definition is_optimizer_call (o : op) : bool :=
  match o with
  | OpZeroGrad | OpBackward | OpOptStep => true
  | _ => false
  end.

(** A forward pass recorded with autograd's grad mode switched on. *)
Definition records_grad (o : op) : bool :=
  match o with
  | OpForward g => g
  | _ => false
  end.

Definition no_optimizer : event → Prop :=
  on_calls (λ o, is_optimizer_call o = false).

Definition no_grad_recorded : event → Prop :=
  on_calls (λ o, records_grad o = false).

(** The raises the import guard is there for: an [ImportError] from
    one of its two imports. *)
Definition guarded (o : op) (e : exn) : Prop :=
  (o = OpImport "dgl" ∨ o = OpImport "dgl.graphbolt")
  ∧ isinstance e ImportError = true.

Definition benign (ev : event) : Prop :=
  match ev with
  | ECall _ => True
  | ERaise o e => guarded o e
  end.

Definition no_raise (ev : event) : Prop :=
  match ev with
  | ECall _ => True
  | ERaise _ _ => False
  end.

(** [propagated B x]: apart from events in [B], a run that returned
    recorded no raise, and a run that raised [e] recorded exactly one
    raise, that of [e]. *)
Definition propagated {A} (B : event → Prop)
    (x : outcome A * kernel * list event) : Prop :=
  match result_of x with
  | Returned _ => Forall B (trace_of x)
  | Raised e =>
      ∃ t1 o t2, trace_of x = t1 ++ ERaise o e :: t2
                 ∧ Forall B t1 ∧ Forall B t2
  end.

Definition propagates {A} (B : event → Prop) (m : M A) : Prop :=
  ∀ k, propagated B (m k).

(** The layer configuration of a model, which training leaves alone. *)
Definition layers (m : Model) : list (pyval * pyval * string) :=
  [(in_feats (conv1 m), out_feats (conv1 m), aggregator_type (conv1 m));
   (in_feats (conv2 m), out_feats (conv2 m), aggregator_type (conv2 m))].

(** The model of the kernel has the layers [c] and sits on [d]. *)
Definition has_model (c : list (pyval * pyval * string)) (d : torch_device_t)
    (k : kernel) : Prop :=
  ∃ m, model k = Some m ∧ layers m = c ∧ model_device m = Some d.

(** A computation that always returns and records only calls. *)
Definition quiet_exit (m : M unit) : Prop :=
  ∀ k, result_of (m k) = Returned tt ∧ Forall no_raise (trace_of (m k)).

Definition no_file : event → Prop := on_calls (λ o, file_or_cli o = false).

Definition on_device : event → Prop := on_calls (placed_on device).

(** Events other than a [print]. *)
Definition silent : event → Prop := on_calls (λ o, ∀ s, o ≠ OpPrint s).

(** [follows S m]: a run of [m] that returns made exactly the calls
    [S], in that order; a run that raises made the first few of them. *)
Definition follows (S : list string) {A} (m : M A) : Prop :=
  ∀ k, match result_of (m k) with
       | Returned _ => api <$> calls (trace_of (m k)) = S
       | Raised _ => api <$> calls (trace_of (m k)) `prefix_of` S
       end.

(** The calls of the training half of an epoch that went through [n]
    complete steps and then through the calls [rest] of one more. *)
Definition training_calls (n : nat) (rest : list string) : list string :=
  ["model.train"; "tqdm"; "iter"] ++ concat (replicate n step_calls)
    ++ rest ++ ["tqdm.close"].

(** The status line and the epoch line as the notebook formats them. *)
Definition task_line (task_name num_classes : pyval) : string :=
  "Task: " +:+ str_pyval task_name +:+ ". Number of classes: "
    +:+ str_pyval num_classes.

Definition input_nodes_line (t : tensor) : string :=
  "Input nodes: " +:+ str_tensor t +:+ ".".

Definition epoch_line (epoch : nat) (accuracy : scalar) : string :=
  "Epoch " +:+ pretty epoch +:+ " Validation Accuracy "
    +:+ str_scalar accuracy.
End Specification.

(** C5 as it is stated: no operation of the notebook writes a file or
    reads a command line, in any run. *)
Definition no_operation_writes : Prop :=
  ∀ (C : Carriers) (L : Library) (k : kernel),
    Forall (on_calls (λ o, file_or_cli o = false)) (trace_of (notebook k)).

(** What it would mean for the printed lines to report the loss: the
    printed output determines it.  Take the runs of the notebook from
    a fresh kernel over the libraries [Toy.library (Toy.with_loss z)],
    which differ in nothing but the value [z] of the loss of every
    training step.  If two of these runs print the same lines, their
    losses are the same. *)
Definition printed_reports_loss : Prop :=
  ∀ z1 z2 : Z,
    printed (trace_of (Toy.run (Toy.with_loss z1)))
    = printed (trace_of (Toy.run (Toy.with_loss z2))) →
    z1 = z2.

(** ** Further vocabulary *)

Section MoreSpecification.
Context `{L : Library}.

(** How often the call [o] occurs in a trace. *)
Definition occurrences (o : op) (t : list event) : nat :=
  length (filter (λ o', o' = o) (calls t)).

(** Calls that open or close a progress bar or a [no_grad] block. *)
Definition is_scope_call (o : op) : bool :=
  match o with
  | OpTqdm | OpTqdmClose | OpNoGradEnter | OpNoGradExit => true
  | _ => false
  end.

Definition no_scope : event → Prop := on_calls (λ o, is_scope_call o = false).

(** Every progress bar that was opened was closed, and every [no_grad]
    block that was entered was left. *)
Definition balanced (t : list event) : Prop :=
  occurrences OpTqdm t = occurrences OpTqdmClose t
  ∧ occurrences OpNoGradEnter t = occurrences OpNoGradExit t.

Definition balances {A} (m : M A) : Prop :=
  ∀ k, balanced (trace_of (m k)).

(** [steady f m]: whether it returns or raises, [m] ends in a kernel
    with the value of [f] it started with. *)
Definition steady {X A} (f : kernel → X) (m : M A) : Prop :=
  ∀ k, f (kernel_of (m k)) = f k.

(** [prints Q m]: a run of [m] that returns has printed lines that
    satisfy [Q]; a run that raises has printed nothing. *)
Definition prints (Q : list string → Prop) {A} (m : M A) : Prop :=
  ∀ k, match result_of (m k) with
       | Returned _ => Q (printed (trace_of (m k)))
       | Raised _ => printed (trace_of (m k)) = []
       end.

(** The outcome [x] of a continuation, after the events [t]. *)
Definition after {A} (t : list event) (x : outcome A * kernel * list event)
    : outcome A * kernel * list event :=
  (x.1.1, x.1.2, t ++ x.2).

(** The calls of the install cell before its status line. *)
Definition install_calls : list op :=
  [OpImport "os"; OpImport "torch"; OpImport "numpy"; OpSetEnviron "TORCH";
   OpSetEnviron "DGLBACKEND"; OpShell pip_install; OpImport "dgl";
   OpImport "dgl.graphbolt"].

(** The data pipe [create_dataloader] builds over an item set. *)
Definition pipeline (g : graph_t) (f : feature_t) (itemset : itemset_t)
    (shuffle : bool) : datapipe :=
  FetchFeature
    (SampleNeighbor (CopyTo (ItemSampler itemset 1024 shuffle) device ["seeds"])
       g [4; 4]%Z)
    f ["feat"].

(** [l] is what the validation loop appends to [labels] for [item]. *)
Definition label_of (item : outcome MiniBatch) (l : ndarray) : Prop :=
  ∃ data, item = Returned data ∧ cpu_numpy (labels data) = Returned l.

(** [p] is what the validation loop appends to [predictions] for
    [item], with the model [m]. *)
Definition prediction_of (m : Model) (item : outcome MiniBatch) (p : ndarray)
    : Prop :=
  ∃ data feats x y,
    item = Returned data
    ∧ node_features data = Some feats ∧ feats !! "feat" = Some x
    ∧ forward m (blocks data) x = Returned y
    ∧ obind (argmax y 1) (λ q, obind (cpu q) numpy) = Returned p.

(** What the install cell prints in a run that goes on: the status
    line, after the message of the [ImportError] if the guard caught
    one. *)
Definition install_lines : list string :=
  match obind (import_module "dgl") (λ _, import_module "dgl.graphbolt") with
  | Returned _ => ["DGL installed!"]
  | Raised error => [str_exn error; "DGL not found!"]
  end.

(** [accuracy] is the validation accuracy of the model [m] on the
    minibatches [items]: the [accuracy_score] of the concatenated
    labels of the minibatches against the concatenated argmax
    predictions of [m] on them. *)
Definition validation_accuracy (m : Model) (items : list (outcome MiniBatch))
    (accuracy : scalar) : Prop :=
  ∃ ps ls predictions labels_,
    Forall2 (prediction_of m) items ps
    ∧ Forall2 label_of items ls
    ∧ concatenate ps = Returned predictions
    ∧ concatenate ls = Returned labels_
    ∧ accuracy_score labels_ predictions = Returned accuracy.

(** [accuracy] is the validation accuracy of the model of the kernel
    [k] on what the next iteration of the loader yields. *)
Definition validated (valid_dataloader : dataloader) (k : kernel)
    (accuracy : scalar) : Prop :=
  ∃ m, model k = Some m
       ∧ validation_accuracy m
           (match valid_dataloader with
            | DataLoader dp => stream dp (iterations k)
            end) accuracy.

(** The kernels in which the validation phases of the epochs start,
    one per epoch: the kernel the training phase of the epoch ends
    with. *)
Fixpoint validation_starts (train_dataloader valid_dataloader : dataloader)
    (epochs : list nat) (k : kernel) : list kernel :=
  match epochs with
  | [] => []
  | epoch :: rest =>
      let k1 := kernel_of (train_phase train_dataloader k) in
      k1 :: validation_starts train_dataloader valid_dataloader rest
              (kernel_of (valid_phase epoch valid_dataloader k1))
  end.

(** The cells before the training loop, up to the import of [tqdm]. *)
Definition before_loop : M (dataloader * dataloader) :=
  dataset <- cells_load ;;
  loaders <- cells_setup dataset ;;
  import_ "tqdm.auto" "tqdm" ;;
  ret loaders.
End MoreSpecification.

(** ** A second implementation of the libraries

    Like [Toy.library Toy.plain], except that an empty item set gives
    no batch at all. *)

Module Lab.
#[local] Existing Instance Toy.carriers.

Definition library : @Library Toy.carriers := {|
  cuda_is_available := false;
  torch_version := "2.1.0";
  import_module _ := Returned tt;
  BuiltinDataset_load _ := Returned Toy.dataset;
  graph_to g _ := Returned g;
  feature_to f _ := Returned f;
  feature_size _ _ _ := Returned [128]%Z;
  ItemSampler_init (itemset : @itemset_t Toy.carriers) _ _ :=
    match itemset with
    | [] => Raised (Exn IndexError "index out of range")
    | _ => Returned tt
    end;
  copy_to_init _ _ := Returned tt;
  sample_neighbor_init _ _ := Returned tt;
  fetch_feature_init _ _ := Returned tt;
  DataLoader_init _ := Returned tt;
  item_batches (itemset : @itemset_t Toy.carriers) _ _ _ :=
    match itemset with
    | [] => []
    | _ => [Returned (itemset, Some itemset)]
    end;
  tensor_to _ t := Returned t;
  sample_neighbors _ fanouts s := Returned (s, seq 0 (length fanouts));
  read_feature _ _ ids := Returned ids;
  srcdata_NID _ := Returned [1; 2; 3]%Z;
  SAGEConv_init _ _ _ := Returned 0;
  SAGEConv_call _ _ x := Returned x;
  weights_to _ w := Returned w;
  relu t := Returned t;
  cross_entropy _ _ := Returned [2%Z];
  backward _ _ := Returned tt;
  Adam_init _ _ := Returned 0;
  Adam_step a _ w := Returned (S a, (S w.1, S w.2));
  item t := Returned (default 0%Z (head t));
  argmax t _ := Returned t;
  detach t := Returned t;
  cpu t := Returned t;
  numpy t := Returned t;
  concatenate l :=
    match l with
    | [] => Raised (Exn ValueError "need at least one array to concatenate")
    | _ => Returned (concat l)
    end;
  accuracy_score y_true y_pred :=
    Returned (if bool_decide (y_true = y_pred) then 1 else 0)%Z;
  fmt_03f := pretty;
  str_scalar := pretty;
  str_tensor _ := "tensor";
  str_minibatch _ := "MiniBatch";
|}.

(** The globals of a dataset whose training and validation sets are
    empty. *)
Definition empty_globals : @globals Toy.carriers :=
  {| g_graph := tt; g_feature := tt; g_train_set := []; g_valid_set := [];
     g_test_set := []; g_task_name := PStr "node_classification";
     g_num_classes := PInt 40 |}.

(** The validation pipeline over an empty validation set. *)
Definition empty_pipe : datapipe := pipeline tt tt [] false.

(** A dataset without tasks. *)
Definition no_tasks : @Dataset Toy.carriers :=
  {| graph := tt; feature := tt; tasks := [] |}.

(** A model whose two layers have the parameters [w], and a kernel in
    which the cells before the training loop have run and left it. *)
Definition model_with (w : nat) : Model :=
  {| conv1 := {| in_feats := PInt 128; out_feats := PInt 64;
                 aggregator_type := "mean"; weight := w |};
     conv2 := {| in_feats := PInt 64; out_feats := PInt 40;
                 aggregator_type := "mean"; weight := w |};
     h_feats := PInt 64; model_device := Some device |}.

Definition ready (w : nat) : kernel :=
  {| names := ["tqdm"; "sklearn"; "SAGEConv"; "F"; "nn"; "gb"; "dgl"; "np";
               "torch"; "os"];
     environ := ∅; model := Some (model_with w); grads := None;
     opt := Some 0; training := false; grad_enabled := true;
     iterations := 0 |}.

(** The kernel a complete run of [Toy.run Toy.plain] ends with. *)
Definition trained : kernel := kernel_of (Toy.run Toy.plain).
End Lab.

(** ** Where the objects of the libraries live

    The notebook never asks a tensor for its device: where its tensors
    live follows from how torch and dgl place what they return.
    [Residency] states the placement rules the notebook relies on:
    [.to(d)] returns an object on [d], and what an operation returns
    lives where its operands live.  These are assumptions about the
    libraries; the statements about devices are made for every
    implementation that obeys them. *)

Class Residency `{L : Library} := {
  tensor_device : tensor → torch_device_t;
  block_device : block_t → torch_device_t;
  graph_device : graph_t → torch_device_t;
  feature_device : feature_t → torch_device_t;
  weights_device : weights_t → torch_device_t;
  graph_to_device g d g' :
    graph_to g d = Returned g' → graph_device g' = d;
  feature_to_device f d f' :
    feature_to f d = Returned f' → feature_device f' = d;
  tensor_to_device d t t' :
    tensor_to d t = Returned t' → tensor_device t' = d;
  weights_to_device d w w' :
    weights_to d w = Returned w' → weights_device w' = d;
  sample_neighbors_device g fanouts s r :
    sample_neighbors g fanouts s = Returned r →
    tensor_device s = graph_device g →
    tensor_device r.1 = graph_device g
    ∧ Forall (λ b, block_device b = graph_device g) r.2;
  read_feature_device f key ids x :
    read_feature f key ids = Returned x →
    tensor_device x = feature_device f;
  srcdata_NID_device b ids :
    srcdata_NID b = Returned ids → tensor_device ids = block_device b;
  SAGEConv_call_device conv b x h :
    SAGEConv_call conv b x = Returned h →
    weights_device (weight conv) = tensor_device x →
    block_device b = tensor_device x →
    tensor_device h = tensor_device x;
  relu_device x h : relu x = Returned h → tensor_device h = tensor_device x;
  cross_entropy_device p l loss :
    cross_entropy p l = Returned loss → tensor_device loss = tensor_device p;
  argmax_device p dim q :
    argmax p dim = Returned q → tensor_device q = tensor_device p;
  Adam_step_device a g w r :
    Adam_step a g w = Returned r →
    weights_device r.2.1 = weights_device w.1
    ∧ weights_device r.2.2 = weights_device w.2;
}.

Section Placement.
Context `{R : Residency}.

(** Every tensor and every block of the minibatch lives on [d]. *)
Definition minibatch_on (d : torch_device_t) (mb : MiniBatch) : Prop :=
  (∀ t, seeds mb = Some t → tensor_device t = d)
  ∧ (∀ t, labels mb = Some t → tensor_device t = d)
  ∧ (∀ t, input_nodes mb = Some t → tensor_device t = d)
  ∧ (∀ mfgs, blocks mb = Some mfgs → Forall (λ b, block_device b = d) mfgs)
  ∧ (∀ feats key x, node_features mb = Some feats → feats !! key = Some x →
                    tensor_device x = d).

(** Every minibatch the loader yields, in any iteration, lives on [d]. *)
Definition loader_on (d : torch_device_t) (dl : dataloader) : Prop :=
  ∀ n mb, Returned mb ∈ (match dl with DataLoader dp => stream dp n end) →
          minibatch_on d mb.

(** The parameters of both layers live on [d]. *)
Definition model_on (d : torch_device_t) (m : Model) : Prop :=
  weights_device (weight (conv1 m)) = d
  ∧ weights_device (weight (conv2 m)) = d.

(** The kernel holds a model, and its parameters live on [d]. *)
Definition params_on (d : torch_device_t) (k : kernel) : Prop :=
  ∃ m, model k = Some m ∧ model_on d m.
End Placement.

(** ** An implementation of the libraries with devices

    Every tensor, block and parameter carries the device it lives on.
    New objects are created on the default device [home]; [.to(d)]
    moves to [d]; a layer refuses operands on different devices. *)

Module Placed.
#[local] Instance carriers : Carriers := {|
  tensor := torch_device_t * list Z; ndarray := list Z; scalar := Z;
  graph_t := torch_device_t; feature_t := torch_device_t;
  itemset_t := list Z; block_t := torch_device_t;
  weights_t := torch_device_t * nat; grads_t := unit; adam_t := nat;
|}.

Definition task : Task := {|
  train_set := [1; 2; 3]%Z;
  validation_set := [4; 5]%Z;
  test_set := [6]%Z;
  metadata := <["name" := PStr "node_classification"]>
                (<["num_classes" := PInt 40]> ∅);
|}.

Definition library (home : torch_device_t) : @Library carriers := {|
  cuda_is_available := true;
  torch_version := "2.1.0";
  import_module _ := Returned tt;
  BuiltinDataset_load _ :=
    Returned {| graph := home; feature := home; tasks := [task] |};
  graph_to _ d := Returned d;
  feature_to _ d := Returned d;
  feature_size _ _ _ := Returned [128]%Z;
  ItemSampler_init _ _ _ := Returned tt;
  copy_to_init _ _ := Returned tt;
  sample_neighbor_init _ _ := Returned tt;
  fetch_feature_init _ _ := Returned tt;
  DataLoader_init _ := Returned tt;
  item_batches (itemset : @itemset_t carriers) _ _ _ :=
    [Returned ((home, itemset), Some (home, itemset))];
  tensor_to d (t : @tensor carriers) := Returned (d, t.2);
  sample_neighbors (g : @graph_t carriers) fanouts (s : @tensor carriers) :=
    Returned ((g, s.2), replicate (length fanouts) g);
  read_feature (f : @feature_t carriers) _ (ids : @tensor carriers) :=
    Returned (f, ids.2);
  srcdata_NID (b : @block_t carriers) := Returned (b, [1; 2; 3]%Z);
  SAGEConv_init _ _ _ := Returned (home, 0);
  SAGEConv_call conv b (x : @tensor carriers) :=
    if bool_decide ((weight conv).1 = x.1 ∧ b = x.1) then Returned x
    else Raised (Exn RuntimeError
                   "Expected all tensors to be on the same device");
  weights_to d (w : @weights_t carriers) := Returned (d, w.2);
  relu t := Returned t;
  cross_entropy (p : @tensor carriers) _ := Returned (p.1, [2%Z]);
  backward _ _ := Returned tt;
  Adam_init _ _ := Returned 0;
  Adam_step a _ (w : @weights_t carriers * @weights_t carriers) :=
    Returned (S a, ((w.1.1, S w.1.2), (w.2.1, S w.2.2)));
  item (t : @tensor carriers) := Returned (default 0%Z (head t.2));
  argmax t _ := Returned t;
  detach t := Returned t;
  cpu (t : @tensor carriers) := Returned (torch_device "cpu", t.2);
  numpy (t : @tensor carriers) := Returned t.2;
  concatenate l :=
    match l with
    | [] => Raised (Exn ValueError "need at least one array to concatenate")
    | _ => Returned (concat l)
    end;
  accuracy_score y_true y_pred :=
    Returned (if bool_decide (y_true = y_pred) then 1 else 0)%Z;
  fmt_03f := pretty;
  str_scalar := pretty;
  str_tensor _ := "tensor";
  str_minibatch _ := "MiniBatch";
|}.

Definition residency (home : torch_device_t)
    : @Residency carriers (library home) :=
  ltac:(refine (@Build_Residency carriers (library home)
                  (λ t, t.1) (λ b, b) (λ g, g) (λ f, f) (λ w, w.1)
                  _ _ _ _ _ _ _ _ _ _ _ _); simpl;
        [ by intros ? ? ? [= <-]
        | by intros ? ? ? [= <-]
        | by intros ? ? ? [= <-]
        | by intros ? ? ? [= <-]
        | intros ? ? ? ? [= <-] _; split; [done | by apply Forall_replicate]
        | by intros ? ? ? ? [= <-]
        | by intros ? ? [= <-]
        | intros conv b x h; destruct (bool_decide _);
            [by intros [= <-] | done]
        | by intros ? ? [= <-]
        | by intros ? ? ? [= <-]
        | by intros ? ? ? [= <-]
        | by intros ? ? ? ? [= <-] ]).

(** A machine with a GPU on which new tensors are created. *)
Definition gpu : torch_device_t := TorchDevice "cuda" (Some 0).

Definition fresh : kernel :=
  {| names := []; environ := ∅; model := None; grads := None; opt := None;
     training := false; grad_enabled := true; iterations := 0 |}.

Definition run : outcome unit * kernel * list event :=
  @notebook carriers (library gpu) fresh.
End Placed.

(** * Proofs *)

(** ** Running a computation *)

Section Run.
Context `{L : Library}.

Lemma bind_returned {A B} (m : M A) (f : A → M B) k a k1 t1 :
  m k = (Returned a, k1, t1) →
  bind m f k = ((f a k1).1.1, (f a k1).1.2, t1 ++ (f a k1).2).
Proof.
  intros H. unfold bind. rewrite H. by destruct (f a k1) as [[r k2] t2].
Qed.

Lemma bind_raised {A B} (m : M A) (f : A → M B) k e k1 t1 :
  m k = (Raised e, k1, t1) → bind m f k = (Raised e, k1, t1).
Proof. intros H. unfold bind. by rewrite H. Qed.

(** A sequence that returned: both parts did. *)
Lemma bind_inv {A B} (m : M A) (f : A → M B) k b k2 t :
  bind m f k = (Returned b, k2, t) →
  ∃ a k1 t1 t2,
    m k = (Returned a, k1, t1) ∧ f a k1 = (Returned b, k2, t2)
    ∧ t = t1 ++ t2.
Proof.
  unfold bind. destruct (m k) as [[[a|e] k1] t1]; [|done].
  destruct (f a k1) as [[r k2'] t2] eqn:Hf. intros [= -> -> <-].
  by exists a, k1, t1, t2.
Qed.

(** Sequencing is associative. *)
Lemma bind_assoc {A B D} (m : M A) (f : A → M B) (g : B → M D) k :
  bind (bind m f) g k = bind m (λ a, bind (f a) g) k.
Proof.
  unfold bind. destruct (m k) as [[[a|e] k1] t1]; [|done].
  destruct (f a k1) as [[[b|e] k2] t2]; [|done].
  destruct (g b k2) as [[r k3] t3]. by rewrite app_assoc.
Qed.

Lemma calls_app t1 t2 : calls (t1 ++ t2) = calls t1 ++ calls t2.
Proof. apply omap_app. Qed.

Lemma printed_app t1 t2 : printed (t1 ++ t2) = printed t1 ++ printed t2.
Proof. apply omap_app. Qed.
End Run.

(** ** Invariants of the kernel and of the trace *)

Section Invariants.
Context `{L : Library}.
Variable I : kernel → Prop.
Variable P : event → Prop.

Lemma inv_ret {A} (a : A) : inv I P (ret a).
Proof. intros k Hk. split; [done | constructor]. Qed.

Lemma inv_tick o : P (ECall o) → inv I P (tick o).
Proof. intros Ho k Hk. split; [done | by repeat constructor]. Qed.

Lemma inv_raise_at {A} o e : P (ERaise o e) → inv I P (raise_at (A := A) o e).
Proof. intros Ho k Hk. split; [done | by repeat constructor]. Qed.

Lemma inv_eval_at {A} o (r : outcome A) :
  (∀ e, P (ERaise o e)) → inv I P (eval_at o r).
Proof. intros Ho. destruct r; [apply inv_ret | by apply inv_raise_at]. Qed.

Lemma inv_modify f : (∀ k, I k → I (f k)) → inv I P (modify f).
Proof. intros Hf k Hk. split; [by apply Hf | constructor]. Qed.

Lemma inv_bind {A B} (m : M A) (f : A → M B) :
  inv I P m → (∀ a, inv I P (f a)) → inv I P (bind m f).
Proof.
  intros Hm Hf k Hk. destruct (Hm k Hk) as [Hk1 Ht1].
  unfold bind, kernel_of, trace_of in *.
  destruct (m k) as [[[a|e] k1] t1]; [|done].
  destruct (Hf a k1 Hk1) as [Hk2 Ht2].
  unfold kernel_of, trace_of in *.
  destruct (f a k1) as [[r k2] t2]. simpl in *.
  split; [done | by apply Forall_app].
Qed.

(** Reading the kernel: what follows may use that [I] holds of it. *)
Lemma inv_get_bind {B} (f : kernel → M B) :
  (∀ k, I k → inv I P (f k)) → inv I P (bind get f).
Proof.
  intros Hf k Hk. destruct (Hf k Hk k Hk) as [Hk2 Ht2].
  unfold bind, get, kernel_of, trace_of in *.
  by destruct (f k k) as [[r k2] t2].
Qed.

Lemma inv_call {A} o (r : outcome A) :
  P (ECall o) → (∀ e, P (ERaise o e)) → inv I P (call o r).
Proof.
  intros Ho He. apply inv_bind; [by apply inv_tick|].
  intros _. by apply inv_eval_at.
Qed.

Lemma inv_with_exit {A} (body : M A) (on_exit : M unit) :
  inv I P body → inv I P on_exit → inv I P (with_exit body on_exit).
Proof.
  intros Hb Hx k Hk. destruct (Hb k Hk) as [Hk1 Ht1].
  unfold with_exit, kernel_of, trace_of in *.
  destruct (body k) as [[r k1] t1]. destruct (Hx k1 Hk1) as [Hk2 Ht2].
  unfold kernel_of, trace_of in *.
  destruct (on_exit k1) as [[[[]|e] k2] t2]; simpl in *;
    (split; [done | by apply Forall_app]).
Qed.

Lemma inv_try_except {A} (body : M A) cls handler :
  inv I P body → (∀ e, inv I P (handler e)) →
  inv I P (try_except body cls handler).
Proof.
  intros Hb Hh k Hk. destruct (Hb k Hk) as [Hk1 Ht1].
  unfold try_except, kernel_of, trace_of in *.
  destruct (body k) as [[[a|e] k1] t1]; [done|].
  destruct (isinstance e cls); [|done].
  destruct (Hh e k1 Hk1) as [Hk2 Ht2]. unfold kernel_of, trace_of in *.
  destruct (handler e k1) as [[r k2] t2]. simpl in *.
  split; [done | by apply Forall_app].
Qed.

Lemma inv_for_in {X} (xs : list X) body :
  (∀ x, inv I P (body x)) → inv I P (for_in xs body).
Proof.
  intros Hb. induction xs as [|x xs IH]; simpl; [apply inv_ret|].
  apply inv_bind; [apply Hb | by intros _].
Qed.
End Invariants.

(** Decompose a goal [inv I P m] along the structure of [m].  What is
    left are the conditions on single calls and on kernel updates. *)
Ltac inv_step :=
  lazymatch goal with
  | |- inv _ _ (ret _) => apply inv_ret
  | |- inv _ _ (tick _) => apply inv_tick
  | |- inv _ _ (print _) => apply inv_tick
  | |- inv _ _ (raise_at _ _) => apply inv_raise_at
  | |- inv _ _ (eval_at _ _) => apply inv_eval_at; intros ?
  | |- inv _ _ (call _ _) => apply inv_call; [| intros ?]
  | |- inv _ _ (modify _) => apply inv_modify; intros ? ?
  | |- inv _ _ (bind get _) => apply inv_get_bind; intros ? ?
  | |- inv _ _ (bind _ _) => apply inv_bind; [| intros ?]
  | |- inv _ _ (with_exit _ _) => apply inv_with_exit
  | |- inv _ _ (try_except _ _ _) => apply inv_try_except; [| intros ?]
  | |- inv _ _ (for_in _ _) => apply inv_for_in; intros ?
  | |- inv _ _ (if ?c then _ else _) => destruct c eqn:?
  | |- inv _ _ (match ?x with _ => _ end) => destruct x eqn:?
  | |- inv _ _ (let _ := _ in _) => cbv zeta
  end.

Ltac inv_steps := repeat inv_step.

(** Unfold the cells down to the statements of the interpreter. *)
Ltac unfold_cells :=
  unfold notebook, cells_after_guard, cells_load, cells_setup, cell_train,
    training_loop, train_phase, valid_phase, no_grad, train_step,
    cell_dataloaders, cell_optimizer, cell_model, Model_to, Model_init,
    SAGEConv_new, cell_input_nodes, cell_first_minibatch, create_dataloader,
    cell_task, cell_dataset, cell_install, import_guard, call_model,
    zero_grad, loss_backward, opt_step, get_model, get_opt, iter_, next_,
    import_, setenv, name_, print.

(** ** Runs that returned *)

Section Returned.
Context `{L : Library}.

Lemma bind_get {B} (f : kernel → M B) k : bind get f k = f k k.
Proof. unfold bind, get. by destruct (f k k) as [[r k2] t2]. Qed.

Lemma ret_inv {A} (a : A) k r k' t :
  ret a k = (r, k', t) → r = Returned a ∧ k' = k ∧ t = [].
Proof. by intros [= <- <- <-]. Qed.

Lemma tick_inv o k r k' t :
  tick o k = (r, k', t) → r = Returned tt ∧ k' = k ∧ t = [ECall o].
Proof. by intros [= <- <- <-]. Qed.

Lemma modify_inv f k r k' t :
  modify f k = (r, k', t) → r = Returned tt ∧ k' = f k ∧ t = [].
Proof. by intros [= <- <- <-]. Qed.

Lemma raise_at_inv {A} o e k (a : A) k' t :
  raise_at o e k = (Returned a, k', t) → False.
Proof. done. Qed.

Lemma eval_at_inv {A} o (r : outcome A) k a k' t :
  eval_at o r k = (Returned a, k', t) → r = Returned a ∧ k' = k ∧ t = [].
Proof. destruct r; [by intros [= <- <- <-] | done]. Qed.

Lemma call_inv {A} o (r : outcome A) k a k' t :
  call o r k = (Returned a, k', t) →
  r = Returned a ∧ k' = k ∧ t = [ECall o].
Proof. destruct r; [by intros [= <- <- <-] | done]. Qed.

Lemma try_except_inv {A} (body : M A) cls handler k a k' t :
  try_except body cls handler k = (Returned a, k', t) →
  body k = (Returned a, k', t)
  ∨ ∃ e k1 t1 t2,
      body k = (Raised e, k1, t1) ∧ isinstance e cls = true
      ∧ handler e k1 = (Returned a, k', t2) ∧ t = t1 ++ t2.
Proof.
  unfold try_except. destruct (body k) as [[[b|e] k1] t1] eqn:Hb; [by left|].
  destruct (isinstance e cls) eqn:He; [|done].
  destruct (handler e k1) as [[r k2] t2] eqn:Hh. intros [= -> -> <-].
  right. by exists e, k1, t1, t2.
Qed.

Lemma subscript_inv {X} (l : list X) i x :
  subscript l i = Returned x → l !! i = Some x.
Proof. unfold subscript. destruct (l !! i); [by intros [= ->] | done]. Qed.

Lemma subscript_opt_inv {X} (l : option (list X)) i x :
  subscript_opt l i = Returned x → ∃ l', l = Some l' ∧ l' !! i = Some x.
Proof.
  destruct l as [l'|]; [|done]. intros H%subscript_inv. by exists l'.
Qed.

Lemma getitem_inv {V} (d : gmap string V) key v :
  getitem d key = Returned v → d !! key = Some v.
Proof. unfold getitem. destruct (d !! key); [by intros [= ->] | done]. Qed.

Lemma getitem_opt_inv {V} (d : option (gmap string V)) key v :
  getitem_opt d key = Returned v → ∃ d', d = Some d' ∧ d' !! key = Some v.
Proof.
  destruct d as [d'|]; [|done]. intros H%getitem_inv. by exists d'.
Qed.

Lemma obind_inv {A B} (r : outcome A) (f : A → outcome B) b :
  obind r f = Returned b → ∃ a, r = Returned a ∧ f a = Returned b.
Proof. destruct r as [a|e]; [|done]. intros H. by exists a. Qed.

Lemma with_exit_inv {A} (body : M A) on_exit k a k' t :
  with_exit body on_exit k = (Returned a, k', t) →
  ∃ k1 t1 t2,
    body k = (Returned a, k1, t1) ∧ on_exit k1 = (Returned tt, k', t2)
    ∧ t = t1 ++ t2.
Proof.
  unfold with_exit. destruct (body k) as [[r k1] t1].
  destruct (on_exit k1) as [[[[]|e] k2] t2] eqn:Hx; [|done].
  intros [= -> -> <-]. by exists k1, t1, t2.
Qed.
End Returned.

(** Take apart the hypotheses saying that a computation returned. *)
Ltac run_inv_step :=
  match goal with
  | H : ret _ _ = (_, _, _) |- _ =>
      apply ret_inv in H as (? & ? & ?); simplify_eq
  | H : tick _ _ = (_, _, _) |- _ =>
      apply tick_inv in H as (? & ? & ?); simplify_eq
  | H : print _ _ = (_, _, _) |- _ =>
      apply tick_inv in H as (? & ? & ?); simplify_eq
  | H : modify _ _ = (_, _, _) |- _ =>
      apply modify_inv in H as (? & ? & ?); simplify_eq
  | H : raise_at _ _ _ = (Returned _, _, _) |- _ =>
      by apply raise_at_inv in H
  | H : eval_at _ _ _ = (Returned _, _, _) |- _ =>
      apply eval_at_inv in H as (? & ? & ?); simplify_eq
  | H : call _ _ _ = (Returned _, _, _) |- _ =>
      apply call_inv in H as (? & ? & ?); simplify_eq
  | H : bind get _ _ = _ |- _ => rewrite bind_get in H
  | H : bind _ _ _ = (Returned _, _, _) |- _ =>
      apply bind_inv in H as (? & ? & ? & ? & ? & ? & ?); simplify_eq
  | H : with_exit _ _ _ = (Returned _, _, _) |- _ =>
      apply with_exit_inv in H as (? & ? & ? & ? & ? & ?); simplify_eq
  | H : (if ?c then _ else _) _ = (Returned _, _, _) |- _ =>
      destruct c eqn:?
  | H : (match ?x with _ => _ end) _ = (Returned _, _, _) |- _ =>
      destruct x eqn:?
  end.

Ltac run_inv := repeat run_inv_step.


(** ** What the notebook prints *)

Section Printed.
Context `{L : Library}.

Lemma printed_silent t : Forall silent t → printed t = [].
Proof.
  induction 1 as [|ev t Hev _ IH]; [done|].
  destruct ev as [o|o e]; [|done]. destruct o; try done.
  by destruct (Hev line).
Qed.

Lemma train_loop_silent items : inv (λ _, True) silent (train_loop items).
Proof.
  induction items as [|item items IH]; simpl; unfold_cells;
    inv_steps; done.
Qed.

Lemma valid_loop_silent items ps ls :
  inv (λ _, True) silent (valid_loop items ps ls).
Proof.
  revert ps ls. induction items as [|item items IH]; intros; simpl;
    unfold_cells; inv_steps; done.
Qed.

Lemma train_phase_silent dl : inv (λ _, True) silent (train_phase dl).
Proof.
  pose proof train_loop_silent. unfold_cells; inv_steps; done.
Qed.

Lemma create_dataloader_silent g itemset shuffle :
  inv (λ _, True) silent (create_dataloader g itemset shuffle).
Proof. unfold_cells; inv_steps; done. Qed.

Lemma cell_dataset_silent : inv (λ _, True) silent cell_dataset.
Proof. unfold_cells; inv_steps; done. Qed.

Lemma cell_model_silent g : inv (λ _, True) silent (cell_model g).
Proof. unfold_cells; inv_steps; done. Qed.

Lemma cell_optimizer_silent : inv (λ _, True) silent cell_optimizer.
Proof. unfold_cells; inv_steps; done. Qed.

Lemma cell_dataloaders_silent g : inv (λ _, True) silent (cell_dataloaders g).
Proof. unfold_cells; inv_steps; done. Qed.

Lemma import_silent module as_name :
  inv (λ _, True) silent (import_ module as_name).
Proof. unfold_cells; inv_steps; done. Qed.

(** The output of a computation that records no [print]. *)
Lemma silent_printed {A} (m : M A) k :
  inv (λ _, True) silent m → printed (trace_of (m k)) = [].
Proof. intros H. apply printed_silent. by apply H. Qed.

Lemma silent_printed_eq {A} (m : M A) k r k' t :
  inv (λ _, True) silent m → m k = (r, k', t) → printed t = [].
Proof. intros H Hm. by rewrite <-(silent_printed m k H), Hm. Qed.

Lemma cell_task_returned dataset k g k' t :
  cell_task dataset k = (Returned g, k', t) →
  ∃ task,
    tasks dataset !! 0 = Some task
    ∧ metadata task !! "name" = Some (g_task_name g)
    ∧ metadata task !! "num_classes" = Some (g_num_classes g)
    ∧ graph_to (graph dataset) device = Returned (g_graph g)
    ∧ feature_to (feature dataset) device = Returned (g_feature g)
    ∧ printed t = [task_line (g_task_name g) (g_num_classes g)].
Proof.
  intros H. unfold cell_task in H. run_inv.
  repeat match goal with
         | H : subscript _ _ = Returned _ |- _ => apply subscript_inv in H
         | H : getitem _ _ = Returned _ |- _ => apply getitem_inv in H
         end.
  simplify_eq. eexists. by repeat split.
Qed.

Lemma cell_input_nodes_returned data k k' t :
  cell_input_nodes data k = (Returned tt, k', t) →
  ∃ mfgs b ids,
    blocks data = Some mfgs ∧ mfgs !! 0 = Some b
    ∧ srcdata_NID b = Returned ids
    ∧ printed t = [input_nodes_line ids].
Proof.
  intros H. unfold cell_input_nodes, name_ in H. run_inv.
  match goal with H : subscript_opt _ _ = _ |- _ =>
    apply subscript_opt_inv in H as (mfgs & ? & ?)
  end.
  by eexists _, _, _.
Qed.

End Printed.

(** ** The import guard *)

Ltac run_cell_install :=
  unfold cell_install, import_guard, import_, setenv, call, try_except,
    print, bind, tick, eval_at, modify, ret, raise_at, result_of, trace_of.

(** C2.  If importing [dgl] or [dgl.graphbolt] fails with an
    [ImportError] (the imports before the guard having succeeded), the
    install cell prints the error message followed by "DGL not found!"
    and completes without raising; if both imports succeed it prints
    "DGL installed!" instead. *)
Theorem C2_import_guard `{L : Library} (k : kernel) :
  import_module "os" = Returned tt →
  import_module "torch" = Returned tt →
  import_module "numpy" = Returned tt →
  (∀ e, isinstance e ImportError = true →
        import_module "dgl" = Raised e
        ∨ (import_module "dgl" = Returned tt
           ∧ import_module "dgl.graphbolt" = Raised e) →
        result_of (cell_install k) = Returned tt
        ∧ printed (trace_of (cell_install k)) = [str_exn e; "DGL not found!"])
  ∧ (import_module "dgl" = Returned tt →
     import_module "dgl.graphbolt" = Returned tt →
     result_of (cell_install k) = Returned tt
     ∧ printed (trace_of (cell_install k)) = ["DGL installed!"]).
Proof.
  intros Hos Htorch Hnumpy. split.
  - intros e He [Hdgl|[Hdgl Hgb]]; run_cell_install;
      rewrite Hos, Htorch, Hnumpy, Hdgl; simpl; rewrite ?Hgb; simpl;
      by rewrite He.
  - intros Hdgl Hgb. run_cell_install.
    by rewrite Hos, Htorch, Hnumpy, Hdgl, Hgb.
Qed.

Lemma C2_import_guard_witness :
  result_of (cell_install (L := Toy.library Toy.no_dgl) Toy.fresh) = Returned tt
  ∧ printed (trace_of (cell_install (L := Toy.library Toy.no_dgl) Toy.fresh))
    = ["No module named 'dgl'"; "DGL not found!"].
Proof.
  refine (proj1 (C2_import_guard (L := Toy.library Toy.no_dgl) Toy.fresh
                   _ _ _) (Exn ModuleNotFoundError "No module named 'dgl'") _ _).
  - reflexivity.
  - reflexivity.
  - reflexivity.
  - reflexivity.
  - left. reflexivity.
Defined.

(** C8.  The guard catches only [ImportError]: if importing [dgl] or
    [dgl.graphbolt] raises an exception that is not an instance of
    [ImportError], the install cell raises that exception and prints
    neither "DGL installed!" nor "DGL not found!". *)
Theorem C8_guard_catches_only_ImportError `{L : Library} (k : kernel) (e : exn) :
  import_module "os" = Returned tt →
  import_module "torch" = Returned tt →
  import_module "numpy" = Returned tt →
  isinstance e ImportError = false →
  import_module "dgl" = Raised e
  ∨ (import_module "dgl" = Returned tt
     ∧ import_module "dgl.graphbolt" = Raised e) →
  result_of (cell_install k) = Raised e
  ∧ ("DGL installed!" ∉ printed (trace_of (cell_install k)))
  ∧ ("DGL not found!" ∉ printed (trace_of (cell_install k)))
  ∧ result_of (notebook k) = Raised e
  ∧ printed (trace_of (notebook k)) = [].
Proof.
  intros Hos Htorch Hnumpy He Hdgl.
  assert (result_of (cell_install k) = Raised e
          ∧ printed (trace_of (cell_install k)) = []) as [Hr Hp].
  { destruct Hdgl as [Hdgl|[Hdgl Hgb]]; run_cell_install;
      rewrite Hos, Htorch, Hnumpy, Hdgl; simpl; rewrite ?Hgb; simpl;
      by rewrite He. }
  rewrite Hp. repeat split; [done | apply not_elem_of_nil..| |].
  - unfold notebook, cells_load. rewrite !bind_assoc.
    unfold result_of in *. unfold bind at 1.
    by destruct (cell_install k) as [[[[]|e'] k1] t1]; simplify_eq/=.
  - unfold notebook, cells_load. rewrite !bind_assoc.
    unfold result_of, trace_of in *. unfold bind at 1.
    by destruct (cell_install k) as [[[[]|e'] k1] t1]; simplify_eq/=.
Qed.

Lemma C8_guard_catches_only_ImportError_witness :
  result_of (notebook (L := Toy.library Toy.broken_dgl) Toy.fresh)
  = Raised (Exn OSError "libcudart.so: cannot open shared object file").
Proof.
  refine (proj1 (proj2 (proj2 (proj2
    (C8_guard_catches_only_ImportError (L := Toy.library Toy.broken_dgl)
       Toy.fresh (Exn OSError "libcudart.so: cannot open shared object file")
       _ _ _ _ _))))).
  - reflexivity.
  - reflexivity.
  - reflexivity.
  - reflexivity.
  - left. reflexivity.
Defined.

(** ** The order of the calls *)

Section Order.
Context `{L : Library}.

Lemma follows_ret {A} (a : A) : follows [] (ret a).
Proof. by intros k. Qed.

Lemma follows_tick S o : S = [api o] → follows S (tick o).
Proof. by intros -> k. Qed.

Lemma follows_modify f : follows [] (modify f).
Proof. by intros k. Qed.

Lemma follows_raise_at {A} S o e : follows S (raise_at (A := A) o e).
Proof. intros k. apply prefix_nil. Qed.

Lemma follows_eval_at {A} o (r : outcome A) : follows [] (eval_at o r).
Proof. destruct r; intros k; [done | apply prefix_nil]. Qed.

Lemma follows_call {A} S o (r : outcome A) :
  S = [api o] → follows S (call o r).
Proof. intros ->. destruct r; intros k; [done | by simpl]. Qed.

Lemma follows_bind {A B} S1 S2 S (m : M A) (f : A → M B) :
  follows S1 m → (∀ a, follows S2 (f a)) → S = S1 ++ S2 →
  follows S (bind m f).
Proof.
  intros Hm Hf -> k. specialize (Hm k).
  unfold bind, result_of, trace_of in *.
  destruct (m k) as [[[a|e] k1] t1]; simpl in *.
  - specialize (Hf a k1). unfold result_of, trace_of in *.
    destruct (f a k1) as [[[b|e] k2] t2]; simpl in *;
      rewrite calls_app, fmap_app, Hm; [by rewrite Hf|].
    by apply prefix_app.
  - by apply prefix_app_r.
Qed.

Lemma follows_get_bind {B} S (f : kernel → M B) :
  (∀ k, follows S (f k)) → follows S (bind get f).
Proof. intros Hf k. rewrite bind_get. apply Hf. Qed.
End Order.

Ltac follows_go :=
  lazymatch goal with
  | |- follows _ (ret _) => apply follows_ret
  | |- follows _ (tick _) => apply follows_tick; cbn; reflexivity
  | |- follows _ (modify _) => apply follows_modify
  | |- follows _ (raise_at _ _) => apply follows_raise_at
  | |- follows _ (eval_at _ _) => apply follows_eval_at
  | |- follows _ (call _ _) => apply follows_call; cbn; reflexivity
  | |- follows _ (bind get _) => apply follows_get_bind; intros ?; follows_go
  | |- follows _ (bind _ _) =>
      eapply follows_bind; [follows_go | intros ?; follows_go | try reflexivity]
  | |- follows _ (if ?c then _ else _) => destruct c; follows_go
  | |- follows _ (match ?x with _ => _ end) => destruct x; follows_go
  end.

Section TrainingOrder.
Context `{L : Library}.

(** One iteration of the training loop: fetch the minibatch, then the
    body. *)
Lemma train_iteration_follows item :
  follows step_calls (data <- call OpNext item ;; train_step data).
Proof.
  unfold train_step, call_model, zero_grad, loss_backward, opt_step,
    get_model, get_opt, name_.
  follows_go.
Qed.
End TrainingOrder.

Section TrainingPhase.
Context `{L : Library}.

(** The loop: some complete iterations, then possibly the beginning
    of one that raised. *)
Lemma train_loop_calls items k :
  ∃ n rest,
    api <$> calls (trace_of (train_loop items k))
      = concat (replicate n step_calls) ++ rest
    ∧ match result_of (train_loop items k) with
      | Returned _ => rest = []
      | Raised _ => rest `prefix_of` step_calls
      end.
Proof.
  revert k. induction items as [|item items IH]; intros k.
  { by exists 0, []. }
  change (train_loop (item :: items) k)
    with (bind (call OpNext item)
            (λ data, bind (train_step data) (λ _, train_loop items)) k).
  rewrite <-bind_assoc. pose proof (train_iteration_follows item k) as Hit.
  destruct (bind (call OpNext item) (λ data, train_step data) k)
    as [[[[]|e] k1] t1] eqn:Hstep; unfold result_of, trace_of in *;
    simpl in Hit.
  - rewrite (bind_returned _ _ _ _ _ _ Hstep).
    destruct (IH k1) as (n & rest & Heq & Hres).
    unfold result_of, trace_of in *.
    destruct (train_loop items k1) as [[r k2] t2]; simpl in *.
    exists (S n), rest. split; [|done].
    rewrite calls_app, fmap_app, Hit, Heq. done.
  - rewrite (bind_raised _ _ _ _ _ _ Hstep).
    by exists 0, (api <$> calls t1).
Qed.

Lemma train_phase_calls dl k :
  api <$> calls (trace_of (train_phase dl k)) = []
  ∨ ∃ n rest,
      api <$> calls (trace_of (train_phase dl k)) = training_calls n rest
      ∧ match result_of (train_phase dl k) with
        | Returned _ => rest = []
        | Raised _ => rest `prefix_of` step_calls
        end.
Proof.
  unfold train_phase, get_model. rewrite bind_assoc, bind_get.
  destruct (model k) as [m|] eqn:Hm; [right | by left].
  destruct dl as [dp].
  pose proof (train_loop_calls (stream dp (iterations k))
                (set_iterations (S (iterations k)) (set_training true k)))
    as (n & rest & Heq & Hres).
  exists n, rest.
  unfold iter_, with_exit, bind, ret, tick, modify, get, result_of, trace_of
    in *. simpl in *.
  destruct (train_loop _ _) as [[r k2] t2]. simpl in *.
  split; [|done]. unfold training_calls.
  rewrite calls_app, fmap_app, Heq. simpl. by rewrite <-app_assoc.
Qed.
End TrainingPhase.

Section Phases.
Context `{L : Library}.

Lemma cells_load_calls : inv (λ _, True) before_load cells_load.
Proof. unfold_cells; inv_steps; done. Qed.

Lemma cells_setup_calls dataset :
  inv (λ _, True) between (cells_setup dataset).
Proof. unfold_cells; inv_steps; done. Qed.

Lemma train_loop_after_setup items :
  inv (λ _, True) after_setup (train_loop items).
Proof.
  induction items as [|item items IH]; simpl; unfold_cells;
    inv_steps; done.
Qed.

Lemma valid_loop_after_setup items ps ls :
  inv (λ _, True) after_setup (valid_loop items ps ls).
Proof.
  revert ps ls. induction items as [|item items IH]; intros; simpl;
    unfold_cells; inv_steps; done.
Qed.

Lemma cell_train_calls tr va : inv (λ _, True) after_setup (cell_train tr va).
Proof.
  pose proof train_loop_after_setup. pose proof valid_loop_after_setup.
  unfold_cells; inv_steps; done.
Qed.

Lemma trace_bind {A B} (m : M A) (f : A → M B) k :
  trace_of (bind m f k)
  = trace_of (m k)
    ++ match result_of (m k) with
       | Returned a => trace_of (f a (kernel_of (m k)))
       | Raised _ => []
       end.
Proof.
  unfold bind, trace_of, result_of, kernel_of.
  destruct (m k) as [[[a|e] k1] t1]; simpl; [|by rewrite app_nil_r].
  by destruct (f a k1) as [[r k2] t2].
Qed.

Lemma calls_on_calls (P : op → Prop) t :
  Forall (on_calls P) t → Forall P (calls t).
Proof.
  induction 1 as [|[o|o e] t Hev _ IH]; simpl; [done| |done].
  by constructor.
Qed.

(** The trace of the notebook falls into three parts: up to the
    dataset load, the setup, and the training loop. *)
Lemma notebook_parts k :
  ∃ ta tb tc,
    calls (trace_of (notebook k)) = ta ++ tb ++ tc
    ∧ Forall (λ o, is_loader_construction o = false
                   ∧ is_training_call o = false) ta
    ∧ Forall (λ o, is_dataset_load o = false
                   ∧ is_training_call o = false) tb
    ∧ Forall (λ o, is_dataset_load o = false
                   ∧ is_loader_construction o = false) tc.
Proof.
  unfold notebook. rewrite trace_bind.
  pose proof (cells_load_calls k I) as [_ Ha].
  destruct (result_of (cells_load k)) as [dataset|e].
  - rewrite trace_bind.
    pose proof (cells_setup_calls dataset (kernel_of (cells_load k)) I)
      as [_ Hb].
    destruct (result_of (cells_setup dataset _)) as [loaders|e].
    + eexists _, _, _. rewrite !calls_app. split; [done|].
      split_and!; apply calls_on_calls; [done..|].
      by apply cell_train_calls.
    + eexists _, _, []. rewrite !calls_app. split; [done|].
      split_and!; [by apply calls_on_calls..|constructor].
  - eexists _, [], []. rewrite !calls_app. split; [done|].
    split_and!; [by apply calls_on_calls|constructor..].
Qed.

Lemma parts_precede (P Q : op → bool) (front back : list op) :
  Forall (λ o, Q o = false) front → Forall (λ o, P o = false) back →
  precedes P Q (front ++ back).
Proof.
  intros Hfront Hback i j a b Hi Hj Ha Hb.
  destruct (decide (i < length front)) as [Hlt|Hge].
  - destruct (decide (j < length front)) as [Hlt'|Hge']; [|lia].
    rewrite lookup_app_l in Hj by done.
    rewrite Forall_lookup in Hfront. specialize (Hfront _ _ Hj). congruence.
  - rewrite lookup_app_r in Hi by lia.
    rewrite Forall_lookup in Hback. specialize (Hback _ _ Hi). congruence.
Qed.

Lemma notebook_precedence k :
  precedes is_dataset_load is_loader_construction
    (calls (trace_of (notebook k)))
  ∧ precedes is_loader_construction is_training_call
      (calls (trace_of (notebook k)))
  ∧ precedes is_dataset_load is_training_call
      (calls (trace_of (notebook k))).
Proof.
  destruct (notebook_parts k) as (ta & tb & tc & -> & Ha & Hb & Hc).
  split_and!.
  - apply parts_precede.
    + eapply Forall_impl; [exact Ha|]. by intros o [? ?].
    + apply Forall_app. split; (eapply Forall_impl; [eassumption|]);
        by intros o [? ?].
  - rewrite app_assoc. apply parts_precede.
    + apply Forall_app. split; (eapply Forall_impl; [eassumption|]);
        by intros o [? ?].
    + eapply Forall_impl; [exact Hc|]. by intros o [? ?].
  - apply parts_precede.
    + eapply Forall_impl; [exact Ha|]. by intros o [? ?].
    + apply Forall_app. split; (eapply Forall_impl; [eassumption|]);
        by intros o [? ?].
Qed.
End Phases.

(** C3.  In every iteration of the training loop, of every epoch, the
    calls come in one fixed order: the minibatch is obtained from the
    data loader, the model runs forward on its blocks and features, the
    loss is computed, then [opt.zero_grad], [loss.backward] and
    [opt.step], and only then the accuracy metric (an iteration that
    raises stops somewhere along this order).  The training half of an
    epoch is a sequence of such iterations.  In every run of the
    notebook the dataset load precedes every call that constructs a data
    loader, and these precede every call the training loop makes to the
    model, the loss, the optimizer, the metric and the progress bar. *)
Theorem C3_call_order `{L : Library} :
  (∀ item, follows step_calls (data <- call OpNext item ;; train_step data))
  ∧ (∀ train_dataloader k,
       api <$> calls (trace_of (train_phase train_dataloader k)) = []
       ∨ ∃ n rest,
           api <$> calls (trace_of (train_phase train_dataloader k))
             = training_calls n rest
           ∧ match result_of (train_phase train_dataloader k) with
             | Returned _ => rest = []
             | Raised _ => rest `prefix_of` step_calls
             end)
  ∧ (∀ k,
       precedes is_dataset_load is_loader_construction
         (calls (trace_of (notebook k)))
       ∧ precedes is_loader_construction is_training_call
           (calls (trace_of (notebook k)))
       ∧ precedes is_dataset_load is_training_call
           (calls (trace_of (notebook k)))).
Proof.
  split_and!.
  - apply train_iteration_follows.
  - apply train_phase_calls.
  - apply notebook_precedence.
Qed.

Lemma C3_call_order_witness :
  calls (trace_of (Toy.run Toy.plain)) !! 9 = Some (OpDatasetLoad "ogbn-arxiv-seeds")
  ∧ calls (trace_of (Toy.run Toy.plain)) !! 13 = Some (OpItemSampler 1024 true)
  ∧ calls (trace_of (Toy.run Toy.plain)) !! 46 = Some (OpForward true)
  ∧ 9 < 13 < 46.
Proof.
  pose proof (proj2 (proj2 (C3_call_order (L := Toy.library Toy.plain)))
                Toy.fresh) as (H1 & H2 & _).
  assert (calls (trace_of (Toy.run Toy.plain)) !! 9
          = Some (OpDatasetLoad "ogbn-arxiv-seeds")) as Ha
    by (vm_compute; reflexivity).
  assert (calls (trace_of (Toy.run Toy.plain)) !! 13
          = Some (OpItemSampler 1024 true)) as Hb
    by (vm_compute; reflexivity).
  assert (calls (trace_of (Toy.run Toy.plain)) !! 46
          = Some (OpForward true)) as Hc
    by (vm_compute; reflexivity).
  split_and!; [exact Ha | exact Hb | exact Hc | |].
  - exact (H1 9 13 _ _ Ha Hb eq_refl eq_refl).
  - exact (H2 13 46 _ _ Hb Hc eq_refl eq_refl).
Defined.

(** ** Files and the command line *)

Section NoFile.
Context `{L : Library}.

Lemma train_loop_no_file items : inv (λ _, True) no_file (train_loop items).
Proof.
  induction items as [|item items IH]; simpl; unfold_cells;
    inv_steps; done.
Qed.

Lemma valid_loop_no_file items ps ls :
  inv (λ _, True) no_file (valid_loop items ps ls).
Proof.
  revert ps ls. induction items as [|item items IH]; intros; simpl;
    unfold_cells; inv_steps; done.
Qed.

Lemma training_loop_no_file tr va :
  inv (λ _, True) no_file (training_loop tr va).
Proof.
  pose proof train_loop_no_file. pose proof valid_loop_no_file.
  unfold_cells; inv_steps; done.
Qed.

(** The cells after the dataset load. *)
Lemma after_load_no_file dataset :
  inv (λ _, True) no_file
    (loaders <- cells_setup dataset ;; cell_train loaders.1 loaders.2).
Proof.
  pose proof train_loop_no_file. pose proof valid_loop_no_file.
  unfold_cells; inv_steps; done.
Qed.

Lemma no_file_filter t :
  Forall no_file t → filter (λ o, file_or_cli o = true) (calls t) = [].
Proof.
  induction 1 as [|[o|o e] t Hev _ IH]; simpl; [done| |done].
  rewrite filter_cons_False; [done|]. simpl in Hev. by rewrite Hev.
Qed.

(** The install cell runs one shell command, once. *)
Lemma cell_install_files k :
  match result_of (cell_install k) with
  | Returned _ =>
      filter (λ o, file_or_cli o = true) (calls (trace_of (cell_install k)))
      = [OpShell pip_install]
  | Raised _ =>
      filter (λ o, file_or_cli o = true) (calls (trace_of (cell_install k)))
      `prefix_of` [OpShell pip_install]
  end.
Proof.
  unfold cell_install, import_guard, import_, setenv, call, try_except,
    print, bind, tick, eval_at, modify, ret, raise_at, result_of, trace_of.
  destruct (import_module "os") as [[]|?]; simpl; [|apply prefix_nil].
  destruct (import_module "torch") as [[]|?]; simpl; [|apply prefix_nil].
  destruct (import_module "numpy") as [[]|?]; simpl; [|apply prefix_nil].
  destruct (import_module "dgl") as [[]|e1]; simpl.
  - destruct (import_module "dgl.graphbolt") as [[]|e2]; simpl; [done|].
    destruct (isinstance e2 ImportError); simpl; [done | by eexists].
  - destruct (isinstance e1 ImportError); simpl; [done | by eexists].
Qed.

Lemma result_bind {A B} (m : M A) (f : A → M B) k :
  result_of (bind m f k)
  = match result_of (m k) with
    | Returned a => result_of (f a (kernel_of (m k)))
    | Raised e => Raised e
    end.
Proof.
  unfold bind, result_of, kernel_of.
  destruct (m k) as [[[a|e] k1] t1]; simpl; [|done].
  by destruct (f a k1) as [[r k2] t2].
Qed.

Lemma cell_dataset_files k :
  match result_of (cell_dataset k) with
  | Returned _ =>
      filter (λ o, file_or_cli o = true) (calls (trace_of (cell_dataset k)))
      = [OpDatasetLoad "ogbn-arxiv-seeds"]
  | Raised _ =>
      filter (λ o, file_or_cli o = true) (calls (trace_of (cell_dataset k)))
      `prefix_of` [OpDatasetLoad "ogbn-arxiv-seeds"]
  end.
Proof.
  unfold cell_dataset, name_, call, bind, get, tick, eval_at, ret, raise_at,
    result_of, trace_of.
  destruct (bool_decide ("gb" ∈ names k)); simpl; [|apply prefix_nil].
  destruct (BuiltinDataset_load "ogbn-arxiv-seeds"); simpl;
    [done | by eexists].
Qed.

Lemma cells_load_files k :
  match result_of (cells_load k) with
  | Returned _ =>
      filter (λ o, file_or_cli o = true) (calls (trace_of (cells_load k)))
      = [OpShell pip_install; OpDatasetLoad "ogbn-arxiv-seeds"]
  | Raised _ =>
      filter (λ o, file_or_cli o = true) (calls (trace_of (cells_load k)))
      `prefix_of` [OpShell pip_install; OpDatasetLoad "ogbn-arxiv-seeds"]
  end.
Proof.
  unfold cells_load. rewrite trace_bind, result_bind, calls_app, filter_app.
  pose proof (cell_install_files k) as Hi.
  destruct (result_of (cell_install k)) as [[]|e].
  - rewrite Hi.
    pose proof (cell_dataset_files (kernel_of (cell_install k))) as Hd.
    destruct (result_of (cell_dataset _)) as [dataset|e].
    + by rewrite Hd.
    + by apply (prefix_app [OpShell pip_install]).
  - rewrite app_nil_r. etrans; [exact Hi|]. by eexists.
Qed.

Lemma notebook_files k :
  filter (λ o, file_or_cli o = true) (calls (trace_of (notebook k)))
  `prefix_of` [OpShell pip_install; OpDatasetLoad "ogbn-arxiv-seeds"].
Proof.
  unfold notebook. rewrite trace_bind, calls_app, filter_app.
  pose proof (cells_load_files k) as Hl.
  destruct (result_of (cells_load k)) as [dataset|e].
  - pose proof (after_load_no_file dataset (kernel_of (cells_load k)) I)
      as [_ Hrest].
    by rewrite (no_file_filter _ Hrest), app_nil_r, Hl.
  - by rewrite app_nil_r.
Qed.
End NoFile.

(** C5 (as amended).  In every run of the notebook, from any kernel and
    over any implementation of the libraries, the calls that write
    files or read a command line are at most two, in this order and
    each at most once: the shell command [pip install] of the install
    cell and the dataset loader.  No other operation of the notebook
    writes a file, and none defines or reads a command line: there is
    no [torch.save], no [open] and no argument parser.  In particular
    the training and validation loop, over any two data loaders and
    from any kernel, runs no shell command and never saves the model or
    a checkpoint, in any epoch. *)
Theorem C5_no_file_no_cli `{L : Library} (k : kernel) :
  filter (λ o, file_or_cli o = true) (calls (trace_of (notebook k)))
  `prefix_of` [OpShell pip_install; OpDatasetLoad "ogbn-arxiv-seeds"]
  ∧ ∀ train_dataloader valid_dataloader k',
      Forall (on_calls (λ o, file_or_cli o = false))
        (trace_of (training_loop train_dataloader valid_dataloader k')).
Proof.
  split.
  - apply notebook_files.
  - intros tr va k'. by apply training_loop_no_file.
Qed.

(** C5 (as stated) fails: the install cell runs [pip install], which
    writes the files of the package it installs. *)
Lemma C5_pip_install_writes_files : ¬ no_operation_writes.
Proof.
  intros H.
  specialize (H Toy.carriers (Toy.library Toy.plain) Toy.fresh).
  rewrite Forall_forall in H.
  specialize (H (ECall (OpShell pip_install))).
  assert (file_or_cli (OpShell pip_install) = false) as Hf; [|done].
  apply H. apply (bool_decide_unpack _). vm_compute. exact I.
Qed.

(** ** The data loader *)

Section Loader.
Context `{L : Library}.

(** What the four stages do to a batch of the item sampler. *)
Lemma pipeline_minibatch g f b mb :
  obind (obind (obind (obind (Returned b) item_sampler)
                  (copy_to device ["seeds"]))
           (sample_neighbor g [4; 4]%Z))
    (fetch_feature f ["feat"]) = Returned mb →
  ∃ s ids mfgs x m,
    tensor_to device b.1 = Returned s
    ∧ seeds mb = Some s
    ∧ sample_neighbors g [4; 4]%Z s = Returned (ids, mfgs)
    ∧ input_nodes mb = Some ids
    ∧ sampled_subgraphs mb = Some mfgs
    ∧ read_feature f "feat" ids = Returned x
    ∧ node_features mb = Some m ∧ m !! "feat" = Some x
    ∧ mb_device mb = Some device.
Proof.
  intros (mb3 & H3 & Hfetch)%obind_inv.
  apply obind_inv in H3 as (mb2 & H2 & Hsample).
  apply obind_inv in H2 as (mb1 & H1 & Hcopy).
  simpl in H1. unfold item_sampler in H1. injection H1 as <-.
  unfold copy_to in Hcopy. simpl in Hcopy.
  apply obind_inv in Hcopy as (s' & Hs & Hcopy).
  apply obind_inv in Hs as (s & Hs & [= <-]).
  apply obind_inv in Hcopy as (l' & Hl & Hcopy).
  simpl in Hcopy. injection Hcopy as <-.
  unfold sample_neighbor in Hsample. simpl in Hsample.
  apply obind_inv in Hsample as ([ids mfgs] & Hsample & [= <-]).
  unfold fetch_feature in Hfetch. simpl in Hfetch.
  apply obind_inv in Hfetch as (m & Hm & [= <-]).
  apply obind_inv in Hm as (x & Hx & Hm). simpl in Hm. injection Hm as <-.
  exists s, ids, mfgs, x, (<["feat" := x]> ∅).
  by split_and!.
Qed.
End Loader.

(** C4.  Every data loader that [create_dataloader] returns wraps a
    pipeline whose stages are, in this order: the item sampler over the
    item set with batch size 1024, the copy to the device, the neighbor
    sampler over the graph with fanouts [4, 4], and the fetch of the
    node feature "feat"; they are added by calls in the same order.
    Hence every minibatch that an iteration of the loader yields
    carries the seeds of one batch of the item sampler (copied to the
    device), the neighborhoods sampled for these seeds, and the "feat"
    features fetched for the input nodes of the sample. *)
Theorem C4_create_dataloader `{L : Library} (g : globals) (itemset : itemset_t)
    (shuffle : bool) (k k' : kernel) (dl : dataloader) (t : list event) :
  create_dataloader g itemset shuffle k = (Returned dl, k', t) →
  ∃ dp,
    dl = DataLoader dp
    ∧ stages dp = [OpItemSampler 1024 shuffle; OpCopyTo device ["seeds"];
                   OpSampleNeighbor [4; 4]%Z; OpFetchFeature ["feat"]]
    ∧ calls t = stages dp ++ [OpDataLoader]
    ∧ ∀ n mb,
        Returned mb ∈ stream dp n →
        ∃ b s ids mfgs x m,
          Returned b ∈ item_batches itemset 1024 shuffle n
          ∧ tensor_to device b.1 = Returned s
          ∧ seeds mb = Some s
          ∧ sample_neighbors (g_graph g) [4; 4]%Z s = Returned (ids, mfgs)
          ∧ input_nodes mb = Some ids
          ∧ sampled_subgraphs mb = Some mfgs
          ∧ read_feature (g_feature g) "feat" ids = Returned x
          ∧ node_features mb = Some m ∧ m !! "feat" = Some x
          ∧ mb_device mb = Some device.
Proof.
  intros H. unfold create_dataloader, name_ in H. run_inv.
  eexists. split; [done|]. split; [done|]. split; [done|].
  intros n mb Hmb. simpl in Hmb.
  apply list_elem_of_fmap in Hmb as (r3 & Hmb & Hr3).
  apply list_elem_of_fmap in Hr3 as (r2 & -> & Hr2).
  apply list_elem_of_fmap in Hr2 as (r1 & -> & Hr1).
  apply list_elem_of_fmap in Hr1 as (r0 & -> & Hr0).
  destruct r0 as [b|e]; [|done].
  symmetry in Hmb.
  apply pipeline_minibatch in Hmb
    as (s & ids & mfgs & x & m & ? & ? & ? & ? & ? & ? & ? & ? & ?).
  by exists b, s, ids, mfgs, x, m.
Qed.

Lemma C4_create_dataloader_witness :
  ∃ dp : @datapipe Toy.carriers,
    stages dp = [OpItemSampler 1024 true; OpCopyTo device ["seeds"];
                 OpSampleNeighbor [4; 4]%Z; OpFetchFeature ["feat"]]
    ∧ stream (L := Toy.library Toy.plain) dp 0
      = [Returned Toy.first_minibatch].
Proof.
  set (k := set_names ["gb"] Toy.fresh).
  destruct (C4_create_dataloader (L := Toy.library Toy.plain) Toy.the_globals
              [1; 2; 3]%Z true k
              (kernel_of (create_dataloader (L := Toy.library Toy.plain)
                            Toy.the_globals [1; 2; 3]%Z true k))
              (DataLoader Toy.train_pipe)
              (trace_of (create_dataloader (L := Toy.library Toy.plain)
                           Toy.the_globals [1; 2; 3]%Z true k)))
    as (dp & Hdl & Hstages & _ & _).
  - vm_compute. reflexivity.
  - exists dp. split; [exact Hstages|].
    injection Hdl as <-. vm_compute. reflexivity.
Defined.

(** ** Exceptions are not swallowed *)

Section Propagation.
Context `{L : Library}.
Variable B : event → Prop.
Hypothesis B_call : ∀ o, B (ECall o).

Lemma propagates_ret {A} (a : A) : propagates B (ret a).
Proof. intros k. constructor. Qed.

Lemma propagates_tick o : propagates B (tick o).
Proof. intros k. by repeat constructor. Qed.

Lemma propagates_modify f : propagates B (modify f).
Proof. intros k. constructor. Qed.

Lemma propagates_raise_at {A} o e : propagates B (raise_at (A := A) o e).
Proof. intros k. by exists [], o, []. Qed.

Lemma propagates_eval_at {A} o (r : outcome A) : propagates B (eval_at o r).
Proof. destruct r; [apply propagates_ret | apply propagates_raise_at]. Qed.

Lemma propagates_bind {A D} (m : M A) (f : A → M D) :
  propagates B m → (∀ a, propagates B (f a)) → propagates B (bind m f).
Proof.
  intros Hm Hf k. specialize (Hm k).
  unfold propagated, bind, result_of, trace_of in *.
  destruct (m k) as [[[a|e] k1] t1]; simpl in *; [|done].
  specialize (Hf a k1). unfold propagated, result_of, trace_of in *.
  destruct (f a k1) as [[[b|e] k2] t2]; simpl in *.
  - by apply Forall_app.
  - destruct Hf as (u1 & o & u2 & -> & Hu1 & Hu2).
    exists (t1 ++ u1), o, u2. rewrite <-app_assoc.
    split; [done|]. split; [by apply Forall_app | done].
Qed.

Lemma propagates_get_bind {D} (f : kernel → M D) :
  (∀ k, propagates B (f k)) → propagates B (bind get f).
Proof. intros Hf k. rewrite bind_get. apply Hf. Qed.

Lemma propagates_call {A} o (r : outcome A) : propagates B (call o r).
Proof.
  apply propagates_bind; [apply propagates_tick|].
  intros _. apply propagates_eval_at.
Qed.

Lemma propagates_with_exit {A} (body : M A) on_exit :
  propagates B body → quiet_exit on_exit →
  propagates B (with_exit body on_exit).
Proof.
  intros Hb Hx k. specialize (Hb k).
  unfold propagated, with_exit, result_of, trace_of in *.
  destruct (body k) as [[r k1] t1]; simpl in *.
  destruct (Hx k1) as [Hr Ht]. unfold result_of, trace_of in *.
  destruct (on_exit k1) as [[rx k2] t2]; simpl in *. subst rx.
  assert (Forall B t2) as Ht2.
  { eapply Forall_impl; [exact Ht|]. by intros [o|o e]. }
  destruct r as [a|e]; simpl.
  - by apply Forall_app.
  - destruct Hb as (u1 & o & u2 & -> & Hu1 & Hu2).
    exists u1, o, (u2 ++ t2). rewrite <-app_assoc.
    split; [done|]. split; [done | by apply Forall_app].
Qed.

Lemma propagates_for_in {X} (xs : list X) body :
  (∀ x, propagates B (body x)) → propagates B (for_in xs body).
Proof.
  intros Hb. induction xs as [|x xs IH]; simpl; [apply propagates_ret|].
  apply propagates_bind; [apply Hb | by intros _].
Qed.

(** What a recorded raise implies for the result. *)
Lemma propagated_raise {A} (x : outcome A * kernel * list event) o e :
  propagated B x → ERaise o e ∈ trace_of x →
  B (ERaise o e) ∨ result_of x = Raised e.
Proof.
  unfold propagated. destruct (result_of x) as [a|e'].
  - intros Ht Hin. left. by eapply Forall_forall in Ht.
  - intros (t1 & o' & t2 & -> & Ht1 & Ht2) Hin.
    apply elem_of_app in Hin as [Hin|Hin].
    { left. by eapply Forall_forall in Ht1. }
    apply elem_of_cons in Hin as [[= -> ->]|Hin]; [by right|].
    left. by eapply Forall_forall in Ht2.
Qed.
End Propagation.

Lemma quiet_tick `{L : Library} o : quiet_exit (tick o).
Proof. intros k. split; [done | by repeat constructor]. Qed.

Lemma quiet_tick_modify `{L : Library} o f : quiet_exit (tick o ;; modify f).
Proof. intros k. split; [done | by repeat constructor]. Qed.

Ltac propagates_step :=
  lazymatch goal with
  | |- propagates _ (ret _) => apply propagates_ret
  | |- propagates _ (tick _) => apply propagates_tick
  | |- propagates _ (print _) => apply propagates_tick
  | |- propagates _ (raise_at _ _) => apply propagates_raise_at
  | |- propagates _ (eval_at _ _) => apply propagates_eval_at
  | |- propagates _ (call _ _) => apply propagates_call
  | |- propagates _ (modify _) => apply propagates_modify
  | |- propagates _ (bind get _) => apply propagates_get_bind; intros ?
  | |- propagates _ (bind _ _) => apply propagates_bind; [.. | intros ?]
  | |- propagates _ (with_exit _ (tick _)) =>
      apply propagates_with_exit; [.. | apply quiet_tick]
  | |- propagates _ (with_exit _ (bind (tick _) _)) =>
      apply propagates_with_exit; [.. | apply quiet_tick_modify]
  | |- propagates _ (for_in _ _) => apply propagates_for_in; intros ?
  | |- propagates _ (if ?c then _ else _) => destruct c eqn:?
  | |- propagates _ (match ?x with _ => _ end) => destruct x eqn:?
  | |- propagates _ (let _ := _ in _) => cbv zeta
  end.

Ltac propagates_steps := repeat propagates_step.

Section NoHandler.
Context `{L : Library}.

Lemma train_loop_propagates B items :
  (∀ o, B (ECall o)) → propagates B (train_loop items).
Proof.
  intros HB. induction items as [|item items IH]; simpl; unfold_cells;
    propagates_steps; done.
Qed.

Lemma valid_loop_propagates B items ps ls :
  (∀ o, B (ECall o)) → propagates B (valid_loop items ps ls).
Proof.
  intros HB. revert ps ls.
  induction items as [|item items IH]; intros; simpl; unfold_cells;
    propagates_steps; done.
Qed.

Lemma cells_after_guard_propagates B :
  (∀ o, B (ECall o)) → propagates B cells_after_guard.
Proof.
  intros HB. pose proof (train_loop_propagates B).
  pose proof (valid_loop_propagates B).
  unfold_cells; propagates_steps; auto.
Qed.

(** The guard: an [ImportError] of its two imports is caught, and is
    the only raise left behind in the trace of a run that goes on. *)
Lemma import_guard_propagates : propagates benign import_guard.
Proof.
  intros k.
  unfold import_guard, import_, call, try_except, print, bind, tick,
    eval_at, modify, ret, raise_at, propagated, result_of, trace_of.
  destruct (import_module "dgl") as [[]|e1]; simpl.
  - destruct (import_module "dgl.graphbolt") as [[]|e2]; simpl.
    + by repeat constructor.
    + destruct (isinstance e2 ImportError) eqn:He; simpl.
      * repeat first [apply Forall_nil | apply Forall_cons; split];
          try exact I.
        split; [by right | done].
      * exists [ECall (OpImport "dgl"); ECall (OpImport "dgl.graphbolt")],
          (OpImport "dgl.graphbolt"), [].
        split; [done|]. split; by repeat constructor.
  - destruct (isinstance e1 ImportError) eqn:He; simpl.
    + repeat first [apply Forall_nil | apply Forall_cons; split];
        try exact I.
      split; [by left | done].
    + exists [ECall (OpImport "dgl")], (OpImport "dgl"), [].
      split; [done|]. split; by repeat constructor.
Qed.

Lemma cell_install_propagates : propagates benign cell_install.
Proof.
  pose proof import_guard_propagates.
  unfold cell_install, import_, setenv; propagates_steps; done.
Qed.

Lemma notebook_after_guard k :
  notebook k = (cell_install ;; cells_after_guard) k.
Proof.
  unfold notebook, cells_load, cells_after_guard. by rewrite !bind_assoc.
Qed.

Lemma notebook_propagates : propagates benign notebook.
Proof.
  intros k. rewrite notebook_after_guard.
  apply propagates_bind; [apply cell_install_propagates |].
  intros _. by apply cells_after_guard_propagates.
Qed.
End NoHandler.

(** C6.  Outside the import guard no exception is caught.  In a run of
    the cells after the guard, from any kernel, every exception that is
    raised (by the dataset load, by fetching a minibatch, by the forward
    pass, by the optimizer step, by the metric, or by anything else) is
    the exception the run ends with.  In a run of the whole notebook the
    same holds of every raised exception but an [ImportError] of the two
    guarded imports. *)
Theorem C6_exceptions_propagate `{L : Library} (k : kernel) (o : op) (e : exn) :
  (ERaise o e ∈ trace_of (cells_after_guard k) →
   result_of (cells_after_guard k) = Raised e)
  ∧ (ERaise o e ∈ trace_of (notebook k) → ¬ guarded o e →
     result_of (notebook k) = Raised e).
Proof.
  split.
  - intros Hin.
    by destruct (propagated_raise no_raise _ o e
                   (cells_after_guard_propagates no_raise (λ _, I) k) Hin).
  - intros Hin Hg.
    by destruct (propagated_raise benign _ o e (notebook_propagates k) Hin).
Qed.

Lemma C6_exceptions_propagate_witness :
  result_of (Toy.run Toy.failing_forward)
  = Raised (Exn RuntimeError "out of memory").
Proof.
  apply (proj2 (C6_exceptions_propagate (L := Toy.library Toy.failing_forward)
                  Toy.fresh (OpForward false)
                  (Exn RuntimeError "out of memory"))).
  - apply (bool_decide_unpack _). vm_compute. exact I.
  - intros [[Ho|Ho] _]; discriminate Ho.
Defined.

(** ** Validation leaves the parameters alone *)

Section Validation.
Context `{L : Library}.

(** A block entered by a kernel update that establishes [J], and left
    by an exit handler that may give [J] up again. *)
Lemma inv_scope (J : kernel → Prop) P {A} f (body : M A) on_exit :
  (∀ k, J (f k)) → inv J P body → inv (λ _, True) P on_exit →
  inv (λ _, True) P (bind (modify f) (λ _, with_exit body on_exit)).
Proof.
  intros Hf Hbody Hexit k _. split; [done|].
  destruct (Hbody (f k) (Hf k)) as [_ Ht1].
  unfold bind, modify, with_exit, trace_of in *. simpl.
  destruct (body (f k)) as [[r k1] t1]. destruct (Hexit k1 I) as [_ Ht2].
  unfold trace_of in *.
  destruct (on_exit k1) as [[[[]|e] k2] t2]; simpl in *;
    by apply Forall_app.
Qed.

Lemma valid_loop_frame m0 items ps ls :
  inv (λ k, model k = m0) no_optimizer (valid_loop items ps ls).
Proof.
  revert ps ls. induction items as [|item items IH]; intros; simpl;
    unfold_cells; inv_steps; done.
Qed.

Lemma valid_phase_frame m0 epoch va :
  inv (λ k, model k = m0) no_optimizer (valid_phase epoch va).
Proof.
  pose proof (valid_loop_frame m0). unfold_cells; inv_steps; done.
Qed.

Lemma valid_loop_no_grad items ps ls :
  inv (λ k, grad_enabled k = false) no_grad_recorded
    (valid_loop items ps ls).
Proof.
  revert ps ls. induction items as [|item items IH]; intros; simpl;
    unfold_cells; inv_steps; done.
Qed.

Lemma valid_phase_no_grad epoch va :
  inv (λ _, True) no_grad_recorded (valid_phase epoch va).
Proof.
  pose proof valid_loop_no_grad. unfold_cells.
  repeat lazymatch goal with
         | |- inv _ _ (bind (modify _) (λ _, with_exit _ _)) =>
             apply (inv_scope (λ k, grad_enabled k = false));
               [intros ? | |]
         | |- _ => inv_step
         end; done.
Qed.
End Validation.

(** C9.  The validation phase of an epoch never modifies the parameters
    of the model: from any kernel, and whether it returns or raises, it
    leaves the model as it found it, it calls none of [opt.zero_grad],
    [loss.backward] and [opt.step], and every forward pass it makes runs
    with autograd's grad mode switched off.  So after the validation
    phase of an epoch the model is the one the training phase of that
    epoch left. *)
Theorem C9_validation_frame `{L : Library} (epoch : nat)
    (train_dataloader valid_dataloader : dataloader) (k : kernel) :
  model (kernel_of (valid_phase epoch valid_dataloader k)) = model k
  ∧ Forall (on_calls (λ o, is_optimizer_call o = false))
      (trace_of (valid_phase epoch valid_dataloader k))
  ∧ Forall (on_calls (λ o, records_grad o = false))
      (trace_of (valid_phase epoch valid_dataloader k))
  ∧ model (kernel_of ((train_phase train_dataloader ;;
                       valid_phase epoch valid_dataloader) k))
    = model (kernel_of (train_phase train_dataloader k)).
Proof.
  split_and!.
  - by apply (valid_phase_frame (model k)).
  - by apply (valid_phase_frame (model k)).
  - by apply valid_phase_no_grad.
  - unfold bind, kernel_of.
    destruct (train_phase train_dataloader k) as [[[[]|e] k1] t1] eqn:Htr;
      [|done].
    pose proof (valid_phase_frame (model k1) epoch valid_dataloader k1 eq_refl)
      as [Hm _].
    unfold kernel_of in Hm.
    by destruct (valid_phase epoch valid_dataloader k1) as [[r k2] t2].
Qed.

(** ** The model *)

Lemma layers_with_weights `{L : Library} (m : Model) w :
  layers (with_weights m w) = layers m.
Proof. done. Qed.

Ltac has_model_solve :=
  intros; try done;
  repeat match goal with
         | H : has_model _ _ _ |- _ => destruct H as (? & ? & ? & ?)
         end;
  try (unfold has_model; eexists;
       split; [simpl; first [eassumption | reflexivity] |];
       split; simpl; rewrite ?layers_with_weights; congruence).

Section TheModel.
Context `{L : Library}.

Lemma forward_two_blocks (self : Model) b0 b1 x :
  forward self (Some [b0; b1]) x
  = obind (SAGEConv_call (conv1 self) b0 x) (λ h,
    obind (relu h) (λ h, SAGEConv_call (conv2 self) b1 h)).
Proof. done. Qed.

Lemma cell_model_returned g k k' t :
  cell_model g k = (Returned tt, k', t) →
  ∃ in_size,
    has_model [(PInt in_size, PInt 64, "mean");
               (PInt 64, g_num_classes g, "mean")] device k'.
Proof.
  intros H.
  unfold cell_model, Model_init, Model_to, SAGEConv_new, import_ in H.
  run_inv. eexists. by eexists.
Qed.

Lemma train_loop_has_model c d items :
  inv (has_model c d) (λ _, True) (train_loop items).
Proof.
  induction items as [|item items IH]; simpl; unfold_cells;
    inv_steps; has_model_solve.
Qed.

Lemma valid_loop_has_model c d items ps ls :
  inv (has_model c d) (λ _, True) (valid_loop items ps ls).
Proof.
  revert ps ls. induction items as [|item items IH]; intros; simpl;
    unfold_cells; inv_steps; has_model_solve.
Qed.

Lemma cell_train_has_model c d tr va :
  inv (has_model c d) (λ _, True) (cell_train tr va).
Proof.
  pose proof (train_loop_has_model c d).
  pose proof (valid_loop_has_model c d).
  unfold_cells; inv_steps; has_model_solve.
Qed.

Lemma cell_optimizer_has_model c d :
  inv (has_model c d) (λ _, True) cell_optimizer.
Proof. unfold_cells; inv_steps; has_model_solve. Qed.

Lemma cell_dataloaders_has_model c d g :
  inv (has_model c d) (λ _, True) (cell_dataloaders g).
Proof. unfold_cells; inv_steps; has_model_solve. Qed.

(** The model a complete run ends with. *)
Lemma notebook_model k k' t :
  notebook k = (Returned tt, k', t) →
  ∃ dataset task num_classes in_size,
    BuiltinDataset_load "ogbn-arxiv-seeds" = Returned dataset
    ∧ tasks dataset !! 0 = Some task
    ∧ metadata task !! "num_classes" = Some num_classes
    ∧ has_model [(PInt in_size, PInt 64, "mean");
                 (PInt 64, num_classes, "mean")] device k'.
Proof.
  intros H. unfold notebook, cells_load, cells_setup in H.
  apply bind_inv in H as (dataset & k2 & t2 & t3 & H12 & H & ->).
  apply bind_inv in H12 as ([] & k1 & t1 & t2' & H1 & H2 & ->).
  apply bind_inv in H as (loaders & k3 & t3' & t4 & H3 & H4 & ->).
  apply bind_inv in H3 as (g & k4 & t5 & t6 & Htask & H3 & ->).
  apply bind_inv in H3 as (data & k5 & t7 & t8 & Hdata & H3 & ->).
  apply bind_inv in H3 as ([] & k6 & t9 & t10 & Hin & H3 & ->).
  apply bind_inv in H3 as ([] & k7 & t11 & t12 & Hmodel & H3 & ->).
  apply bind_inv in H3 as ([] & k8 & t13 & t14 & Hopt & Hdl & ->).
  unfold cell_dataset, name_ in H2. run_inv.
  apply cell_task_returned in Htask
    as (task & Htasks & _ & Hnum & _ & _ & _).
  apply cell_model_returned in Hmodel as (in_size & Hm).
  exists dataset, task, (g_num_classes g), in_size.
  split_and!; [done..|].
  pose proof (cell_optimizer_has_model _ _ k7 Hm) as [Hm8 _].
  rewrite Hopt in Hm8.
  pose proof (cell_dataloaders_has_model _ _ g k8 Hm8) as [Hm3 _].
  rewrite Hdl in Hm3.
  pose proof (cell_train_has_model _ _ loaders.1 loaders.2 k3 Hm3) as [Hm' _].
  by rewrite H4 in Hm'.
Qed.
End TheModel.

(** C7.  The trained model is a two-layer GraphSAGE node classifier.  On
    every pair of message flow graphs and every input feature tensor,
    [forward] is [conv2] applied to the second graph and to the [relu]
    of [conv1] applied to the first graph and the input.  The model a
    complete run of the notebook ends with has two [SAGEConv] layers
    that both aggregate by the mean, the first from the input feature
    size to 64 and the second from 64 to the number of classes found in
    the metadata of the first task of the dataset. *)
Theorem C7_graphsage_model `{L : Library} :
  (∀ (self : Model) b0 b1 x,
     forward self (Some [b0; b1]) x
     = obind (SAGEConv_call (conv1 self) b0 x) (λ h,
       obind (relu h) (λ h, SAGEConv_call (conv2 self) b1 h)))
  ∧ (∀ k k' t,
       notebook k = (Returned tt, k', t) →
       ∃ m dataset task num_classes,
         model k' = Some m
         ∧ BuiltinDataset_load "ogbn-arxiv-seeds" = Returned dataset
         ∧ tasks dataset !! 0 = Some task
         ∧ metadata task !! "num_classes" = Some num_classes
         ∧ aggregator_type (conv1 m) = "mean"
         ∧ aggregator_type (conv2 m) = "mean"
         ∧ out_feats (conv1 m) = PInt 64
         ∧ in_feats (conv2 m) = PInt 64
         ∧ out_feats (conv2 m) = num_classes).
Proof.
  split; [apply forward_two_blocks|].
  intros k k' t H.
  apply notebook_model in H
    as (dataset & task & num_classes & in_size & ? & ? & ? & m & ? & Hl & _).
  exists m, dataset, task, num_classes.
  unfold layers in Hl. simplify_eq. by split_and!.
Qed.

Lemma C7_graphsage_model_witness :
  ∃ m, model (kernel_of (Toy.run Toy.plain)) = Some m
       ∧ aggregator_type (conv1 m) = "mean"
       ∧ aggregator_type (conv2 m) = "mean"
       ∧ out_feats (conv2 m) = PInt 40.
Proof.
  destruct (proj2 (C7_graphsage_model (L := Toy.library Toy.plain))
              Toy.fresh (kernel_of (Toy.run Toy.plain))
              (trace_of (Toy.run Toy.plain)))
    as (m & dataset & task & num_classes & Hm & Hd & Ht & Hn & H1 & H2 & _ & _ & H3).
  - vm_compute. reflexivity.
  - exists m. split_and!; [done..|].
    injection Hd as <-. injection Ht as <-.
    rewrite H3. vm_compute in Hn. by injection Hn as <-.
Defined.

(** * Further properties of the cells *)

(** ** Failed installs, empty datasets, empty loaders *)

Section Edges.
Context `{L : Library}.

Lemma bind_ret {A B} (a : A) (f : A → M B) k : bind (ret a) f k = f a k.
Proof. unfold bind, ret. by destruct (f a k) as [[r k2] t2]. Qed.

Lemma bind_modify {B} g (f : unit → M B) k :
  bind (modify g) f k = f tt (g k).
Proof. unfold bind, modify. by destruct (f tt (g k)) as [[r k2] t2]. Qed.

Lemma bind_tick {B} o (f : unit → M B) k :
  bind (tick o) f k = after [ECall o] (f tt k).
Proof. unfold bind, tick, after. by destruct (f tt k) as [[r k2] t2]. Qed.

Lemma bind_call {A B} o (a : A) (f : A → M B) k :
  bind (call o (Returned a)) f k = after [ECall o] (f a k).
Proof.
  unfold bind, call, tick, eval_at, ret, after. simpl.
  by destruct (f a k) as [[r k2] t2].
Qed.

Lemma bind_call_raised {A B} o e (f : A → M B) k :
  bind (call o (Raised e)) f k = (Raised e, k, [ECall o; ERaise o e]).
Proof. done. Qed.

Lemma bind_eval {A B} o (a : A) (f : A → M B) k :
  bind (eval_at o (Returned a)) f k = f a k.
Proof. apply bind_ret. Qed.

Lemma bind_eval_raised {A B} o e (f : A → M B) k :
  bind (eval_at o (Raised e)) f k = (Raised e, k, [ERaise o e]).
Proof. done. Qed.

Lemma bind_after {A B} (m : M A) (f : A → M B) k a k1 t1 :
  m k = (Returned a, k1, t1) → bind m f k = after t1 (f a k1).
Proof. intros H. by rewrite (bind_returned _ _ _ _ _ _ H). Qed.

Lemma bind_name {B} n (f : unit → M B) k :
  n ∈ names k → bind (name_ n) f k = f tt k.
Proof.
  intros Hn. unfold name_. rewrite bind_assoc, bind_get.
  rewrite bool_decide_true by done. apply bind_ret.
Qed.

Lemma name_bound n k : n ∈ names k → name_ n k = (Returned tt, k, []).
Proof.
  intros Hn. unfold name_. rewrite bind_get.
  rewrite bool_decide_true by done. done.
Qed.

End Edges.

(** Run the statements at the head of a computation. *)
Ltac step :=
  cbv beta;
  first [ rewrite bind_call | rewrite bind_call_raised
        | rewrite bind_eval | rewrite bind_eval_raised
        | rewrite bind_tick | rewrite bind_modify | rewrite bind_ret
        | rewrite bind_get | rewrite bind_assoc ].

Ltac steps := repeat step.

Section Loaders.
Context `{L : Library}.

(** Building a loader, with [gb] bound, when the five calls return. *)
Lemma create_dataloader_built g itemset shuffle k :
  "gb" ∈ names k →
  ItemSampler_init itemset 1024 shuffle = Returned tt →
  copy_to_init device ["seeds"] = Returned tt →
  sample_neighbor_init (g_graph g) [4; 4]%Z = Returned tt →
  fetch_feature_init (g_feature g) ["feat"] = Returned tt →
  DataLoader_init (pipeline (g_graph g) (g_feature g) itemset shuffle)
  = Returned tt →
  create_dataloader g itemset shuffle k
  = (Returned (DataLoader (pipeline (g_graph g) (g_feature g) itemset shuffle)),
     k,
     ECall <$> [OpItemSampler 1024 shuffle; OpCopyTo device ["seeds"];
                OpSampleNeighbor [4; 4]%Z; OpFetchFeature ["feat"];
                OpDataLoader]).
Proof.
  intros Hk H1 H2 H3 H4 H5. unfold create_dataloader.
  rewrite bind_name by done. rewrite H1, H2, H3, H4. rewrite !bind_call.
  cbv zeta. rewrite bind_name by done.
  unfold pipeline in H5. rewrite H5. by rewrite bind_call.
Qed.

(** A loader that was built is the pipeline over its item set, and
    building it left the kernel alone. *)
Lemma create_dataloader_returned g itemset shuffle k dl k' t :
  create_dataloader g itemset shuffle k = (Returned dl, k', t) →
  dl = DataLoader (pipeline (g_graph g) (g_feature g) itemset shuffle)
  ∧ k' = k ∧ "gb" ∈ names k.
Proof.
  intros H. unfold create_dataloader, name_ in H. run_inv.
  split; [done|]. split; [done|].
  by match goal with H : bool_decide _ = true |- _ =>
       apply bool_decide_eq_true in H end.
Qed.

(** The install cell when the guard catches an [ImportError]. *)
Lemma cell_install_not_found k e :
  import_module "os" = Returned tt →
  import_module "torch" = Returned tt →
  import_module "numpy" = Returned tt →
  isinstance e ImportError = true →
  import_module "dgl" = Raised e
  ∨ (import_module "dgl" = Returned tt
     ∧ import_module "dgl.graphbolt" = Raised e) →
  ∃ k1 t1,
    cell_install k = (Returned tt, k1, t1)
    ∧ printed t1 = [str_exn e; "DGL not found!"]
    ∧ Forall (λ o, is_dataset_load o = false) (calls t1)
    ∧ ("gb" ∈ names k1 → "gb" ∈ names k).
Proof.
  intros Hos Htorch Hnumpy He [Hdgl|[Hdgl Hgb]].
  - eexists _, _. split.
    { unfold cell_install, import_guard, import_, setenv, call, try_except,
        print, bind, tick, eval_at, modify, ret, raise_at.
      rewrite Hos, Htorch, Hnumpy, Hdgl. simpl. rewrite He. reflexivity. }
    simpl. split_and!; [done | by repeat constructor |].
    intros Hin. by repeat (apply elem_of_cons in Hin as [Hin|Hin]; [done|]).
  - eexists _, _. split.
    { unfold cell_install, import_guard, import_, setenv, call, try_except,
        print, bind, tick, eval_at, modify, ret, raise_at.
      rewrite Hos, Htorch, Hnumpy, Hdgl. simpl. rewrite Hgb. simpl.
      rewrite He. reflexivity. }
    simpl. split_and!; [done | by repeat constructor |].
    intros Hin. by repeat (apply elem_of_cons in Hin as [Hin|Hin]; [done|]).
Qed.

(** The cells after the guard when [gb] is not bound. *)
Lemma cells_after_guard_unbound k :
  "gb" ∉ names k →
  cells_after_guard k
  = (Raised (Exn NameError "name 'gb' is not defined"), k,
     [ERaise (OpName "gb") (Exn NameError "name 'gb' is not defined")]).
Proof.
  intros Hk. unfold cells_after_guard, cell_dataset, name_.
  rewrite !bind_assoc, bind_get, bool_decide_false by done. done.
Qed.
End Loaders.

(** X1.  In a kernel where [gb] is not bound, if importing [dgl] or
    [dgl.graphbolt] fails with an [ImportError], the run of the notebook
    does not end at the guard: it prints the error message and "DGL not
    found!", and then the dataset cell raises [NameError] for [gb],
    without the dataset loader ever being called. *)
Theorem X1_not_found_then_NameError `{L : Library} (k : kernel) (e : exn) :
  import_module "os" = Returned tt →
  import_module "torch" = Returned tt →
  import_module "numpy" = Returned tt →
  isinstance e ImportError = true →
  import_module "dgl" = Raised e
  ∨ (import_module "dgl" = Returned tt
     ∧ import_module "dgl.graphbolt" = Raised e) →
  "gb" ∉ names k →
  result_of (notebook k) = Raised (Exn NameError "name 'gb' is not defined")
  ∧ printed (trace_of (notebook k)) = [str_exn e; "DGL not found!"]
  ∧ Forall (λ o, is_dataset_load o = false) (calls (trace_of (notebook k))).
Proof.
  intros Hos Htorch Hnumpy He Hdgl Hk.
  destruct (cell_install_not_found k e Hos Htorch Hnumpy He Hdgl)
    as (k1 & t1 & Hrun & Hp & Hload & Hgb).
  rewrite notebook_after_guard, (bind_returned _ _ _ _ _ _ Hrun).
  rewrite cells_after_guard_unbound by auto.
  unfold result_of, trace_of. simpl.
  rewrite printed_app, calls_app, Hp. simpl. rewrite !app_nil_r. done.
Qed.

Lemma X1_not_found_then_NameError_witness :
  result_of (Toy.run Toy.no_dgl)
  = Raised (Exn NameError "name 'gb' is not defined")
  ∧ printed (trace_of (Toy.run Toy.no_dgl))
    = ["No module named 'dgl'"; "DGL not found!"].
Proof.
  destruct (X1_not_found_then_NameError (L := Toy.library Toy.no_dgl)
              Toy.fresh (Exn ModuleNotFoundError "No module named 'dgl'"))
    as (Hr & Hp & _).
  - reflexivity.
  - reflexivity.
  - reflexivity.
  - reflexivity.
  - left. reflexivity.
  - apply not_elem_of_nil.
  - split; [exact Hr | exact Hp].
Defined.

(** X2.  The dataset cell does not check what the dataset holds.  Once
    the graph and the feature store are moved, a dataset without tasks
    makes it raise [IndexError], and a first task whose metadata lacks
    "name" or "num_classes" makes it raise [KeyError] for that key; in
    each case the two moves are the only calls the cell has made and
    nothing is printed. *)
Theorem X2_cell_task_missing `{L : Library} (dataset : Dataset) (k : kernel)
    (g : graph_t) (f : feature_t) :
  graph_to (graph dataset) device = Returned g →
  feature_to (feature dataset) device = Returned f →
  (tasks dataset = [] →
   result_of (cell_task dataset k)
   = Raised (Exn IndexError "list index out of range"))
  ∧ (∀ task key,
       tasks dataset !! 0 = Some task →
       key = "name" ∨ (key = "num_classes" ∧ is_Some (metadata task !! "name")) →
       metadata task !! key = None →
       result_of (cell_task dataset k)
       = Raised (Exn KeyError ("'" +:+ key +:+ "'")))
  ∧ (tasks dataset = []
     ∨ (∃ task, tasks dataset !! 0 = Some task
                ∧ (metadata task !! "name" = None
                   ∨ metadata task !! "num_classes" = None)) →
     printed (trace_of (cell_task dataset k)) = []
     ∧ calls (trace_of (cell_task dataset k))
       = [OpGraphTo device; OpFeatureTo device]).
Proof.
  intros Hg Hf.
  assert (∀ task, tasks dataset !! 0 = Some task →
                  subscript (tasks dataset) 0 = Returned task) as Hsub.
  { intros task Ht. unfold subscript. by rewrite Ht. }
  split_and!.
  - intros Ht. unfold cell_task, call, bind, tick, eval_at, ret, raise_at,
      subscript, result_of. by rewrite Hg, Hf, Ht.
  - intros task key Ht [->|[-> [v Hv]]] Hkey;
      unfold cell_task, call, bind, tick, eval_at, ret, raise_at, getitem,
        result_of; rewrite Hg, Hf, (Hsub _ Ht); simpl; rewrite ?Hv; simpl;
      by rewrite Hkey.
  - intros [Ht|(task & Ht & Hkey)].
    + unfold cell_task, call, bind, tick, eval_at, ret, raise_at, subscript,
        trace_of. by rewrite Hg, Hf, Ht.
    + unfold cell_task, call, bind, tick, eval_at, ret, raise_at, getitem,
        trace_of. rewrite Hg, Hf, (Hsub _ Ht). simpl.
      destruct (metadata task !! "name") as [v|] eqn:Hv; simpl; [|done].
      destruct Hkey as [?|Hkey]; [done|]. by rewrite Hkey.
Qed.

Lemma X2_cell_task_missing_witness :
  result_of (cell_task (L := Toy.library Toy.plain) Lab.no_tasks
               (kernel_of (cells_load (L := Toy.library Toy.plain) Toy.fresh)))
  = Raised (Exn IndexError "list index out of range").
Proof.
  apply (proj1 (X2_cell_task_missing (L := Toy.library Toy.plain)
                  Lab.no_tasks
                  (kernel_of (cells_load (L := Toy.library Toy.plain) Toy.fresh))
                  tt tt eq_refl eq_refl)).
  reflexivity.
Defined.

(** X3.  The cell that shows the first minibatch fails with whatever
    fails first.  With [gb] bound, if [gb.ItemSampler] refuses the
    training set, the cell raises that exception after this one call,
    before any iteration is started.  If the loader is built and
    fetching the first minibatch raises (the copy, the sampling or the
    feature read failed), the cell raises that exception, and the
    iteration it started is spent.  In both cases nothing is printed. *)
Theorem X3_first_minibatch_failure `{L : Library} (g : globals) (k : kernel)
    (e : exn) :
  "gb" ∈ names k →
  (ItemSampler_init (g_train_set g) 1024 true = Raised e →
   cell_first_minibatch g k
   = (Raised e, k, [ECall (OpItemSampler 1024 true);
                    ERaise (OpItemSampler 1024 true) e]))
  ∧ (∀ dl k1 t1,
       create_dataloader g (g_train_set g) true k = (Returned dl, k1, t1) →
       head (stream (pipeline (g_graph g) (g_feature g) (g_train_set g) true)
               (iterations k)) = Some (Raised e) →
       result_of (cell_first_minibatch g k) = Raised e
       ∧ printed (trace_of (cell_first_minibatch g k)) = []
       ∧ iterations (kernel_of (cell_first_minibatch g k))
         = S (iterations k)).
Proof.
  intros Hk. split.
  - intros He. unfold cell_first_minibatch, create_dataloader.
    rewrite !bind_assoc, bind_name by done. rewrite He.
    by rewrite !bind_assoc, bind_call_raised.
  - intros dl k1 t1 Hdl Hhead.
    pose proof (silent_printed_eq _ _ _ _ _
                  (create_dataloader_silent _ _ _) Hdl) as Hp.
    apply create_dataloader_returned in Hdl as Hdl'.
    destruct Hdl' as (-> & -> & _).
    unfold cell_first_minibatch. rewrite (bind_after _ _ _ _ _ _ Hdl).
    unfold iter_. rewrite !bind_assoc, bind_tick. cbv beta.
    rewrite !bind_assoc, bind_get, !bind_assoc, bind_modify, bind_ret.
    destruct (stream _ _) as [|item items]; [done|].
    simpl in Hhead. injection Hhead as ->. simpl next_.
    rewrite bind_call_raised. unfold after, result_of, trace_of, kernel_of.
    simpl. rewrite !printed_app, Hp. done.
Qed.

Lemma X3_first_minibatch_failure_witness :
  result_of (cell_first_minibatch (L := Lab.library) Lab.empty_globals
               (kernel_of (cells_load (L := Lab.library) Toy.fresh)))
  = Raised (Exn IndexError "index out of range").
Proof.
  pose proof (proj1 (X3_first_minibatch_failure (L := Lab.library)
                       Lab.empty_globals
                       (kernel_of (cells_load (L := Lab.library) Toy.fresh))
                       (Exn IndexError "index out of range")
                       ltac:(apply (bool_decide_unpack _); vm_compute; exact I))
                eq_refl) as H.
  rewrite H. reflexivity.
Defined.

(** ** One training step, one validation pass *)

Section Steps.
Context `{L : Library}.

Lemma get_model_bound m k : model k = Some m → get_model k = (Returned m, k, []).
Proof. intros Hm. unfold get_model. rewrite bind_get. by rewrite Hm. Qed.

(** The forward pass as the loops call it. *)
Lemma call_model_run m mfgs x k :
  model k = Some m →
  call_model mfgs x k
  = match forward m mfgs x with
    | Returned y => (Returned y, k, [ECall (OpForward (grad_enabled k))])
    | Raised e =>
        (Raised e, k, [ECall (OpForward (grad_enabled k));
                       ERaise (OpForward (grad_enabled k)) e])
    end.
Proof.
  intros Hm. unfold call_model, get_model. steps. rewrite Hm. steps.
  by destruct (forward m mfgs x).
Qed.

(** The validation loop does not write the kernel. *)
Lemma valid_loop_kernel items ps ls k :
  kernel_of (valid_loop items ps ls k) = k.
Proof.
  revert ps ls.
  induction items as [|item items IH]; intros ps ls; [done|].
  simpl. destruct item as [data|e]; [|done]. steps.
  destruct (getitem_opt (node_features data) "feat") as [x|e]; [|done].
  steps.
  destruct (cpu_numpy (labels data)) as [l|e]; [|done]. steps.
  unfold call_model, get_model. steps.
  destruct (model k) as [m|]; [|done]. steps.
  destruct (forward m (blocks data) x) as [y|e]; [|done]. steps.
  destruct (obind (argmax y 1) (λ p, obind (cpu p) numpy)) as [p|e]; [|done].
  steps. unfold after, kernel_of in *. simpl. apply IH.
Qed.
End Steps.

(** X4.  A forward pass that raises leaves everything as it was: when
    [model] raises in a training step (the minibatch has no blocks, or
    fewer than two, or a layer fails), the step raises the same
    exception with the kernel untouched, so neither the gradients nor
    the optimizer nor the parameters change, and the forward pass is its
    only call.  With a single block the missing second block is only
    noticed after [conv1] and [relu] have run. *)
Theorem X4_failed_forward `{L : Library} (data : MiniBatch) (k : kernel)
    (m : Model) (feats : gmap string tensor) (x : tensor) :
  model k = Some m →
  node_features data = Some feats → feats !! "feat" = Some x →
  (∀ e, forward m (blocks data) x = Raised e →
        train_step data k
        = (Raised e, k, [ECall (OpForward (grad_enabled k));
                         ERaise (OpForward (grad_enabled k)) e]))
  ∧ (blocks data = None →
     forward m (blocks data) x
     = Raised (Exn TypeError "'NoneType' object is not subscriptable"))
  ∧ (∀ b0 h h',
       blocks data = Some [b0] →
       SAGEConv_call (conv1 m) b0 x = Returned h → relu h = Returned h' →
       forward m (blocks data) x
       = Raised (Exn IndexError "list index out of range")).
Proof.
  intros Hm Hf Hx. split_and!.
  - intros e He. unfold train_step, getitem_opt, getitem, call_model, get_model.
    rewrite Hf, Hx. steps. rewrite Hm. steps. rewrite He. done.
  - intros ->. done.
  - intros b0 h h' -> Hh Hh'. unfold forward. simpl. rewrite Hh. simpl.
    by rewrite Hh'.
Qed.

Lemma X4_failed_forward_witness :
  train_step (L := Toy.library Toy.failing_forward) Toy.first_minibatch
    (Lab.ready 2)
  = (Raised (Exn RuntimeError "out of memory"), Lab.ready 2,
     [ECall (OpForward true);
      ERaise (OpForward true) (Exn RuntimeError "out of memory")]).
Proof.
  refine (proj1 (X4_failed_forward (L := Toy.library Toy.failing_forward)
                   Toy.first_minibatch (Lab.ready 2) (Lab.model_with 2)
                   (<["feat" := [1; 2; 3]%Z]> ∅) [1; 2; 3]%Z _ _ _)
                (Exn RuntimeError "out of memory") _).
  - reflexivity.
  - reflexivity.
  - reflexivity.
  - vm_compute. reflexivity.
Defined.

(** X5.  What a training step that returns has done: it ran the model of
    the kernel on the blocks and the "feat" features of the minibatch,
    took the cross entropy of the predictions against the labels, and
    made one optimizer step on the gradients of this loss alone.  The
    gradients the kernel held before are dropped by [opt.zero_grad]
    before [loss.backward] runs, so they never reach the optimizer.
    Afterwards the model carries the parameters the optimizer returned
    and the kernel holds the new gradients and optimizer state. *)
Theorem X5_train_step_returned `{L : Library} (data : MiniBatch)
    (k k' : kernel) (t : list event) :
  train_step data k = (Returned tt, k', t) →
  ∃ m a feats x predictions loss g r,
    model k = Some m ∧ opt k = Some a
    ∧ node_features data = Some feats ∧ feats !! "feat" = Some x
    ∧ forward m (blocks data) x = Returned predictions
    ∧ cross_entropy predictions (labels data) = Returned loss
    ∧ backward loss None = Returned g
    ∧ Adam_step a (Some g) (weight (conv1 m), weight (conv2 m)) = Returned r
    ∧ model k' = Some (with_weights m r.2)
    ∧ opt k' = Some r.1
    ∧ grads k' = Some g.
Proof.
  intros H.
  unfold train_step, call_model, zero_grad, loss_backward, opt_step,
    get_model, get_opt, name_ in H.
  run_inv; simpl in *; simplify_eq.
  match goal with H : getitem_opt _ _ = _ |- _ =>
    apply getitem_opt_inv in H as (feats & ? & ?)
  end.
  by eexists _, _, _, _, _, _, _, _.
Qed.

Lemma X5_train_step_returned_witness :
  model (kernel_of (train_step (L := Toy.library Toy.plain)
                      Toy.first_minibatch (Lab.ready 0)))
  = Some (Lab.model_with 1).
Proof.
  destruct (X5_train_step_returned (L := Toy.library Toy.plain)
              Toy.first_minibatch (Lab.ready 0)
              (kernel_of (train_step (L := Toy.library Toy.plain)
                            Toy.first_minibatch (Lab.ready 0)))
              (trace_of (train_step (L := Toy.library Toy.plain)
                           Toy.first_minibatch (Lab.ready 0))))
    as (m & a & feats & x & predictions & loss & g & r
        & Hm & Ha & _ & _ & _ & _ & _ & Hr & Hm' & _).
  - vm_compute. reflexivity.
  - rewrite Hm'. injection Hm as <-. injection Ha as <-.
    injection Hr as <-. reflexivity.
Defined.

Section ValidationLoop.
Context `{L : Library}.

Lemma valid_loop_returned items ps0 ls0 k r k' t m :
  model k = Some m →
  valid_loop items ps0 ls0 k = (Returned r, k', t) →
  ∃ ps ls,
    r = (ps0 ++ ps, ls0 ++ ls)
    ∧ Forall2 (prediction_of m) items ps
    ∧ Forall2 label_of items ls.
Proof.
  intros Hm. revert ps0 ls0 k' t.
  induction items as [|item items IH]; intros ps0 ls0 k' t H.
  - simpl in H. run_inv. exists [], []. by rewrite !app_nil_r.
  - simpl in H. unfold call_model, get_model in H.
    run_inv; simpl in *; simplify_eq.
    match goal with H : valid_loop _ _ _ _ = _ |- _ =>
      apply IH in H as (ps & ls & -> & Hps & Hls)
    end.
    match goal with H : getitem_opt _ _ = _ |- _ =>
      apply getitem_opt_inv in H as (feats & ? & ?)
    end.
    eexists (_ :: ps), (_ :: ls). rewrite <-!app_assoc. split; [done|].
    split; constructor; try done.
    + by eexists _, _, _, _.
    + by eexists.
Qed.
End ValidationLoop.

(** X6.  What a validation loop that returns has collected: one array of
    predictions and one array of labels for every minibatch the loader
    yielded, in the loader's order, after what the two lists held
    before.  Each prediction is the row-wise argmax of the forward pass
    of the model the kernel held when the loop started, and the loop
    leaves the kernel as it found it. *)
Theorem X6_valid_loop_returned `{L : Library}
    (items : list (outcome MiniBatch)) (ps0 ls0 : list ndarray)
    (k k' : kernel) (r : list ndarray * list ndarray) (t : list event)
    (m : Model) :
  model k = Some m →
  valid_loop items ps0 ls0 k = (Returned r, k', t) →
  k' = k
  ∧ ∃ ps ls,
      r = (ps0 ++ ps, ls0 ++ ls)
      ∧ Forall2 (prediction_of m) items ps
      ∧ Forall2 label_of items ls
      ∧ length ps = length items ∧ length ls = length items.
Proof.
  intros Hm H. split.
  - pose proof (valid_loop_kernel items ps0 ls0 k) as Hk.
    by rewrite H in Hk.
  - destruct (valid_loop_returned _ _ _ _ _ _ _ _ Hm H)
      as (ps & ls & -> & Hps & Hls).
    exists ps, ls. split_and!; [done..| |].
    + symmetry. by eapply Forall2_length.
    + symmetry. by eapply Forall2_length.
Qed.

Lemma X6_valid_loop_returned_witness :
  result_of (valid_loop (L := Toy.library Toy.plain)
               [Returned Toy.first_minibatch; Returned Toy.first_minibatch]
               [] [] (Lab.ready 0))
  = Returned ([[1; 2; 3]; [1; 2; 3]]%Z, [[1; 2; 3]; [1; 2; 3]]%Z).
Proof.
  destruct (X6_valid_loop_returned (L := Toy.library Toy.plain)
              [Returned Toy.first_minibatch; Returned Toy.first_minibatch]
              [] [] (Lab.ready 0)
              (kernel_of (valid_loop (L := Toy.library Toy.plain)
                 [Returned Toy.first_minibatch; Returned Toy.first_minibatch]
                 [] [] (Lab.ready 0)))
              ([[1; 2; 3]; [1; 2; 3]]%Z, [[1; 2; 3]; [1; 2; 3]]%Z)
              (trace_of (valid_loop (L := Toy.library Toy.plain)
                 [Returned Toy.first_minibatch; Returned Toy.first_minibatch]
                 [] [] (Lab.ready 0)))
              (Lab.model_with 0))
    as (_ & ps & ls & Hr & _).
  - reflexivity.
  - vm_compute. reflexivity.
  - vm_compute. reflexivity.
Defined.

Section StepCount.
Context `{L : Library}.

Lemma train_loop_returned items k k' t :
  train_loop items k = (Returned tt, k', t) →
  api <$> calls t = concat (replicate (length items) step_calls)
  ∧ Forall (λ item, ∃ data, item = Returned data) items.
Proof.
  revert k t. induction items as [|item items IH]; intros k t H.
  - simpl in H. by run_inv.
  - change (train_loop (item :: items) k)
      with (bind (call OpNext item)
              (λ data, bind (train_step data) (λ _, train_loop items)) k) in H.
    rewrite <-bind_assoc in H.
    pose proof (train_iteration_follows item k) as Hit.
    destruct (bind (call OpNext item) (λ data, train_step data) k)
      as [[[[]|e] k1] t1] eqn:Hstep; unfold result_of, trace_of in Hit;
      simpl in Hit.
    2:{ by rewrite (bind_raised _ _ _ _ _ _ Hstep) in H. }
    rewrite (bind_returned _ _ _ _ _ _ Hstep) in H.
    destruct (train_loop items k1) as [[r k2] t2] eqn:Hrest.
    simpl in H. injection H as -> -> <-.
    apply IH in Hrest as [Hcalls Hitems].
    split.
    + rewrite calls_app, fmap_app, Hit, Hcalls. done.
    + constructor; [|done].
      apply bind_inv in Hstep as (data & ? & ? & ? & Hnext & _).
      apply call_inv in Hnext as (-> & _). by exists data.
Qed.

Lemma occurrences_opt_step t :
  occurrences OpOptStep t
  = length (filter (λ s, s = "opt.step") (api <$> calls t)).
Proof.
  unfold occurrences. induction (calls t) as [|o l IH]; [done|].
  rewrite fmap_cons, !filter_cons.
  destruct o; simpl; repeat case_decide; simplify_eq; simpl;
    by rewrite ?IH.
Qed.

Lemma opt_steps_of_steps n :
  length (filter (λ s, s = "opt.step") (concat (replicate n step_calls))) = n.
Proof.
  induction n as [|n IH]; [done|].
  change (concat (replicate (S n) step_calls))
    with (step_calls ++ concat (replicate n step_calls)).
  rewrite filter_app, length_app, IH. reflexivity.
Qed.
End StepCount.

(** X7.  A training phase that returns has gone through every minibatch
    of its loader: the iteration it started yielded no exception, and
    the phase made exactly one forward pass, one loss, one
    [opt.zero_grad], one [loss.backward], one [opt.step] and one
    accuracy for each minibatch, between opening and closing the
    progress bar once. *)
Theorem X7_train_phase_returned `{L : Library} (dp : datapipe)
    (k k' : kernel) (t : list event) :
  train_phase (DataLoader dp) k = (Returned tt, k', t) →
  api <$> calls t
  = training_calls (length (stream dp (iterations k))) []
  ∧ occurrences OpOptStep t = length (stream dp (iterations k))
  ∧ Forall (λ item, ∃ data, item = Returned data) (stream dp (iterations k)).
Proof.
  intros H. unfold train_phase, get_model, iter_ in H. run_inv.
  match goal with H : train_loop _ _ = _ |- _ =>
    apply train_loop_returned in H as [Hcalls Hitems]
  end.
  match goal with |- api <$> calls ?T = _ ∧ _ =>
    assert (api <$> calls T
            = training_calls (length (stream dp (iterations k))) [])
      as Hall
  end.
  { rewrite !calls_app, !fmap_app, Hcalls. done. }
  split_and!; [done| |done].
  rewrite occurrences_opt_step, Hall. unfold training_calls.
  rewrite !filter_app, !length_app, opt_steps_of_steps.
  change (length (filter (λ s, s = "opt.step") ["model.train"; "tqdm"; "iter"]))
    with 0.
  change (length (filter (λ s, s = "opt.step") ["tqdm.close"])) with 0.
  simpl. lia.
Qed.

Lemma X7_train_phase_returned_witness :
  occurrences OpOptStep
    (trace_of (train_phase (L := Toy.library Toy.plain)
                 (DataLoader Toy.train_pipe) (Lab.ready 0)))
  = 1.
Proof.
  apply (X7_train_phase_returned (L := Toy.library Toy.plain) Toy.train_pipe
           (Lab.ready 0)
           (kernel_of (train_phase (L := Toy.library Toy.plain)
                         (DataLoader Toy.train_pipe) (Lab.ready 0)))).
  vm_compute. reflexivity.
Defined.

(** ** Progress bars and grad mode *)

Section Scopes.
Context `{L : Library}.

Lemma occurrences_app o t1 t2 :
  occurrences o (t1 ++ t2) = occurrences o t1 + occurrences o t2.
Proof. unfold occurrences. by rewrite calls_app, filter_app, length_app. Qed.

Lemma occurrences_no_scope o t :
  is_scope_call o = true → Forall no_scope t → occurrences o t = 0.
Proof.
  intros Ho Ht. unfold occurrences.
  induction Ht as [|[o'|o' e] t Hev _ IH]; [done| |done].
  simpl. rewrite filter_cons. case_decide; [|done].
  subst o'. simpl in Hev. congruence.
Qed.

Lemma balanced_no_scope t : Forall no_scope t → balanced t.
Proof. intros Ht. split; by rewrite !occurrences_no_scope. Qed.

Lemma balanced_app t1 t2 : balanced t1 → balanced t2 → balanced (t1 ++ t2).
Proof.
  intros [H1 H1'] [H2 H2']. split; rewrite !occurrences_app; congruence.
Qed.

Lemma balances_inv {A} (m : M A) : inv (λ _, True) no_scope m → balances m.
Proof. intros Hm k. apply balanced_no_scope. by apply Hm. Qed.

Lemma balances_bind {A B} (m : M A) (f : A → M B) :
  balances m → (∀ a, balances (f a)) → balances (bind m f).
Proof.
  intros Hm Hf k. rewrite trace_bind.
  apply balanced_app; [apply Hm|].
  destruct (result_of (m k)); [apply Hf | by split].
Qed.

Lemma balances_for_in {X} (xs : list X) body :
  (∀ x, balances (body x)) → balances (for_in xs body).
Proof.
  intros Hb. induction xs as [|x xs IH]; simpl; [by split|].
  apply balances_bind; [apply Hb | by intros _].
Qed.

Lemma trace_after {A} t (x : outcome A * kernel * list event) :
  trace_of (after t x) = t ++ trace_of x.
Proof. done. Qed.

Lemma trace_with_exit {A} (body : M A) on_exit k :
  trace_of (with_exit body on_exit k)
  = trace_of (body k) ++ trace_of (on_exit (kernel_of (body k))).
Proof.
  unfold with_exit, trace_of, kernel_of. destruct (body k) as [[r k1] t1].
  simpl. by destruct (on_exit k1) as [[[[]|e] k2] t2].
Qed.

Lemma train_loop_no_scope items : inv (λ _, True) no_scope (train_loop items).
Proof.
  induction items as [|item items IH]; simpl; unfold_cells; inv_steps; done.
Qed.

Lemma valid_loop_no_scope items ps ls :
  inv (λ _, True) no_scope (valid_loop items ps ls).
Proof.
  revert ps ls. induction items as [|item items IH]; intros; simpl;
    unfold_cells; inv_steps; done.
Qed.

End Scopes.

Ltac no_scope_zero H :=
  rewrite ?(occurrences_no_scope OpTqdm _ eq_refl H),
    ?(occurrences_no_scope OpTqdmClose _ eq_refl H),
    ?(occurrences_no_scope OpNoGradEnter _ eq_refl H),
    ?(occurrences_no_scope OpNoGradExit _ eq_refl H).

Section Phases2.
Context `{L : Library}.

Lemma train_phase_balances dl : balances (train_phase dl).
Proof.
  intros k. unfold train_phase, get_model. steps.
  destruct (model k) as [m|]; [|by split]. steps.
  rewrite !trace_after, trace_with_exit.
  assert (Forall no_scope
            (trace_of ((items <- iter_ dl ;; train_loop items)
                         (set_training true k)))) as Hbody.
  { pose proof train_loop_no_scope.
    apply (proj2 ((ltac:(unfold iter_; inv_steps; done)
             : inv (λ _, True) no_scope (items <- iter_ dl ;; train_loop items))
             (set_training true k) I)). }
  split; rewrite !occurrences_app; no_scope_zero Hbody; reflexivity.
Qed.

(** A [no_grad] block around a body that opens and closes nothing. *)
Lemma no_grad_balances {A} (body : M A) :
  inv (λ _, True) no_scope body →
  ∀ k, occurrences OpTqdm (trace_of (no_grad body k)) = 0
       ∧ occurrences OpTqdmClose (trace_of (no_grad body k)) = 0
       ∧ occurrences OpNoGradEnter (trace_of (no_grad body k))
         = occurrences OpNoGradExit (trace_of (no_grad body k)).
Proof.
  intros Hbody k. unfold no_grad, name_. steps.
  destruct (bool_decide ("torch" ∈ names k)); [|done]. steps.
  rewrite !trace_after, trace_with_exit.
  destruct (Hbody (set_grad_enabled false k) I) as [_ Ht].
  rewrite !occurrences_app. no_scope_zero Ht. done.
Qed.

Lemma valid_phase_balances epoch dl : balances (valid_phase epoch dl).
Proof.
  intros k. unfold valid_phase, get_model. steps.
  destruct (model k) as [m|]; [|by split]. steps.
  rewrite !trace_after, trace_with_exit.
  match goal with |- context [no_grad ?body ?k0] =>
    assert (inv (λ _, True) no_scope body) as Hbody;
      [pose proof valid_loop_no_scope; unfold_cells; inv_steps; done|];
    destruct (no_grad_balances body Hbody k0) as (H1 & H2 & H3)
  end.
  split; rewrite !occurrences_app, ?H1, ?H2, ?H3; reflexivity.
Qed.

Lemma notebook_balances : balances notebook.
Proof.
  unfold notebook. apply balances_bind.
  { apply balances_inv. unfold_cells; inv_steps; done. }
  intros dataset. apply balances_bind.
  { apply balances_inv. unfold_cells; inv_steps; done. }
  intros loaders. unfold cell_train, training_loop. apply balances_bind.
  { apply balances_inv. unfold_cells; inv_steps; done. }
  intros _. apply balances_for_in. intros epoch. apply balances_bind.
  - apply train_phase_balances.
  - intros _. apply valid_phase_balances.
Qed.
End Phases2.

(** X8.  However a run of the notebook ends, in the middle of an epoch
    or not: every progress bar that [tqdm] opened has been closed and
    every [torch.no_grad] block that was entered has been left.  The
    same holds of a single training or validation phase, from any
    kernel. *)
Theorem X8_scopes_closed `{L : Library} (k : kernel) (epoch : nat)
    (dl : dataloader) :
  balanced (trace_of (notebook k))
  ∧ balanced (trace_of (train_phase dl k))
  ∧ balanced (trace_of (valid_phase epoch dl k)).
Proof.
  split_and!.
  - apply notebook_balances.
  - apply train_phase_balances.
  - apply valid_phase_balances.
Qed.

Section GradMode.
Context `{L : Library}.

Lemma steady_inv {X A} (f : kernel → X) (m : M A) :
  (∀ v, inv (λ k, f k = v) (λ _, True) m) → steady f m.
Proof. intros Hm k. by apply (Hm (f k) k). Qed.

Lemma steady_bind {X A B} (f : kernel → X) (m : M A) (g : A → M B) :
  steady f m → (∀ a, steady f (g a)) → steady f (bind m g).
Proof.
  intros Hm Hg k. specialize (Hm k). unfold bind, kernel_of in *.
  destruct (m k) as [[[a|e] k1] t1]; [|done].
  specialize (Hg a k1). unfold kernel_of in Hg.
  destruct (g a k1) as [[r k2] t2]. simpl in *. congruence.
Qed.

Lemma steady_with_exit {X A} (f : kernel → X) (body : M A) on_exit :
  steady f body → steady f on_exit → steady f (with_exit body on_exit).
Proof.
  intros Hb Hx k. specialize (Hb k). unfold with_exit, kernel_of in *.
  destruct (body k) as [[r k1] t1]. specialize (Hx k1).
  unfold kernel_of in Hx.
  destruct (on_exit k1) as [[[[]|e] k2] t2]; simpl in *; congruence.
Qed.

Lemma steady_for_in {X Y} (f : kernel → X) (xs : list Y) body :
  (∀ x, steady f (body x)) → steady f (for_in xs body).
Proof.
  intros Hb. induction xs as [|x xs IH]; simpl; [done|].
  apply steady_bind; [apply Hb | by intros _].
Qed.

(** [with torch.no_grad()] puts the grad mode back. *)
Lemma no_grad_steady {A} (body : M A) :
  steady grad_enabled body → steady grad_enabled (no_grad body).
Proof.
  intros Hb k. unfold no_grad, name_. steps.
  destruct (bool_decide ("torch" ∈ names k)); [|done]. steps.
  specialize (Hb (set_grad_enabled false k)).
  unfold after, with_exit, kernel_of in *.
  destruct (body (set_grad_enabled false k)) as [[r k1] t1]. simpl.
  by destruct k.
Qed.

Lemma train_loop_grad v items :
  inv (λ k, grad_enabled k = v) (λ _, True) (train_loop items).
Proof.
  induction items as [|item items IH]; simpl; unfold_cells; inv_steps; done.
Qed.

Lemma valid_loop_grad v items ps ls :
  inv (λ k, grad_enabled k = v) (λ _, True) (valid_loop items ps ls).
Proof.
  revert ps ls. induction items as [|item items IH]; intros; simpl;
    unfold_cells; inv_steps; done.
Qed.

Lemma valid_phase_steady epoch dl : steady grad_enabled (valid_phase epoch dl).
Proof.
  unfold valid_phase. apply steady_bind.
  { apply steady_inv. intros v. unfold_cells; inv_steps; done. }
  intros _. apply steady_bind; [by intros k|].
  intros _. apply steady_bind; [by intros k|].
  intros _. apply steady_bind; [by intros k|].
  intros _. apply steady_with_exit; [|by intros k].
  apply no_grad_steady. apply steady_inv. intros v.
  pose proof (valid_loop_grad v). unfold_cells; inv_steps; done.
Qed.

Lemma notebook_steady : steady grad_enabled notebook.
Proof.
  unfold notebook. apply steady_bind.
  { apply steady_inv. intros v. unfold_cells; inv_steps; done. }
  intros dataset. apply steady_bind.
  { apply steady_inv. intros v. unfold_cells; inv_steps; done. }
  intros loaders. unfold cell_train, training_loop. apply steady_bind.
  { apply steady_inv. intros v. unfold_cells; inv_steps; done. }
  intros _. apply steady_for_in. intros epoch. apply steady_bind.
  - apply steady_inv. intros v. pose proof (train_loop_grad v).
    unfold_cells; inv_steps; done.
  - intros _. apply valid_phase_steady.
Qed.
End GradMode.

(** X9.  Autograd's grad mode survives the notebook.  A validation
    phase switches it off for its forward passes and puts it back to
    what it was, whether the phase returns or raises; no other cell
    touches it.  So at the end of every run, complete or not, the grad
    mode is the one the kernel started with. *)
Theorem X9_grad_mode_restored `{L : Library} (k : kernel) (epoch : nat)
    (valid_dataloader : dataloader) :
  grad_enabled (kernel_of (valid_phase epoch valid_dataloader k))
  = grad_enabled k
  ∧ grad_enabled (kernel_of (notebook k)) = grad_enabled k.
Proof.
  split.
  - apply valid_phase_steady.
  - apply notebook_steady.
Qed.

(** ** The loaders, the install cell, an empty validation set *)

(** X10.  The loaders the training loop runs on.  When the cells
    between the dataset load and the training loop return, the training
    loader is the pipeline over the training set of the first task, with
    shuffling, and the validation loader is the same pipeline over its
    validation set, without shuffling; both sample from the graph and
    read from the feature store that were moved to the device.  The
    test set of the task is in neither. *)
Theorem X10_loaders `{L : Library} (dataset : Dataset) (k k' : kernel)
    (loaders : dataloader * dataloader) (t : list event) :
  cells_setup dataset k = (Returned loaders, k', t) →
  ∃ task g f,
    tasks dataset !! 0 = Some task
    ∧ graph_to (graph dataset) device = Returned g
    ∧ feature_to (feature dataset) device = Returned f
    ∧ loaders.1 = DataLoader (pipeline g f (train_set task) true)
    ∧ loaders.2 = DataLoader (pipeline g f (validation_set task) false).
Proof.
  intros H. unfold cells_setup in H.
  apply bind_inv in H as (g & k1 & t1 & t2 & Htask & H & ->).
  apply bind_inv in H as (data & k2 & t3 & t4 & _ & H & ->).
  apply bind_inv in H as ([] & k3 & t5 & t6 & _ & H & ->).
  apply bind_inv in H as ([] & k4 & t7 & t8 & _ & H & ->).
  apply bind_inv in H as ([] & k5 & t9 & t10 & _ & H & ->).
  unfold cell_task in Htask. run_inv.
  repeat match goal with
         | H : subscript _ _ = Returned _ |- _ => apply subscript_inv in H
         end.
  simplify_eq.
  unfold cell_dataloaders, create_dataloader, name_, import_ in H. run_inv.
  by eexists _, _, _.
Qed.

Lemma X10_loaders_witness :
  ∃ loaders,
    result_of (cells_setup (L := Toy.library Toy.plain) Toy.dataset
                 (kernel_of (cells_load (L := Toy.library Toy.plain)
                               Toy.fresh)))
    = Returned loaders
    ∧ loaders.1 = DataLoader Toy.train_pipe.
Proof.
  destruct (cells_setup (L := Toy.library Toy.plain) Toy.dataset
              (kernel_of (cells_load (L := Toy.library Toy.plain) Toy.fresh)))
    as [[[loaders|e] k'] t] eqn:Hrun; [|by vm_compute in Hrun].
  exists loaders. split; [done|].
  destruct (X10_loaders (L := Toy.library Toy.plain) _ _ _ _ _ Hrun)
    as (task & g & f & Htask & Hg & Hf & H1 & _).
  rewrite H1. injection Htask as <-. injection Hg as <-. injection Hf as <-.
  reflexivity.
Defined.

(** X11.  The install cell sets up the process before it imports the
    library: in every run, whichever imports fail, its calls are a
    beginning of the sequence [import os], [import torch],
    [import numpy], the two assignments to [os.environ], the [pip
    install] shell command, [import dgl], [import dgl.graphbolt],
    followed by its prints and nothing else.  In particular
    "DGLBACKEND" is set and the package is installed before [dgl] is
    imported, and the status line comes last. *)
Theorem X11_install_order `{L : Library} (k : kernel) :
  ∃ front,
    calls (trace_of (cell_install k))
    = front ++ (OpPrint <$> printed (trace_of (cell_install k)))
    ∧ front `prefix_of` install_calls.
Proof.
  unfold cell_install, import_guard, import_, setenv, call, try_except,
    print, bind, tick, eval_at, modify, ret, raise_at, trace_of,
    install_calls.
  destruct (import_module "os") as [[]|?]; simpl.
  2:{ exists [OpImport "os"]. split; [done | by eexists]. }
  destruct (import_module "torch") as [[]|?]; simpl.
  2:{ exists [OpImport "os"; OpImport "torch"]. split; [done | by eexists]. }
  destruct (import_module "numpy") as [[]|?]; simpl.
  2:{ exists [OpImport "os"; OpImport "torch"; OpImport "numpy"].
      split; [done | by eexists]. }
  destruct (import_module "dgl") as [[]|e1]; simpl.
  - destruct (import_module "dgl.graphbolt") as [[]|e2]; simpl.
    { eexists. split; [|reflexivity]. done. }
    destruct (isinstance e2 ImportError); simpl.
    + eexists. split; [|reflexivity]. done.
    + eexists. split; [|reflexivity]. by rewrite app_nil_r.
  - destruct (isinstance e1 ImportError); simpl.
    + exists [OpImport "os"; OpImport "torch"; OpImport "numpy";
              OpSetEnviron "TORCH"; OpSetEnviron "DGLBACKEND";
              OpShell pip_install; OpImport "dgl"].
      split; [done | by eexists].
    + exists [OpImport "os"; OpImport "torch"; OpImport "numpy";
              OpSetEnviron "TORCH"; OpSetEnviron "DGLBACKEND";
              OpShell pip_install; OpImport "dgl"].
      split; [done | by eexists].
Qed.

(** X12.  The validation phase does not check that the loader yields
    anything.  With the model, [torch] and [np] bound, if the iteration
    of the validation loader is empty the phase hands [np.concatenate]
    an empty list; if that call raises, the phase raises the same
    exception without printing the epoch line, after leaving the
    [no_grad] block and closing the progress bar. *)
Theorem X12_empty_validation `{L : Library} (epoch : nat) (dp : datapipe)
    (k : kernel) (m : Model) (e : exn) :
  model k = Some m → "torch" ∈ names k → "np" ∈ names k →
  stream dp (iterations k) = [] →
  concatenate [] = Raised e →
  result_of (valid_phase epoch (DataLoader dp) k) = Raised e
  ∧ printed (trace_of (valid_phase epoch (DataLoader dp) k)) = []
  ∧ calls (trace_of (valid_phase epoch (DataLoader dp) k))
    = [OpModelEval; OpTqdm; OpNoGradEnter; OpIter; OpConcatenate;
       OpNoGradExit; OpTqdmClose].
Proof.
  intros Hm Ht Hn Hs He.
  assert (valid_phase epoch (DataLoader dp) k
          = (Raised e,
             set_grad_enabled (grad_enabled k)
               (set_iterations (S (iterations k))
                  (set_grad_enabled false (set_training false k))),
             [ECall OpModelEval; ECall OpTqdm; ECall OpNoGradEnter;
              ECall OpIter; ECall OpConcatenate; ERaise OpConcatenate e;
              ECall OpNoGradExit; ECall OpTqdmClose])) as ->; [|done].
  unfold valid_phase, get_model. steps. rewrite Hm. steps.
  unfold no_grad, with_exit.
  rewrite bind_name by done. steps.
  unfold iter_. steps. simpl. rewrite Hs. simpl. steps.
  rewrite bind_name by done. cbn [fst]. rewrite He, bind_call_raised. done.
Qed.

Lemma X12_empty_validation_witness :
  result_of (valid_phase (L := Lab.library) 0
               (DataLoader Lab.empty_pipe)
               (Lab.ready 0))
  = Raised (Exn ValueError "need at least one array to concatenate").
Proof.
  apply (X12_empty_validation (L := Lab.library) 0
           Lab.empty_pipe (Lab.ready 0)
           (Lab.model_with 0)
           (Exn ValueError "need at least one array to concatenate")).
  - reflexivity.
  - apply (bool_decide_unpack _). vm_compute. exact I.
  - apply (bool_decide_unpack _). vm_compute. exact I.
  - reflexivity.
  - reflexivity.
Defined.

Section Modes.
Context `{L : Library}.

Lemma train_loop_training v items :
  inv (λ k, training k = v) (λ _, True) (train_loop items).
Proof.
  induction items as [|item items IH]; simpl; unfold_cells; inv_steps; done.
Qed.

Lemma valid_loop_training v items ps ls :
  inv (λ k, training k = v) (λ _, True) (valid_loop items ps ls).
Proof.
  revert ps ls. induction items as [|item items IH]; intros; simpl;
    unfold_cells; inv_steps; done.
Qed.

Lemma kernel_after {A} t (x : outcome A * kernel * list event) :
  kernel_of (after t x) = kernel_of x.
Proof. done. Qed.

Lemma train_phase_mode dl k m :
  model k = Some m → training (kernel_of (train_phase dl k)) = true.
Proof.
  intros Hm. unfold train_phase, get_model. steps. rewrite Hm. steps.
  rewrite !kernel_after.
  pose proof (train_loop_training true).
  by apply ((ltac:(unfold_cells; inv_steps; done)
     : inv (λ k, training k = true) (λ _, True)
         (with_exit (items <- iter_ dl ;; train_loop items)
            (tick OpTqdmClose))) (set_training true k)).
Qed.

Lemma valid_phase_mode epoch dl k m :
  model k = Some m → training (kernel_of (valid_phase epoch dl k)) = false.
Proof.
  intros Hm. unfold valid_phase, get_model. steps. rewrite Hm. steps.
  rewrite !kernel_after.
  match goal with |- training (kernel_of (?rest ?k0)) = false =>
    assert (inv (λ k, training k = false) (λ _, True) rest) as Hrest;
      [pose proof (valid_loop_training false); unfold_cells; inv_steps; done|];
    by apply (Hrest k0)
  end.
Qed.

Lemma valid_phase_returned_mode epoch dl k k' t :
  valid_phase epoch dl k = (Returned tt, k', t) → training k' = false.
Proof.
  intros H. destruct (model k) as [m|] eqn:Hm.
  - pose proof (valid_phase_mode epoch dl k m Hm) as Hk.
    by rewrite H in Hk.
  - unfold valid_phase, get_model in H. rewrite bind_assoc, bind_get, Hm in H.
    done.
Qed.

Lemma for_in_last {X} (Q : kernel → Prop) (xs : list X) body k k' t :
  xs ≠ [] →
  (∀ x k1 k2 t', body x k1 = (Returned tt, k2, t') → Q k2) →
  for_in xs body k = (Returned tt, k', t) → Q k'.
Proof.
  intros Hxs Hbody. revert k t.
  induction xs as [|x xs IH]; intros k t H; [done|].
  simpl in H. apply bind_inv in H as ([] & k1 & t1 & t2 & Hx & Hrest & ->).
  destruct xs as [|y xs]; [|by eapply IH].
  simpl in Hrest. injection Hrest as <- _. by eapply Hbody.
Qed.
End Modes.

(** X13.  The train and eval mode of the model.  With the model bound,
    a training phase ends with the model in train mode and a validation
    phase with the model in eval mode, whether they return or raise.
    As every epoch ends with its validation phase, a complete run of the
    notebook leaves the model in eval mode. *)
Theorem X13_modes `{L : Library} :
  (∀ dl k m,
     model k = Some m → training (kernel_of (train_phase dl k)) = true)
  ∧ (∀ epoch dl k m,
       model k = Some m →
       training (kernel_of (valid_phase epoch dl k)) = false)
  ∧ (∀ k k' t, notebook k = (Returned tt, k', t) → training k' = false).
Proof.
  split_and!.
  - apply @train_phase_mode.
  - apply @valid_phase_mode.
  - intros k k' t H. unfold notebook in H.
    apply bind_inv in H as (dataset & k1 & t1 & t2 & _ & H & ->).
    apply bind_inv in H as (loaders & k2 & t3 & t4 & _ & H & ->).
    unfold cell_train, training_loop in H.
    apply bind_inv in H as ([] & k3 & t5 & t6 & _ & H & ->).
    eapply (for_in_last (λ k, training k = false)); [| |exact H]; [done|].
    intros epoch k4 k5 t' Hepoch.
    apply bind_inv in Hepoch as ([] & k6 & t7 & t8 & _ & Hvalid & ->).
    by eapply valid_phase_returned_mode.
Qed.

Lemma X13_modes_witness :
  training (kernel_of (Toy.run Toy.plain)) = false
  ∧ training (kernel_of (train_phase (L := Toy.library Toy.plain)
                           (DataLoader Toy.train_pipe) (Lab.ready 0)))
    = true.
Proof.
  split.
  - apply (proj2 (proj2 (X13_modes (L := Toy.library Toy.plain)))
             Toy.fresh (kernel_of (Toy.run Toy.plain))
             (trace_of (Toy.run Toy.plain))).
    vm_compute. reflexivity.
  - apply (proj1 (X13_modes (L := Toy.library Toy.plain))
             (DataLoader Toy.train_pipe) (Lab.ready 0) (Lab.model_with 0)).
    reflexivity.
Defined.

(** ** The lines of interrupted runs *)

Section EpochLines.
Context `{L : Library}.

Lemma prints_bind_silent {A B} Q (m : M A) (f : A → M B) :
  inv (λ _, True) silent m → (∀ a, prints Q (f a)) → prints Q (bind m f).
Proof.
  intros Hm Hf k. pose proof (silent_printed m k Hm) as Hp.
  unfold bind, result_of, trace_of in *.
  destruct (m k) as [[[a|e] k1] t1]; simpl in *; [|done].
  specialize (Hf a k1). unfold result_of, trace_of in Hf.
  destruct (f a k1) as [[r k2] t2]. simpl in *.
  by rewrite printed_app, Hp.
Qed.

Lemma prints_with_exit {A} Q (body : M A) (on_exit : M unit) :
  inv (λ _, True) silent on_exit →
  (∀ k, ∃ u, result_of (on_exit k) = Returned u) →
  prints Q body → prints Q (with_exit body on_exit).
Proof.
  intros Hs Hr Hb k. specialize (Hb k).
  pose proof (λ k, silent_printed on_exit k Hs) as Hp.
  unfold with_exit, result_of, trace_of in *.
  destruct (body k) as [[r k1] t1]. simpl in *.
  specialize (Hp k1). destruct (Hr k1) as (u & Hu).
  destruct (on_exit k1) as [[r2 k2] t2]. simpl in *. subst r2. simpl.
  by rewrite printed_app, Hp, app_nil_r.
Qed.

Lemma prints_print s : prints (λ out, out = [s]) (print s).
Proof. by intros k. Qed.

Lemma prints_weaken {A} (Q Q' : list string → Prop) (m : M A) :
  (∀ out, Q out → Q' out) → prints Q m → prints Q' m.
Proof.
  intros HQ Hm k. specialize (Hm k).
  destruct (result_of (m k)); [by apply HQ | done].
Qed.

Lemma valid_phase_prints epoch dl :
  prints (λ out, ∃ accuracy, out = [epoch_line epoch accuracy])
    (valid_phase epoch dl).
Proof.
  pose proof valid_loop_silent.
  unfold valid_phase, no_grad.
  repeat lazymatch goal with
         | |- prints _ (with_exit _ _) =>
             apply prints_with_exit;
               [by unfold_cells; inv_steps | by eexists |]
         | |- prints _ (bind _ (λ accuracy, print _)) =>
             apply prints_bind_silent;
               [by unfold_cells; inv_steps | intros accuracy]
         | |- prints _ (bind _ _) =>
             apply prints_bind_silent;
               [by unfold_cells; inv_steps | intros ?; cbv zeta]
         end.
  eapply prints_weaken; [|apply prints_print].
  intros out ->. by eexists.
Qed.

Lemma epochs_lines tr va epochs k :
  ∃ accs,
    printed (trace_of
               (for_in epochs (λ epoch, train_phase tr ;; valid_phase epoch va) k))
    = zip_with epoch_line epochs accs
    ∧ (length accs ≤ length epochs)%nat
    ∧ match result_of
              (for_in epochs (λ epoch, train_phase tr ;; valid_phase epoch va) k)
      with
      | Returned _ => length accs = length epochs
      | Raised _ => (length accs < length epochs)%nat
      end.
Proof.
  revert k. induction epochs as [|epoch epochs IH]; intros k.
  { exists []. by simpl. }
  simpl for_in.
  assert (prints (λ out, ∃ accuracy, out = [epoch_line epoch accuracy])
            (train_phase tr ;; valid_phase epoch va)) as Hepoch.
  { apply prints_bind_silent; [apply train_phase_silent|].
    intros _. apply valid_phase_prints. }
  specialize (Hepoch k).
  change (for_in (epoch :: epochs) ?body)
    with (bind (body epoch) (λ _, for_in epochs body)).
  cbv beta.
  destruct ((train_phase tr ;; valid_phase epoch va) k)
    as [[[[]|e] k1] t1] eqn:Hrun; unfold result_of, trace_of in Hepoch;
    simpl in Hepoch.
  - destruct Hepoch as (acc & Hacc). destruct (IH k1) as (accs & Hp & Hle & Hr).
    rewrite (bind_returned _ _ _ _ _ _ Hrun).
    unfold result_of, trace_of in *. simpl.
    exists (acc :: accs). rewrite printed_app, Hacc, Hp. simpl.
    split; [done|]. split; [lia|].
    destruct (for_in epochs _ k1) as [[[] ?] ?]; simpl in *; lia.
  - rewrite (bind_raised _ _ _ _ _ _ Hrun).
    exists []. unfold result_of, trace_of. simpl. rewrite Hepoch.
    split; [done|]. split; lia.
Qed.
End EpochLines.

(** X14.  The epoch lines of any run of the training loop, complete or
    interrupted, are epoch lines for the epochs 0, 1, 2, ... in order
    and without a gap, and nothing else.  An epoch whose training or
    validation raises prints no line, and no later epoch prints one;
    the loop prints 10 lines exactly when it returns. *)
Theorem X14_epoch_lines `{L : Library}
    (train_dataloader valid_dataloader : dataloader) (k : kernel) :
  ∃ accs,
    printed (trace_of (training_loop train_dataloader valid_dataloader k))
    = zip_with epoch_line (seq 0 10) accs
    ∧ match result_of (training_loop train_dataloader valid_dataloader k) with
      | Returned _ => length accs = 10
      | Raised _ => (length accs < 10)%nat
      end.
Proof.
  destruct (epochs_lines train_dataloader valid_dataloader (seq 0 10) k)
    as (accs & Hp & _ & Hr).
  exists accs. split; [done|]. exact Hr.
Qed.

(** ** The parameters of the optimizer, and a kernel that is not fresh *)

Section Parameters.
Context `{L : Library}.

Lemma names_kept n :
  inv (λ k, n ∈ names k) (λ _, True) cell_install.
Proof.
  unfold_cells; inv_steps; try done; simpl; set_solver.
Qed.
End Parameters.

(** X15.  When the model cell and the optimizer cell return, the first
    layer takes as many input features as the first entry of
    [feature.size("node", None, "feat")], the parameters of the model are the
    freshly built ones of the two layers after [model.to(device)], and
    the optimizer is [Adam] over exactly these moved parameters; the
    optimizer cell leaves the model as it is. *)
Theorem X15_model_and_optimizer `{L : Library}
    (g : globals) (k k1 k2 : kernel) (t1 t2 : list event) :
  cell_model g k = (Returned tt, k1, t1) →
  cell_optimizer k1 = (Returned tt, k2, t2) →
  ∃ size in_size w1 w2 m a,
    feature_size (g_feature g) "node" "feat" = Returned size
    ∧ size !! 0 = Some in_size
    ∧ SAGEConv_init (PInt in_size) (PInt 64) "mean" = Returned w1
    ∧ SAGEConv_init (PInt 64) (g_num_classes g) "mean" = Returned w2
    ∧ model k1 = Some m ∧ model k2 = Some m
    ∧ in_feats (conv1 m) = PInt in_size
    ∧ weights_to device w1 = Returned (weight (conv1 m))
    ∧ weights_to device w2 = Returned (weight (conv2 m))
    ∧ Adam_init (weight (conv1 m)) (weight (conv2 m)) = Returned a
    ∧ opt k2 = Some a
    ∧ calls t2 = [OpAdam].
Proof.
  intros Hm Ho.
  unfold cell_model, Model_init, Model_to, SAGEConv_new, import_ in Hm.
  run_inv.
  unfold cell_optimizer, get_model, name_ in Ho. run_inv.
  repeat match goal with
         | H : obind _ _ = Returned _ |- _ =>
             apply obind_inv in H as (? & ? & ?)
         | H : subscript _ _ = Returned _ |- _ => apply subscript_inv in H
         end.
  simplify_eq/=.
  eexists _, _, _, _, _, _. split_and!; try done.
Qed.

Lemma X15_model_and_optimizer_witness :
  ∃ m a,
    model (kernel_of (cell_model (L := Toy.library Toy.plain) Toy.the_globals
                        (kernel_of (cells_load (L := Toy.library Toy.plain)
                                      Toy.fresh)))) = Some m
    ∧ @Adam_init _ (Toy.library Toy.plain)
        (weight (conv1 m)) (weight (conv2 m)) = Returned a.
Proof.
  destruct (cell_model (L := Toy.library Toy.plain) Toy.the_globals
              (kernel_of (cells_load (L := Toy.library Toy.plain) Toy.fresh)))
    as [[[[]|e] k1] t1] eqn:Hmodel; [|by vm_compute in Hmodel].
  destruct (cell_optimizer (L := Toy.library Toy.plain) k1)
    as [[[[]|e] k2] t2] eqn:Hopt.
  - destruct (X15_model_and_optimizer (L := Toy.library Toy.plain)
                _ _ _ _ _ _ Hmodel Hopt)
      as (size & in_size & w1 & w2 & m & a & _ & _ & _ & _ & Hm & _ & _ & _
          & _ & Ha & _).
    exists m, a. split; [exact Hm | exact Ha].
  - vm_compute in Hmodel. injection Hmodel as <- <-.
    by vm_compute in Hopt.
Defined.

(** X16.  The guard tests the import, not the binding.  In a kernel
    where [gb] is still bound, a run whose import of [dgl] or of
    [dgl.graphbolt] fails with an [ImportError] prints the error message
    and "DGL not found!" and then goes on: the next call after the
    install cell is the dataset loader, reached through the old
    binding. *)
Theorem X16_stale_binding `{L : Library} (k : kernel) (e : exn) :
  import_module "os" = Returned tt →
  import_module "torch" = Returned tt →
  import_module "numpy" = Returned tt →
  isinstance e ImportError = true →
  import_module "dgl" = Raised e
  ∨ (import_module "dgl" = Returned tt
     ∧ import_module "dgl.graphbolt" = Raised e) →
  "gb" ∈ names k →
  printed (trace_of (cell_install k)) = [str_exn e; "DGL not found!"]
  ∧ ∃ rest,
      calls (trace_of (notebook k))
      = calls (trace_of (cell_install k))
        ++ OpDatasetLoad "ogbn-arxiv-seeds" :: rest.
Proof.
  intros Hos Htorch Hnumpy He Hdgl Hk.
  destruct (names_kept "gb" k Hk) as [Hk1 _].
  destruct (cell_install_not_found k e Hos Htorch Hnumpy He Hdgl)
    as (k1 & t1 & Hrun & Hp & _ & _).
  rewrite notebook_after_guard, (bind_after _ _ _ _ _ _ Hrun).
  rewrite Hrun in *. unfold kernel_of, trace_of in *. simpl in *.
  split; [done|].
  unfold cells_after_guard, cell_dataset.
  rewrite !bind_assoc, bind_name by done.
  destruct (BuiltinDataset_load "ogbn-arxiv-seeds") as [dataset|e'].
  - rewrite bind_call. unfold after. simpl. rewrite calls_app. simpl.
    by eexists.
  - rewrite bind_call_raised. unfold after. simpl. rewrite calls_app. simpl.
    by eexists.
Qed.

Lemma X16_stale_binding_witness :
  ∃ rest,
    calls (trace_of (notebook (L := Toy.library Toy.no_dgl) Lab.trained))
    = calls (trace_of (cell_install (L := Toy.library Toy.no_dgl) Lab.trained))
      ++ OpDatasetLoad "ogbn-arxiv-seeds" :: rest.
Proof.
  destruct (X16_stale_binding (L := Toy.library Toy.no_dgl)
              Lab.trained (Exn ModuleNotFoundError "No module named 'dgl'"))
    as (_ & H).
  - reflexivity.
  - reflexivity.
  - reflexivity.
  - reflexivity.
  - left. reflexivity.
  - apply (bool_decide_unpack _). vm_compute. exact I.
  - exact H.
Defined.

(** * The printed output *)

Section Output.
Context `{L : Library}.

Lemma cell_install_printed k k' t :
  cell_install k = (Returned tt, k', t) → printed t = install_lines.
Proof.
  unfold cell_install, import_guard, import_, setenv, call, try_except,
    print, bind, tick, eval_at, modify, ret, raise_at, install_lines.
  destruct (import_module "os") as [[]|?]; simpl; [|done].
  destruct (import_module "torch") as [[]|?]; simpl; [|done].
  destruct (import_module "numpy") as [[]|?]; simpl; [|done].
  destruct (import_module "dgl") as [[]|e1]; simpl.
  - destruct (import_module "dgl.graphbolt") as [[]|e2]; simpl.
    { by intros [= <- <-]. }
    destruct (isinstance e2 ImportError); simpl; [|done].
    by intros [= <- <-].
  - destruct (isinstance e1 ImportError); simpl; [|done].
    by intros [= <- <-].
Qed.

Lemma cells_load_iterations n :
  inv (λ k, iterations k = n) (λ _, True) cells_load.
Proof. unfold_cells; inv_steps; done. Qed.

Lemma cell_task_iterations n dataset :
  inv (λ k, iterations k = n) (λ _, True) (cell_task dataset).
Proof. unfold_cells; inv_steps; done. Qed.

Lemma cell_first_minibatch_returned g k data k' t :
  cell_first_minibatch g k = (Returned data, k', t) →
  head (stream (pipeline (g_graph g) (g_feature g) (g_train_set g) true)
          (iterations k)) = Some (Returned data)
  ∧ printed t = [str_minibatch data].
Proof.
  intros H. unfold cell_first_minibatch in H.
  apply bind_inv in H as (dl & k1 & t1 & t2 & Hdl & H & ->).
  pose proof (silent_printed_eq _ _ _ _ _
                (create_dataloader_silent _ _ _) Hdl) as Hp.
  apply create_dataloader_returned in Hdl as (-> & -> & _).
  unfold iter_ in H. run_inv. cbv beta iota in *.
  match goal with H : next_ ?l _ = _ |- _ =>
    destruct l as [|item items] eqn:Hs; unfold next_ in H; run_inv
  end.
  split; [unfold pipeline; simpl; by rewrite Hs|].
  rewrite !printed_app, Hp. done.
Qed.

Lemma valid_phase_returned epoch va k k' t :
  valid_phase epoch va k = (Returned tt, k', t) →
  ∃ accuracy, validated va k accuracy
              ∧ printed t = [epoch_line epoch accuracy].
Proof.
  intros H. destruct va as [dp].
  unfold valid_phase, no_grad, get_model, name_, iter_ in H.
  run_inv. simpl in *.
  match goal with H : valid_loop _ _ _ _ = _ |- _ =>
    pose proof (silent_printed_eq _ _ _ _ _ (valid_loop_silent _ _ _) H) as Hp;
    eapply valid_loop_returned in H as (ps & ls & -> & Hps & Hls);
      [|simpl; eassumption]
  end.
  simpl in *. eexists. split.
  - eexists. split; [eassumption|]. by eexists ps, ls, _, _.
  - rewrite !printed_app. simpl. by rewrite Hp.
Qed.

Lemma epochs_returned tr va epochs k k' t :
  for_in epochs (λ epoch, train_phase tr ;; valid_phase epoch va) k
    = (Returned tt, k', t) →
  ∃ accs,
    Forall2 (validated va) (validation_starts tr va epochs k) accs
    ∧ printed t = zip_with epoch_line epochs accs.
Proof.
  revert k t. induction epochs as [|epoch epochs IH]; intros k t H; simpl in H.
  - run_inv. by exists [].
  - apply bind_inv in H as ([] & k2 & t1 & t2 & H1 & H2 & ->).
    apply bind_inv in H1 as ([] & k1 & t0 & t0' & Htr & Hva & ->).
    pose proof (silent_printed_eq _ _ _ _ _ (train_phase_silent _) Htr) as Hp.
    pose proof Hva as Hva'.
    apply valid_phase_returned in Hva' as (acc & Hacc & Hline).
    apply IH in H2 as (accs & Haccs & Hlines).
    exists (acc :: accs). simpl. unfold kernel_of at 1 3. rewrite Htr. simpl.
    unfold kernel_of at 1. rewrite Hva. simpl.
    split; [by constructor|].
    by rewrite !printed_app, Hp, Hline, Hlines.
Qed.

Lemma validation_starts_length tr va epochs k :
  length (validation_starts tr va epochs k) = length epochs.
Proof.
  revert k. induction epochs as [|epoch epochs IH]; intros k; [done|].
  simpl. by rewrite IH.
Qed.

Lemma notebook_before_loop k :
  notebook k = (loaders <- before_loop ;; training_loop loaders.1 loaders.2) k.
Proof.
  unfold notebook, before_loop, cell_train, bind, ret.
  destruct (cells_load k) as [[[dataset|e] k1] t1]; [|done].
  destruct (cells_setup dataset k1) as [[[loaders|e] k2] t2]; [|done].
  destruct (import_ "tqdm.auto" "tqdm" k2) as [[[[]|e] k3] t3]; [|done].
  destruct (training_loop loaders.1 loaders.2 k3) as [[r k4] t4].
  by rewrite app_nil_r, <-!app_assoc.
Qed.

(** What the cells before the training loop print, and on what. *)
Lemma before_loop_returned k loaders k0 t0 :
  before_loop k = (Returned loaders, k0, t0) →
  ∃ dataset task name num_classes g f data mfgs b ids,
    BuiltinDataset_load "ogbn-arxiv-seeds" = Returned dataset
    ∧ tasks dataset !! 0 = Some task
    ∧ metadata task !! "name" = Some name
    ∧ metadata task !! "num_classes" = Some num_classes
    ∧ graph_to (graph dataset) device = Returned g
    ∧ feature_to (feature dataset) device = Returned f
    ∧ head (stream (pipeline g f (train_set task) true) (iterations k))
      = Some (Returned data)
    ∧ blocks data = Some mfgs ∧ mfgs !! 0 = Some b
    ∧ srcdata_NID b = Returned ids
    ∧ loaders = (DataLoader (pipeline g f (train_set task) true),
                 DataLoader (pipeline g f (validation_set task) false))
    ∧ printed t0 = install_lines
                   ++ [task_line name num_classes; str_minibatch data;
                       input_nodes_line ids].
Proof.
  intros H. unfold before_loop, cells_load, cells_setup in H.
  apply bind_inv in H as (dataset & k2 & t2 & t3 & H12 & H & ->).
  pose proof (cells_load_iterations (iterations k) k eq_refl) as [Hit _].
  unfold cells_load in Hit. rewrite H12 in Hit. unfold kernel_of in Hit.
  simpl in Hit.
  apply bind_inv in H12 as ([] & k1 & t1 & t2' & H1 & H2 & ->).
  apply bind_inv in H as (loaders' & k3 & t3' & t4 & H3 & H4 & ->).
  apply bind_inv in H3 as (g & k4 & t5 & t6 & Htask & H3 & ->).
  pose proof (cell_task_iterations (iterations k) dataset k2 Hit) as [Hit4 _].
  rewrite Htask in Hit4. unfold kernel_of in Hit4. simpl in Hit4.
  apply bind_inv in H3 as (data & k5 & t7 & t8 & Hdata & H3 & ->).
  apply bind_inv in H3 as ([] & k6 & t9 & t10 & Hin & H3 & ->).
  apply bind_inv in H3 as ([] & k7 & t11 & t12 & Hmodel & H3 & ->).
  apply bind_inv in H3 as ([] & k8 & t13 & t14 & Hopt & Hdl & ->).
  apply cell_install_printed in H1.
  pose proof H2 as H2p.
  apply (silent_printed_eq _ _ _ _ _ cell_dataset_silent) in H2p.
  unfold cell_dataset, name_ in H2. run_inv.
  pose proof Htask as Htask'.
  unfold cell_task in Htask'. run_inv.
  repeat match goal with
         | H : subscript _ _ = Returned _ |- _ => apply subscript_inv in H
         | H : getitem _ _ = Returned _ |- _ => apply getitem_inv in H
         end.
  simplify_eq.
  apply cell_task_returned in Htask
    as (task & Htasks & Hname & Hnum & Hg & Hf & Htask).
  simplify_eq. simpl in *.
  apply cell_first_minibatch_returned in Hdata as [Hhead Hdata].
  simpl in Hhead. rewrite Hit4 in Hhead.
  apply cell_input_nodes_returned in Hin as (mfgs & b & ids & ? & ? & ? & Hin).
  apply (silent_printed_eq _ _ _ _ _ (cell_model_silent _)) in Hmodel.
  apply (silent_printed_eq _ _ _ _ _ cell_optimizer_silent) in Hopt.
  pose proof (silent_printed_eq _ _ _ _ _ (cell_dataloaders_silent _) Hdl)
    as Hdlp.
  unfold cell_dataloaders in Hdl.
  apply bind_inv in Hdl as (tr & k9 & t15 & t16 & Htr & Hdl & ->).
  apply bind_inv in Hdl as (va & k10 & t17 & t18 & Hva & Hdl & ->).
  apply create_dataloader_returned in Htr as (-> & -> & _).
  apply create_dataloader_returned in Hva as (-> & -> & _).
  unfold import_ in Hdl, H4. run_inv. simpl in *.
  eexists _, _, _, _, _, _, data, mfgs, b, ids.
  split_and!; try eassumption; try done.
  match goal with H : import_ _ _ _ = _ |- _ =>
    apply (silent_printed_eq _ _ _ _ _ (import_silent _ _)) in H;
    rename H into Htqdm
  end.
  rewrite !printed_app in *. simpl in *. rewrite !printed_app. simpl.
  by rewrite H1, Hdata, Hin, Hmodel, Hopt, Hdlp, Htqdm, !app_nil_r.
Qed.
End Output.

(** C1 (as amended).  For every complete execution of the notebook the
    [print] statements write exactly: the output of the install cell
    (the status line, after the message of the import error if the
    guard caught one), the line with the task name and the number of
    classes, the first minibatch that a shuffling loader over the
    training set yields, the input node IDs of the first block of that
    minibatch, and one line for each of the 10 epochs.  The line of an epoch is "Epoch", the epoch index,
    "Validation Accuracy" and the validation accuracy of the epoch:
    what [accuracy_score] returns for the labels of the minibatches of
    the validation loader against the argmax predictions of the model
    as the training phase of this epoch left it. *)
Theorem C1_printed_output `{L : Library} (k k' : kernel) (t : list event) :
  notebook k = (Returned tt, k', t) →
  ∃ dataset task name num_classes g f data mfgs b ids loaders k0 t0 accs,
    BuiltinDataset_load "ogbn-arxiv-seeds" = Returned dataset
    ∧ tasks dataset !! 0 = Some task
    ∧ metadata task !! "name" = Some name
    ∧ metadata task !! "num_classes" = Some num_classes
    ∧ graph_to (graph dataset) device = Returned g
    ∧ feature_to (feature dataset) device = Returned f
    ∧ head (stream (pipeline g f (train_set task) true) (iterations k))
      = Some (Returned data)
    ∧ blocks data = Some mfgs ∧ mfgs !! 0 = Some b
    ∧ srcdata_NID b = Returned ids
    ∧ before_loop k = (Returned loaders, k0, t0)
    ∧ loaders = (DataLoader (pipeline g f (train_set task) true),
                 DataLoader (pipeline g f (validation_set task) false))
    ∧ Forall2 (validated loaders.2)
        (validation_starts loaders.1 loaders.2 (seq 0 10) k0) accs
    ∧ printed t =
        install_lines
        ++ [task_line name num_classes; str_minibatch data;
            input_nodes_line ids]
        ++ zip_with epoch_line (seq 0 10) accs.
Proof.
  intros H. rewrite notebook_before_loop in H.
  apply bind_inv in H as (loaders & k0 & t0 & t1 & H0 & H1 & ->).
  pose proof H0 as H0'.
  apply before_loop_returned in H0'
    as (dataset & task & name & num_classes & g & f & data & mfgs & b & ids
        & ? & ? & ? & ? & ? & ? & ? & ? & ? & ? & ? & Hp0).
  unfold training_loop in H1.
  apply epochs_returned in H1 as (accs & Haccs & Hp1).
  exists dataset, task, name, num_classes, g, f, data, mfgs, b, ids, loaders,
    k0, t0, accs.
  split_and!; try done.
  by rewrite printed_app, Hp0, Hp1, <-app_assoc.
Qed.

Lemma C1_printed_output_witness :
  ∃ accs,
    length accs = 10
    ∧ printed (trace_of (Toy.run Toy.plain)) =
        ["DGL installed!"; "Task: node_classification. Number of classes: 40";
         "MiniBatch"; "Input nodes: tensor."]
        ++ zip_with (epoch_line (L := Toy.library Toy.plain)) (seq 0 10) accs.
Proof.
  destruct (C1_printed_output (L := Toy.library Toy.plain) Toy.fresh
              (kernel_of (Toy.run Toy.plain)) (trace_of (Toy.run Toy.plain)))
    as (dataset & task & name & num_classes & g & f & data & mfgs & b & ids
        & loaders & k0 & t0 & accs & Hd & Ht & Hn & Hc & _ & _ & _ & _ & _ & _
        & _ & _ & Haccs & Hp).
  - vm_compute. reflexivity.
  - exists accs. split.
    + apply Forall2_length in Haccs.
      rewrite <-Haccs, validation_starts_length. reflexivity.
    + rewrite Hp. injection Hd as <-. injection Ht as <-.
      vm_compute in Hn. injection Hn as <-.
      vm_compute in Hc. injection Hc as <-.
      reflexivity.
Defined.

(** C1 (as stated) fails: the lines printed at the end of the epochs do
    not report the loss.  The runs over two libraries that differ only
    in the value of the loss, 2 in one and 3 in the other at every
    training step, print the same lines. *)
Lemma C1_epoch_line_omits_loss : ¬ printed_reports_loss.
Proof.
  intros H. specialize (H 2%Z 3%Z).
  assert ((2 = 3)%Z) as Heq; [|done].
  apply H. vm_compute. reflexivity.
Qed.

(** * The device *)

Ltac on_device_solve :=
  try done; try (by intros ? [= <-]).

Section Device.
Context `{R : Residency}.

Lemma train_loop_on_device items :
  inv (λ _, True) on_device (train_loop items).
Proof.
  induction items as [|item items IH]; simpl; unfold_cells;
    inv_steps; on_device_solve.
Qed.

Lemma valid_loop_on_device items ps ls :
  inv (λ _, True) on_device (valid_loop items ps ls).
Proof.
  revert ps ls. induction items as [|item items IH]; intros; simpl;
    unfold_cells; inv_steps; on_device_solve.
Qed.

Lemma notebook_on_device : inv (λ _, True) on_device notebook.
Proof.
  pose proof train_loop_on_device. pose proof valid_loop_on_device.
  unfold_cells; inv_steps; on_device_solve.
Qed.

Lemma create_dataloader_device g itemset shuffle k dp k' t n mb :
  create_dataloader g itemset shuffle k = (Returned (DataLoader dp), k', t) →
  Returned mb ∈ stream dp n →
  mb_device mb = Some device.
Proof.
  intros H Hmb. unfold create_dataloader, name_ in H. run_inv.
  simpl in Hmb.
  apply list_elem_of_fmap in Hmb as (r3 & Hmb & Hr3).
  apply list_elem_of_fmap in Hr3 as (r2 & -> & Hr2).
  apply list_elem_of_fmap in Hr2 as (r1 & -> & Hr1).
  apply list_elem_of_fmap in Hr1 as (r0 & -> & Hr0).
  destruct r0 as [b|e]; [|done].
  symmetry in Hmb.
  by apply pipeline_minibatch in Hmb
    as (s & ids & mfgs & x & m & ? & ? & ? & ? & ? & ? & ? & ? & ?).
Qed.

(** *** The stages of the pipeline *)

Lemma move_opt_device d t t' x :
  move_opt d t = Returned t' → t' = Some x → tensor_device x = d.
Proof.
  destruct t as [t|]; simpl; [|by intros [= <-]].
  intros (y & Hy & [= <-])%obind_inv [= <-]. by eapply tensor_to_device.
Qed.

Lemma copy_to_on d extra_attrs mb mb' :
  copy_to d extra_attrs mb = Returned mb' →
  sampled_subgraphs mb = None → node_features mb = None →
  minibatch_on d mb' ∧ node_features mb' = None.
Proof.
  unfold copy_to. intros (s & Hs & H)%obind_inv Hb Hf.
  apply obind_inv in H as (l & Hl & H).
  apply obind_inv in H as (i & Hi & [= <-]).
  split; [|done]. unfold minibatch_on, blocks. simpl. split_and!.
  - intros t. by eapply move_opt_device.
  - intros t. by eapply move_opt_device.
  - intros t. by eapply move_opt_device.
  - by rewrite Hb.
  - by rewrite Hf.
Qed.

Lemma sample_neighbor_on d g fanouts mb mb' :
  sample_neighbor g fanouts mb = Returned mb' →
  graph_device g = d → minibatch_on d mb → node_features mb = None →
  minibatch_on d mb' ∧ node_features mb' = None.
Proof.
  unfold sample_neighbor. intros H Hg (Hs & Hl & _ & _ & _) Hf.
  destruct (seeds mb) as [s|] eqn:Hseeds; [|done].
  apply obind_inv in H as (r & Hr & [= <-]).
  apply sample_neighbors_device in Hr as [Hids Hblocks];
    [|by rewrite Hg; apply Hs].
  split; [|done]. unfold minibatch_on, blocks. simpl. split_and!.
  - done.
  - done.
  - intros t [= <-]. by rewrite Hids.
  - intros mfgs [= <-]. by rewrite <-Hg.
  - by rewrite Hf.
Qed.

Lemma read_features_device f keys ids m key x :
  read_features f keys ids = Returned m → m !! key = Some x →
  tensor_device x = feature_device f.
Proof.
  revert m. induction keys as [|key' keys IH]; simpl; intros m.
  { by intros [= <-]. }
  intros (t & Ht & H)%obind_inv. apply obind_inv in H as (m' & Hm' & [= <-]).
  destruct (decide (key = key')) as [->|Hne].
  - rewrite lookup_insert_eq. intros [= <-]. by eapply read_feature_device.
  - rewrite lookup_insert_ne by done. by apply IH.
Qed.

Lemma fetch_feature_on d f keys mb mb' :
  fetch_feature f keys mb = Returned mb' →
  feature_device f = d → minibatch_on d mb →
  minibatch_on d mb'.
Proof.
  unfold fetch_feature. intros H Hf (Hs & Hl & Hi & Hb & _).
  destruct (input_nodes mb) as [ids|] eqn:Hids; [|done].
  apply obind_inv in H as (m & Hm & [= <-]).
  unfold minibatch_on, blocks in *. simpl. split_and!; try done.
  intros feats key x [= <-] Hx. rewrite <-Hf.
  by eapply read_features_device.
Qed.

(** Every minibatch of the pipeline of [create_dataloader] over a
    graph and a feature store on the device lives there. *)
Lemma pipeline_on_device g f itemset shuffle :
  graph_device g = device → feature_device f = device →
  loader_on device (DataLoader (pipeline g f itemset shuffle)).
Proof.
  intros Hg Hf n mb Hmb. unfold pipeline in Hmb. simpl in Hmb.
  apply list_elem_of_fmap in Hmb as (r3 & Hmb & Hr3).
  apply list_elem_of_fmap in Hr3 as (r2 & -> & Hr2).
  apply list_elem_of_fmap in Hr2 as (r1 & -> & Hr1).
  apply list_elem_of_fmap in Hr1 as (r0 & -> & Hr0).
  destruct r0 as [b|e]; [|done].
  symmetry in Hmb.
  apply obind_inv in Hmb as (mb3 & H3 & Hfetch).
  apply obind_inv in H3 as (mb2 & H2 & Hsample).
  apply obind_inv in H2 as (mb1 & H1 & Hcopy).
  simpl in H1. unfold item_sampler in H1. injection H1 as <-.
  apply copy_to_on in Hcopy as [Hon2 Hnone2]; [|done..].
  eapply sample_neighbor_on in Hsample as [Hon3 Hnone3]; [|done..].
  by eapply fetch_feature_on in Hfetch.
Qed.

(** *** The model *)

Lemma forward_device m mfgs x predictions :
  model_on (tensor_device x) m →
  Forall (λ b, block_device b = tensor_device x) mfgs →
  forward m (Some mfgs) x = Returned predictions →
  tensor_device predictions = tensor_device x.
Proof.
  intros [H1 H2] Hb. unfold forward.
  intros (b0 & Hb0 & H)%obind_inv.
  apply obind_inv in H as (h & Hh & H).
  apply obind_inv in H as (h' & Hh' & H).
  apply obind_inv in H as (b1 & Hb1 & H).
  apply subscript_inv in Hb0, Hb1.
  rewrite Forall_lookup in Hb.
  apply SAGEConv_call_device in Hh; [|done | by eapply Hb].
  apply relu_device in Hh'.
  apply SAGEConv_call_device in H.
  - by rewrite H, Hh', Hh.
  - by rewrite Hh', Hh.
  - rewrite Hh', Hh. by eapply Hb.
Qed.

Lemma cell_model_params g k k' t :
  cell_model g k = (Returned tt, k', t) → params_on device k'.
Proof.
  intros H.
  unfold cell_model, Model_init, Model_to, SAGEConv_new, import_ in H.
  run_inv.
  match goal with H : obind _ _ = Returned _ |- _ =>
    apply obind_inv in H as (w1 & Hw1 & H);
    apply obind_inv in H as (w2 & Hw2 & [= <-])
  end.
  eexists. split; [done|]. split; simpl; by eapply weights_to_device.
Qed.

Lemma opt_step_params d : inv (params_on d) (λ _, True) opt_step.
Proof.
  intros k Hk. split; [|by apply Forall_true].
  unfold opt_step, get_opt, kernel_of.
  rewrite bind_assoc, bind_get.
  destruct (opt k) as [a|]; [|done]. rewrite bind_ret, bind_get.
  destruct Hk as (m & Hm & Hw1 & Hw2). rewrite Hm.
  destruct (Adam_step a (grads k) (weight (conv1 m), weight (conv2 m)))
    as [r|e] eqn:Hstep.
  - rewrite bind_call, bind_modify. simpl.
    apply Adam_step_device in Hstep as [Hr1 Hr2]. simpl in *.
    eexists. split; [done|]. split; simpl; congruence.
  - rewrite bind_call_raised. simpl. by exists m.
Qed.

Lemma train_step_params d data : inv (params_on d) (λ _, True) (train_step data).
Proof.
  pose proof (opt_step_params d).
  unfold train_step, call_model, zero_grad, loss_backward, get_model, get_opt,
    name_.
  inv_steps; done.
Qed.

Lemma train_loop_params d items :
  inv (params_on d) (λ _, True) (train_loop items).
Proof.
  pose proof (train_step_params d).
  induction items as [|item items IH]; simpl; inv_steps; done.
Qed.

Lemma valid_loop_params d items ps ls :
  inv (params_on d) (λ _, True) (valid_loop items ps ls).
Proof.
  revert ps ls. induction items as [|item items IH]; intros; simpl;
    unfold_cells; inv_steps; done.
Qed.

Lemma cell_train_params d tr va :
  inv (params_on d) (λ _, True) (cell_train tr va).
Proof.
  pose proof (train_loop_params d). pose proof (valid_loop_params d).
  unfold cell_train, training_loop, train_phase, valid_phase, no_grad,
    get_model, iter_, import_, name_, print.
  inv_steps; done.
Qed.

Lemma cell_optimizer_params d : inv (params_on d) (λ _, True) cell_optimizer.
Proof. unfold_cells; inv_steps; done. Qed.

Lemma cell_dataloaders_params d g :
  inv (params_on d) (λ _, True) (cell_dataloaders g).
Proof. unfold_cells; inv_steps; done. Qed.

(** The kernel and the loaders the training loop starts with. *)
Lemma before_loop_on_device k loaders k0 t0 :
  before_loop k = (Returned loaders, k0, t0) →
  params_on device k0
  ∧ loader_on device loaders.1 ∧ loader_on device loaders.2.
Proof.
  intros H. split.
  - unfold before_loop, cells_load, cells_setup in H.
    apply bind_inv in H as (dataset & k2 & t2 & t3 & _ & H & ->).
    apply bind_inv in H as (loaders' & k3 & t3' & t4 & H3 & H4 & ->).
    apply bind_inv in H3 as (g & k4 & t5 & t6 & _ & H3 & ->).
    apply bind_inv in H3 as (data & k5 & t7 & t8 & _ & H3 & ->).
    apply bind_inv in H3 as ([] & k6 & t9 & t10 & _ & H3 & ->).
    apply bind_inv in H3 as ([] & k7 & t11 & t12 & Hmodel & H3 & ->).
    apply bind_inv in H3 as ([] & k8 & t13 & t14 & Hopt & Hdl & ->).
    apply cell_model_params in Hmodel.
    pose proof (cell_optimizer_params _ k7 Hmodel) as [Hm8 _].
    rewrite Hopt in Hm8.
    pose proof (cell_dataloaders_params _ g k8 Hm8) as [Hm3 _].
    rewrite Hdl in Hm3.
    unfold import_ in H4. run_inv. exact Hm3.
  - apply before_loop_returned in H
      as (dataset & task & name & num_classes & g & f & data & mfgs & b & ids
          & _ & _ & _ & _ & Hg & Hf & _ & _ & _ & _ & -> & _).
    apply graph_to_device in Hg. apply feature_to_device in Hf.
    split; by apply pipeline_on_device.
Qed.

Lemma notebook_params k k' t :
  notebook k = (Returned tt, k', t) → params_on device k'.
Proof.
  intros H. rewrite notebook_before_loop in H.
  apply bind_inv in H as (loaders & k0 & t0 & t1 & H0 & H1 & ->).
  apply before_loop_on_device in H0 as [Hk0 _].
  pose proof (cell_train_params device loaders.1 loaders.2) as Hinv.
  assert (inv (params_on device) (λ _, True)
            (training_loop loaders.1 loaders.2)) as Hloop.
  { pose proof (train_loop_params device).
    pose proof (valid_loop_params device).
    unfold training_loop, train_phase, valid_phase, no_grad, get_model,
      iter_, name_, print.
    inv_steps; done. }
  destruct (Hloop k0 Hk0) as [Hk' _]. by rewrite H1 in Hk'.
Qed.
End Device.

(** C10.  The compute device is the CPU without condition: [device] is
    [torch.device("cpu")] whatever the libraries report about CUDA.  In
    every run of the notebook every call that places an object (the
    graph, the feature store, the minibatches through the [copy_to]
    stage, the model) places it on this device.  So, over libraries
    that place what they return by the rules of [Residency], every
    tensor the notebook computes with lives on the CPU: the graph and
    the feature store of the dataset cell; the seeds, the labels, the
    input nodes, the blocks and the features of every minibatch that a
    loader built over them yields, in particular those of the two
    loaders of the training loop; the input node IDs read from a
    block; the parameters of the model from the cell that builds it
    through every training step to the end of the run; and, on such a
    model and such a minibatch, the predictions of the forward pass,
    the loss and the argmax of the predictions. *)
Theorem C10_cpu_device `{R : Residency} :
  device = {| dev_type := "cpu"; dev_index := None |}
  ∧ (∀ k, Forall (on_calls (placed_on device)) (trace_of (notebook k)))
  ∧ (∀ dataset k g k' t,
       cell_task dataset k = (Returned g, k', t) →
       graph_to (graph dataset) device = Returned (g_graph g)
       ∧ feature_to (feature dataset) device = Returned (g_feature g)
       ∧ graph_device (g_graph g) = device
       ∧ feature_device (g_feature g) = device)
  ∧ (∀ g itemset shuffle k dp k' t n mb,
       graph_device (g_graph g) = device →
       feature_device (g_feature g) = device →
       create_dataloader g itemset shuffle k = (Returned (DataLoader dp), k', t) →
       Returned mb ∈ stream dp n →
       mb_device mb = Some device ∧ minibatch_on device mb)
  ∧ (∀ k loaders k0 t0,
       before_loop k = (Returned loaders, k0, t0) →
       params_on device k0
       ∧ loader_on device loaders.1 ∧ loader_on device loaders.2)
  ∧ (∀ mb mfgs b ids,
       minibatch_on device mb →
       blocks mb = Some mfgs → mfgs !! 0 = Some b →
       srcdata_NID b = Returned ids →
       tensor_device ids = device)
  ∧ (∀ g k k' t,
       cell_model g k = (Returned tt, k', t) → params_on device k')
  ∧ (∀ data k,
       params_on device k → params_on device (kernel_of (train_step data k)))
  ∧ (∀ train_dataloader valid_dataloader k,
       params_on device k →
       params_on device
         (kernel_of (cell_train train_dataloader valid_dataloader k)))
  ∧ (∀ m data feats x predictions,
       model_on device m → minibatch_on device data →
       node_features data = Some feats → feats !! "feat" = Some x →
       forward m (blocks data) x = Returned predictions →
       tensor_device x = device
       ∧ tensor_device predictions = device
       ∧ (∀ loss, cross_entropy predictions (labels data) = Returned loss →
                  tensor_device loss = device)
       ∧ (∀ q, argmax predictions 1 = Returned q → tensor_device q = device))
  ∧ (∀ k k' t,
       notebook k = (Returned tt, k', t) →
       ∃ m, model k' = Some m ∧ model_device m = Some device
            ∧ model_on device m).
Proof.
  split_and!.
  - done.
  - intros k. by apply notebook_on_device.
  - intros dataset k g k' t H.
    apply cell_task_returned in H as (task & _ & _ & _ & Hg & Hf & _).
    split_and!; [done | done | by eapply graph_to_device
                | by eapply feature_to_device].
  - intros g itemset shuffle k dp k' t n mb Hg Hf H Hmb. split.
    + by eapply create_dataloader_device.
    + apply create_dataloader_returned in H as ([= ->] & _).
      by eapply (pipeline_on_device _ _ _ _ Hg Hf).
  - apply @before_loop_on_device.
  - intros mb mfgs b ids (_ & _ & _ & Hb & _) Hmfgs Hb0 Hids.
    apply srcdata_NID_device in Hids. rewrite Hids.
    specialize (Hb _ Hmfgs). rewrite Forall_lookup in Hb. by eapply Hb.
  - apply @cell_model_params.
  - intros data k Hk. by apply (train_step_params device data k Hk).
  - intros tr va k Hk. by apply (cell_train_params device tr va k Hk).
  - intros m data feats x predictions Hm Hon Hfeats Hx Hfw.
    pose proof Hon as (_ & _ & _ & Hb & Hf).
    pose proof (Hf _ _ _ Hfeats Hx) as Hdx.
    assert (tensor_device predictions = device) as Hp.
    { destruct (blocks data) as [mfgs|] eqn:Hmfgs; [|done].
      rewrite <-Hdx. eapply forward_device; [by rewrite Hdx | | done].
      rewrite Hdx. by apply Hb. }
    split_and!; [done | done | |].
    + intros loss Hloss. apply cross_entropy_device in Hloss. congruence.
    + intros q Hq. apply argmax_device in Hq. congruence.
  - intros k k' t H.
    pose proof (notebook_params _ _ _ H) as (m & Hm & Hon).
    apply notebook_model in H
      as (dataset & task & num_classes & in_size & _ & _ & _ & m' & ? & _ & ?).
    exists m. split_and!; [done | congruence | done].
Qed.

Lemma C10_cpu_device_witness :
  cuda_is_available (Library := Placed.library Placed.gpu) = true
  ∧ ∃ m, model (kernel_of Placed.run) = Some m
         ∧ (weight (conv1 m)).1 = torch_device "cpu"
         ∧ (weight (conv2 m)).1 = torch_device "cpu".
Proof.
  split; [reflexivity|].
  destruct (proj2 (proj2 (proj2 (proj2 (proj2 (proj2 (proj2 (proj2 (proj2
              (proj2 (C10_cpu_device (R := Placed.residency Placed.gpu)))))))))))
              Placed.fresh (kernel_of Placed.run) (trace_of Placed.run))
    as (m & Hm & _ & H1 & H2).
  - vm_compute. reflexivity.
  - exists m. split; [exact Hm|]. split; [exact H1 | exact H2].
Defined.
